(** * MiniMart: the aggregation engine, the registry client and the view model

    A shallow embedding of the JavaScript sources
    [js/storeAggregator.js], [js/minimaAPI.js], [js/marketplace.js]
    (class [BlockchainAPI]) and [js/app.js] (class [MiniMartApp]),
    followed by the properties of the design document that they decide. *)

From Stdlib Require Import ZArith List String Ascii Bool Lia.
From Stdlib Require Import DecimalString HexadecimalString.
From stdpp Require Import base option list strings gmap.
Import ListNotations.

Set Warnings "-register-all".

Local Open Scope string_scope.
Local Open Scope Z_scope.

(** ** JavaScript values and the operators the sources use *)

Module JS.

(** Values as [JSON.parse] and object literals produce them.  A number is
    integer valued (every number the modelled code computes with is a
    counter, a status code or a millisecond clock reading).  [VObj] lists
    the own enumerable properties in enumeration order, each key once; a
    string is its sequence of code units, here within Latin-1. *)
Inductive value : Type :=
| VUndef
| VNull
| VBool (b : bool)
| VNum (n : Z)
| VStr (s : string)
| VArr (items : list value)
| VObj (props : list (string * value)).

(** What [throw] carries.  [TypeError] records the property or operation
    whose evaluation failed; its message text is the engine's own. *)
Inductive exn : Type :=
| Error (message : string)
| TypeError (what : string)
| SyntaxError
| ReferenceError (name : string)
| TimeoutError.

(** [String(n)] and [n.toString(16)] for an integer. *)
Definition numToStr (n : Z) : string :=
  DecimalString.NilZero.string_of_int (Z.to_int n).

Definition toString16 (n : Z) : string :=
  if n <? 0
  then "-" ++ HexadecimalString.NilZero.string_of_uint (N.to_hex_uint (Z.to_N (- n)))
  else HexadecimalString.NilZero.string_of_uint (N.to_hex_uint (Z.to_N n)).

(** [s.toUpperCase()], on the ASCII letters (exact on digit strings). *)
Definition upperChar (c : ascii) : ascii :=
  let n := nat_of_ascii c in
  if ((97 <=? n)%nat && (n <=? 122)%nat)%bool then ascii_of_nat (n - 32) else c.

Fixpoint toUpperCase (s : string) : string :=
  match s with
  | EmptyString => EmptyString
  | String c r => String (upperChar c) (toUpperCase r)
  end.

(** [s.charCodeAt(i)] for every [i], in order. *)
Fixpoint charCodes (s : string) : list Z :=
  match s with
  | EmptyString => []
  | String c r => Z.of_nat (nat_of_ascii c) :: charCodes r
  end.

(** ToString, as template literals and [+] with a string apply it. *)
Fixpoint toStr (v : value) : string :=
  match v with
  | VUndef => "undefined"
  | VNull => "null"
  | VBool true => "true"
  | VBool false => "false"
  | VNum n => numToStr n
  | VStr s => s
  | VArr items =>
      String.concat ","
        (map (fun x => match x with
                       | VUndef | VNull => ""
                       | _ => toStr x
                       end) items)
  | VObj _ => "[object Object]"
  end.

(** ToBoolean. *)
Definition truthy (v : value) : bool :=
  match v with
  | VUndef | VNull => false
  | VBool b => b
  | VNum n => negb (n =? 0)
  | VStr s => negb (String.eqb s "")
  | VArr _ | VObj _ => true
  end.

(** [a || b] *)
Definition or (a b : value) : value := if truthy a then a else b.

(** [v === "s"] against a string. *)
Definition strictEqStr (v : value) (s : string) : bool :=
  match v with
  | VStr t => String.eqb t s
  | _ => false
  end.

(** [v === true] *)
Definition strictEqTrue (v : value) : bool :=
  match v with
  | VBool true => true
  | _ => false
  end.

Fixpoint assoc (k : string) (props : list (string * value)) : value :=
  match props with
  | [] => VUndef
  | (k', v) :: rest => if String.eqb k' k then v else assoc k rest
  end.

(** The value of [v.k] where [v] is neither [null] nor [undefined], for
    the property names the sources read (none of them is inherited from a
    prototype, none is [length] or an index). *)
Definition prop (v : value) (k : string) : value :=
  match v with
  | VObj props => assoc k props
  | _ => VUndef
  end.

(** [v.k]: reading a property of [null] or [undefined] throws. *)
Definition get (v : value) (k : string) : exn + value :=
  match v with
  | VUndef | VNull => inl (TypeError k)
  | _ => inr (prop v k)
  end.

Fixpoint indexed {A} (i : nat) (l : list A) : list (string * A) :=
  match l with
  | [] => []
  | x :: r => (numToStr (Z.of_nat i), x) :: indexed (S i) r
  end.

Fixpoint chars (s : string) : list value :=
  match s with
  | EmptyString => []
  | String c r => VStr (String c EmptyString) :: chars r
  end.

(** [Object.entries(v)] *)
Definition Object_entries (v : value) : exn + list (string * value) :=
  match v with
  | VUndef | VNull => inl (TypeError "Object.entries")
  | VObj props => inr props
  | VArr items => inr (indexed 0 items)
  | VStr s => inr (indexed 0 (chars s))
  | VBool _ | VNum _ => inr []
  end.

(** [Array.isArray(v)] *)
Definition isArray (v : value) : bool :=
  match v with
  | VArr _ => true
  | _ => false
  end.

(** White space as [trim] sees it (within Latin-1). *)
Definition isWhite (c : ascii) : bool :=
  let n := nat_of_ascii c in
  (((9 <=? n)%nat && (n <=? 13)%nat) || (n =? 32)%nat || (n =? 160)%nat)%bool.

Fixpoint trimStart (s : string) : string :=
  match s with
  | EmptyString => EmptyString
  | String c r => if isWhite c then trimStart r else s
  end.

Fixpoint trimEnd (s : string) : string :=
  match s with
  | EmptyString => EmptyString
  | String c r =>
      match trimEnd r with
      | EmptyString => if isWhite c then EmptyString else String c EmptyString
      | r' => String c r'
      end
  end.

(** [s.trim()] *)
Definition trim (s : string) : string := trimEnd (trimStart s).

(** [s.includes(t)] *)
Fixpoint includes (s t : string) : bool :=
  (String.prefix t s ||
   match s with
   | EmptyString => false
   | String _ r => includes r t
   end)%bool.

(** [v + 1] *)
Definition plus1 (v : value) : value :=
  match v with
  | VNum n => VNum (n + 1)
  | VBool true => VNum 2
  | VBool false | VNull => VNum 1
  | VUndef => VUndef (* NaN, which no [value] denotes; the sources add to
                        [x || 0] only, which is never [undefined] *)
  | VStr _ | VArr _ | VObj _ => VStr (toStr v ++ "1")
  end.

(** [JSON.stringify]: the escapes of a string, then the values.  A
    property whose value is [undefined] is left out of an object, an
    [undefined] item of an array is written [null]. *)
Definition hexDigit (n : nat) : ascii :=
  match String.get n "0123456789abcdef" with
  | Some c => c
  | None => "0"%char
  end.

Definition quoteChar (c : ascii) : string :=
  let n := nat_of_ascii c in
  if (n =? 34)%nat then String "\" (String c EmptyString)
  else if (n =? 92)%nat then "\\"
  else if (n =? 8)%nat then "\b"
  else if (n =? 9)%nat then "\t"
  else if (n =? 10)%nat then "\n"
  else if (n =? 12)%nat then "\f"
  else if (n =? 13)%nat then "\r"
  else if (n <? 32)%nat
       then "\u00" ++ String (hexDigit (n / 16)) (String (hexDigit (n mod 16)) EmptyString)
       else String c EmptyString.

Fixpoint quoteChars (s : string) : string :=
  match s with
  | EmptyString => EmptyString
  | String c r => quoteChar c ++ quoteChars r
  end.

Definition doubleQuote : string := String (ascii_of_nat 34) EmptyString.

Definition quoteJSON (s : string) : string :=
  doubleQuote ++ quoteChars s ++ doubleQuote.

Fixpoint JSON_stringify (v : value) : option string :=
  match v with
  | VUndef => None
  | VNull => Some "null"
  | VBool true => Some "true"
  | VBool false => Some "false"
  | VNum n => Some (numToStr n)
  | VStr s => Some (quoteJSON s)
  | VArr items =>
      Some ("[" ++ String.concat ","
                     (map (fun x => match JSON_stringify x with
                                    | Some t => t
                                    | None => "null"
                                    end) items) ++ "]")
  | VObj props =>
      Some ("{" ++ String.concat ","
                     (flat_map (fun kv => match JSON_stringify (snd kv) with
                                          | Some t => [quoteJSON (fst kv) ++ ":" ++ t]
                                          | None => []
                                          end) props) ++ "}")
  end.

(** The value of the expression [JSON.stringify(v)]. *)
Definition stringified (v : value) : value :=
  match JSON_stringify v with
  | Some t => VStr t
  | None => VUndef
  end.

(** [error.message] *)
Definition messageOf (e : exn) : string :=
  match e with
  | Error message => message
  | TypeError what => what
  | SyntaxError => "SyntaxError"
  | ReferenceError name => name ++ " is not defined"
  | TimeoutError => "TimeoutError"
  end.

End JS.
Import JS.

(** ** The page: its global objects, and what the outside world answers *)

(** The options object of the one [fetch] call in the sources. *)
Record Request : Type := mkRequest {
  req_url : string;
  req_method : string;
  req_accept : string;
  req_timeout : Z            (* milliseconds given to [AbortSignal.timeout] *)
}.

(** How a [fetch] call ends.  [json] is what [response.json()] gives:
    [None] when the body is not JSON and the call rejects. *)
Inductive FetchOutcome : Type :=
| NetworkError (message : string)
| TimedOut
| Response (status : Z) (statusText : string) (json : option value).

(** [response.ok], as the Fetch standard defines it. *)
Definition response_ok (status : Z) : bool := (200 <=? status) && (status <=? 299).

(** The node's answer to a command: the [status]/[response]/[error] object
    handed to the callback of [MDS.cmd]. *)
Record Reply : Type := mkReply {
  status : value;
  response : value;
  error : value
}.

Inductive NodeOutcome : Type :=
| NoApi                          (* neither [MDS.cmd] nor [Minima.cmd] exists *)
| CmdThrows (message : string)   (* the call itself throws *)
| MDS_cmd (r : Reply)
| Minima_cmd (r : Reply).

(** A user profile as the application keeps it.  [store_url] is absent or
    a string; the other fields are copied into listings as they are. *)
Record Profile : Type := mkProfile {
  store_url : option string;
  username : value;
  address : value;
  maxima_address : value;
  verified : value;
  featured_dapp_uid : value
}.

(** Everything the code asks of its environment. *)
Record Env : Type := mkEnv {
  clock : nat -> Z;                  (* what the n-th [Date.now()] returns *)
  network : nat -> FetchOutcome;     (* how the n-th [fetch] ends *)
  schedule : list nat;               (* the order in which fetches in flight end *)
  node : nat -> string -> NodeOutcome;  (* the node on the n-th command *)
  initDevelopment : bool;            (* does [MinimaAPI.init] settle in development mode *)
  maxima : option exn;               (* [None]: a peer-messaging send is accepted *)
  JSON_parse : string -> option value   (* [None]: throws a SyntaxError *)
}.

(** The mutable state of the page: the fields of the singletons
    [window.storeAggregator], [window.minimaAPI], [window.blockchainAPI]
    and [window.app], the browser's [localStorage], and the effects made
    so far.  The listings of the view model are objects that several
    places may hold: [objects] is the store of them, [dapps] the array of
    references that [MiniMartApp] keeps. *)
Record World : Type := mkWorld {
  ticks : nat;                               (* [Date.now()] calls so far *)
  requests : list Request;                   (* [fetch] calls so far *)
  commands : list string;                    (* commands MinimaAPI gave the node *)
  localStorage : gmap string string;
  cachedStores : gmap string (list value);   (* StoreAggregator *)
  lastFetchTime : gmap string Z;             (* StoreAggregator *)
  minimaAPI_isReady : bool;                  (* MinimaAPI.isReady *)
  developmentMode : bool;                    (* MinimaAPI.developmentMode *)
  currentAddress : value;                    (* MinimaAPI.currentAddress *)
  blockchainAPI_isReady : bool;              (* BlockchainAPI.isReady *)
  objects : list value;                      (* listing objects, by reference *)
  dapps : list nat                           (* MiniMartApp.dapps *)
}.

Definition set_ticks (n : nat) (w : World) : World :=
  mkWorld n (requests w) (commands w) (localStorage w) (cachedStores w)
          (lastFetchTime w) (minimaAPI_isReady w) (developmentMode w)
          (currentAddress w) (blockchainAPI_isReady w) (objects w) (dapps w).

Definition set_requests (l : list Request) (w : World) : World :=
  mkWorld (ticks w) l (commands w) (localStorage w) (cachedStores w)
          (lastFetchTime w) (minimaAPI_isReady w) (developmentMode w)
          (currentAddress w) (blockchainAPI_isReady w) (objects w) (dapps w).

Definition set_commands (l : list string) (w : World) : World :=
  mkWorld (ticks w) (requests w) l (localStorage w) (cachedStores w)
          (lastFetchTime w) (minimaAPI_isReady w) (developmentMode w)
          (currentAddress w) (blockchainAPI_isReady w) (objects w) (dapps w).

Definition set_localStorage (m : gmap string string) (w : World) : World :=
  mkWorld (ticks w) (requests w) (commands w) m (cachedStores w)
          (lastFetchTime w) (minimaAPI_isReady w) (developmentMode w)
          (currentAddress w) (blockchainAPI_isReady w) (objects w) (dapps w).

Definition set_cache (c : gmap string (list value)) (t : gmap string Z) (w : World) : World :=
  mkWorld (ticks w) (requests w) (commands w) (localStorage w) c t
          (minimaAPI_isReady w) (developmentMode w)
          (currentAddress w) (blockchainAPI_isReady w) (objects w) (dapps w).

Definition set_minima (ready dev : bool) (w : World) : World :=
  mkWorld (ticks w) (requests w) (commands w) (localStorage w) (cachedStores w)
          (lastFetchTime w) ready dev
          (currentAddress w) (blockchainAPI_isReady w) (objects w) (dapps w).

Definition set_view (os : list value) (ds : list nat) (w : World) : World :=
  mkWorld (ticks w) (requests w) (commands w) (localStorage w) (cachedStores w)
          (lastFetchTime w) (minimaAPI_isReady w) (developmentMode w)
          (currentAddress w) (blockchainAPI_isReady w) os ds.

Definition set_currentAddress (a : value) (w : World) : World :=
  mkWorld (ticks w) (requests w) (commands w) (localStorage w) (cachedStores w)
          (lastFetchTime w) (minimaAPI_isReady w) (developmentMode w)
          a (blockchainAPI_isReady w) (objects w) (dapps w).

(** A computation: it runs in a world, ends by returning or by throwing,
    and leaves a world.  An [async] function that returns fulfils its
    promise, one that throws rejects it. *)
Definition M (A : Type) : Type := World -> (exn + A) * World.

Definition ret {A} (a : A) : M A := fun w => (inr a, w).

Definition throw {A} (e : exn) : M A := fun w => (inl e, w).

Definition bind {A B} (m : M A) (k : A -> M B) : M B :=
  fun w => match m w with
           | (inr a, w') => k a w'
           | (inl e, w') => (inl e, w')
           end.

Notation "x <- m ;; k" := (bind m (fun x => k))
  (at level 100, m at next level, right associativity).
Notation "m ;;; k" := (bind m (fun _ => k))
  (at level 100, right associativity).

(** [try { m } catch (e) { h e }] *)
Definition try_catch {A} (m : M A) (h : exn -> M A) : M A :=
  fun w => match m w with
           | (inl e, w') => h e w'
           | r => r
           end.

(** The settled state of the promise of [m], as [Promise.allSettled]
    reports it. *)
Definition settled {A} (m : M A) : M (exn + A) :=
  fun w => match m w with (r, w') => (inr r, w') end.

Definition lift {A} (r : exn + A) : M A := fun w => (r, w).

Definition read {A} (f : World -> A) : M A := fun w => (inr (f w), w).

Definition write (f : World -> World) : M unit := fun w => (inr tt, f w).

Section Effects.
Variable E : Env.

(** [Date.now()] *)
Definition Date_now : M Z :=
  fun w => (inr (clock E (ticks w)), set_ticks (S (ticks w)) w).

(** [await fetch(url, options)]: the call is made, and ends as the
    network decides. *)
Definition fetch (r : Request) : M FetchOutcome :=
  fun w => (inr (network E (List.length (requests w))), set_requests (requests w ++ [r])%list w).
End Effects.

(** ** js/storeAggregator.js *)

Module StoreAggregator.

(** [this.cacheDuration] *)
Definition cacheDuration : Z := 5 * 60 * 1000.

(** ToInt32: what the bitwise operators make of a number. *)
Definition toInt32 (z : Z) : Z := (z + 2 ^ 31) mod 2 ^ 32 - 2 ^ 31.

(** One turn of the loop of [generateUid]:
    [hash = ((hash << 5) - hash) + char; hash = hash & hash]. *)
Definition hashStep (hash char : Z) : Z :=
  let hash := (toInt32 (Z.shiftl (toInt32 hash) 5) - hash) + char in
  Z.land (toInt32 hash) (toInt32 hash).

Definition hashOf (combined : string) : Z :=
  fold_left hashStep (charCodes combined) 0.

(** [storeUrl.replace(/\/[^\/]*$/, '')]: the match, when there is one,
    starts at the last slash and runs to the end. *)
Fixpoint beforeLastSlash (s : string) : option string :=
  match s with
  | EmptyString => None
  | String c r =>
      match beforeLastSlash r with
      | Some p => Some (String c p)
      | None => if Ascii.eqb c "/" then Some EmptyString else None
      end
  end.

Definition baseUrlOf (storeUrl : string) : string :=
  match beforeLastSlash storeUrl with
  | Some p => p
  | None => storeUrl
  end.

(** The keys that describe the catalog itself. *)
Definition isMetadata (key : string) : bool :=
  String.eqb key "name" || String.eqb key "description" ||
  String.eqb key "icon" || String.eqb key "version".

Section WithEnv.
Variable E : Env.

Definition generateUid (dappName : string) (address : value) : M string :=
  t <- Date_now E ;;
  let combined := dappName ++ "_" ++ toStr address ++ "_" ++ numToStr t in
  ret ("0x" ++ toUpperCase (toString16 (Z.abs (hashOf combined)))).

(** The object literal [dapp] of [parseStoreData], its properties
    evaluated in the order they are written. *)
Definition dappOf (key : string) (dappData : value) (baseUrl storeUrl : string)
           (profile : Profile) : M value :=
  uid <- generateUid key (address profile) ;;
  name <- lift (get dappData "name") ;;
  description <- lift (get dappData "description") ;;
  version <- lift (get dappData "version") ;;
  category <- lift (get dappData "category") ;;
  miniDapp <- lift (get dappData "miniDapp") ;;
  file <- lift (get dappData "file") ;;
  icon <- lift (get dappData "icon") ;;
  downloads <- lift (get dappData "downloads") ;;
  timestamp <- Date_now E ;;
  ret (VObj
    [ ("uid", VStr uid);
      ("name", or name (VStr key));
      ("description", or description (VStr "No description provided"));
      ("version", or version (VStr "1.0.0"));
      ("category", or category (VStr "Utility"));
      ("file", VStr (baseUrl ++ "/" ++ toStr (or miniDapp file)));
      ("icon", if truthy icon then VStr (baseUrl ++ "/" ++ toStr icon) else VNull);
      ("developer", username profile);
      ("developer_address", address profile);
      ("maxima_address", or (maxima_address profile) VNull);
      ("store_url", VStr storeUrl);
      ("store_name", VStr (toStr (username profile) ++ "'s Store"));
      ("downloads", or downloads (VNum 0));
      ("timestamp", VNum timestamp);
      ("verified", or (verified profile) (VBool false));
      ("featured", VBool (strictEqStr (featured_dapp_uid profile) key)) ]).

(** The body of the [for] loop: metadata keys are passed over, an entry
    whose conversion throws is skipped with a warning. *)
Definition parseEntry (baseUrl storeUrl : string) (profile : Profile)
           (dapps : list value) (entry : string * value) : M (list value) :=
  let '(key, dappData) := entry in
  try_catch
    (if isMetadata key then ret dapps
     else dapp <- dappOf key dappData baseUrl storeUrl profile ;;
          ret (dapps ++ [dapp])%list)
    (fun _ => ret dapps).

Fixpoint parseEntries (baseUrl storeUrl : string) (profile : Profile)
         (entries : list (string * value)) (dapps : list value) : M (list value) :=
  match entries with
  | [] => ret dapps
  | entry :: rest =>
      dapps' <- parseEntry baseUrl storeUrl profile dapps entry ;;
      parseEntries baseUrl storeUrl profile rest dapps'
  end.

Definition parseStoreData (storeData : value) (storeUrl : string)
           (profile : Profile) : M (list value) :=
  let baseUrl := baseUrlOf storeUrl in
  entries <- lift (Object_entries storeData) ;;
  parseEntries baseUrl storeUrl profile entries [].

(** [lastFetch && (now - lastFetch) < this.cacheDuration] *)
Definition isFresh (lastFetch : option Z) (now : Z) : bool :=
  match lastFetch with
  | Some t => negb (t =? 0) && (now - t <? cacheDuration)
  | None => false
  end.

Definition theRequest (storeUrl : string) : Request :=
  mkRequest storeUrl "GET" "application/json" 10000.

(** [fetchStore] up to its first [await]: either the fresh cache record
    is returned, or the request is made; [inr (now, outcome)] is the
    call in flight, with the reading of [now]. *)
Definition fetchStore_begin (storeUrl : string)
  : M (list value + Z * FetchOutcome) :=
  now <- Date_now E ;;
  lastFetch <- read (fun w => lastFetchTime w !! storeUrl) ;;
  cached <- read (fun w => cachedStores w !! storeUrl) ;;
  match (if isFresh lastFetch now then cached else None) with
  | Some cached => ret (inl cached)
  | None =>
      startTime <- Date_now E ;;
      outcome <- fetch E (theRequest storeUrl) ;;
      ret (inr (now, outcome))
  end.

(** [fetchStore] from the moment its [fetch] has ended: the rest of the
    [try] block. *)
Definition fetchStore_try (storeUrl : string) (profile : Profile) (now : Z)
           (outcome : FetchOutcome) : M (list value) :=
  match outcome with
  | NetworkError message => throw (Error message)
  | TimedOut => throw TimeoutError
  | Response status statusText json =>
      fetchTime <- Date_now E ;;
      if negb (response_ok status)
      then throw (Error ("HTTP " ++ numToStr status ++ ": " ++ statusText))
      else match json with
           | None => throw SyntaxError
           | Some storeData =>
               keys <- lift (Object_entries storeData) ;;
               dapps <- parseStoreData storeData storeUrl profile ;;
               write (fun w => set_cache (<[storeUrl := dapps]> (cachedStores w))
                                         (<[storeUrl := now]> (lastFetchTime w)) w) ;;;
               ret dapps
           end
  end.

(** The [catch] block: any record of the store is returned, whatever
    its age; without one the error goes on to the caller. *)
Definition fetchStore_catch (storeUrl : string) (error : exn) : M (list value) :=
  cached <- read (fun w => cachedStores w !! storeUrl) ;;
  match cached with
  | Some cached => ret cached
  | None => throw error
  end.

Definition fetchStore_end (storeUrl : string) (profile : Profile) (now : Z)
           (outcome : FetchOutcome) : M (list value) :=
  try_catch (fetchStore_try storeUrl profile now outcome)
            (fetchStore_catch storeUrl).

Definition fetchStore (storeUrl : string) (profile : Profile) : M (list value) :=
  started <- fetchStore_begin storeUrl ;;
  match started with
  | inl cached => ret cached
  | inr (now, outcome) => fetchStore_end storeUrl profile now outcome
  end.

(** [p.store_url && p.store_url.trim()], as [filter] reads it. *)
Definition hasStore (p : Profile) : bool :=
  match store_url p with
  | Some u => negb (String.eqb u "") && negb (String.eqb (trim u) "")
  | None => false
  end.

(** One call of [fetchStore] among those [fetchAllStores] has started:
    settled, or waiting for its [fetch]. *)
Inductive Pipeline : Type :=
| Done (result : exn + list value)
| Waiting (storeUrl : string) (profile : Profile) (now : Z) (outcome : FetchOutcome).

(** [this.fetchStore(profile.store_url, profile)] runs to its first
    [await] when [map] calls it. *)
Definition launch (profile : Profile) : M Pipeline :=
  let storeUrl := default "" (store_url profile) in
  started <- settled (fetchStore_begin storeUrl) ;;
  ret (match started with
       | inl e => Done (inl e)
       | inr (inl cached) => Done (inr cached)
       | inr (inr (now, outcome)) => Waiting storeUrl profile now outcome
       end).

Fixpoint launchAll (profiles : list Profile) : M (list Pipeline) :=
  match profiles with
  | [] => ret []
  | p :: rest =>
      x <- launch p ;;
      xs <- launchAll rest ;;
      ret (x :: xs)
  end.

(** The fetch of pipeline [i] ends and the pipeline runs to its end. *)
Definition finish (i : nat) (ps : list Pipeline) : M (list Pipeline) :=
  match ps !! i with
  | Some (Waiting storeUrl profile now outcome) =>
      r <- settled (fetchStore_end storeUrl profile now outcome) ;;
      ret (<[i := Done r]> ps)
  | _ => ret ps
  end.

Fixpoint finishAll (order : list nat) (ps : list Pipeline) : M (list Pipeline) :=
  match order with
  | [] => ret ps
  | i :: rest =>
      ps' <- finish i ps ;;
      finishAll rest ps'
  end.

(** A call in flight that has not ended has no result. *)
Definition resultOf (p : Pipeline) : option (exn + list value) :=
  match p with
  | Done r => Some r
  | Waiting _ _ _ _ => None
  end.

(** [await Promise.allSettled(storePromises)]: the pipelines are started
    in the order of the profiles; the fetches in flight end in the order
    the environment schedules, and every one of them ends (each has its
    timeout); the results come in the order of the profiles. *)
Definition allSettled (profiles : list Profile) : M (list (exn + list value)) :=
  started <- launchAll profiles ;;
  ended <- finishAll (schedule E ++ seq 0%nat (length profiles))%list started ;;
  ret (omap resultOf ended).

(** The three accumulators of [fetchAllStores]. *)
Record Tally : Type := mkTally {
  allDapps : list value;
  successCount : nat;
  failCount : nat
}.

(** The callback of [storeResults.forEach]; a fulfilled [fetchStore]
    has an array for value, which is truthy even when empty. *)
Definition count (t : Tally) (result : exn + list value) : Tally :=
  match result with
  | inr dapps => mkTally (allDapps t ++ dapps)%list (S (successCount t)) (failCount t)
  | inl _ => mkTally (allDapps t) (successCount t) (S (failCount t))
  end.

(** [fetchAllStores] with the counters it logs in its summary; [None]
    when it returns early, for want of a store. *)
Definition aggregation (profiles : list Profile) : M (option Tally) :=
  let profilesWithStores := List.filter hasStore profiles in
  if (length profilesWithStores =? 0)%nat then ret None
  else storeResults <- allSettled profilesWithStores ;;
       ret (Some (fold_left count storeResults (mkTally [] 0 0))).

Definition fetchAllStores (profiles : list Profile) : M (list value) :=
  t <- aggregation profiles ;;
  ret (match t with
       | Some t => allDapps t
       | None => []
       end).

End WithEnv.

(** [clearCache(storeUrl = null)]: [None] is the call without an
    argument; the empty string is falsy and clears everything, as
    [null] does. *)
Definition clearCache (storeUrl : option string) : M unit :=
  match storeUrl with
  | Some u =>
      if negb (String.eqb u "")
      then write (fun w => set_cache (delete u (cachedStores w))
                                     (delete u (lastFetchTime w)) w)
      else write (set_cache ∅ ∅)
  | None => write (set_cache ∅ ∅)
  end.

End StoreAggregator.

(** ** js/minimaAPI.js *)

Module MinimaAPI.

(** The answers of development mode ([_mockCommandResponse]). *)
Definition mockPublicKey : string :=
  "0x30819F300D06092A864886F70D010101050003818D00308189028181008BF0A5906D2D41EB1006BE29310BD51706AE957B38894EF2BDDE2392ED780F66BC0A14E2F2C7F4FB966EBE553E8F0A624BAE9A3C65ADFDB91D196E433B586DE2F019383B78E089FE76AF4C0CF46E1FC13DCA740251DD8F9736E2A9932D30A1B4715F9C27D4C13B0FFE167CABEAC4317C08C6471C476271766E97CB401C5E45A90203010001".

Definition mockScript : string := "RETURN SIGNEDBY(" ++ mockPublicKey ++ ")".

Definition mockAddress : string :=
  "MxG080EFPWA5187VNP2E3H63G70MZVRHWE9SYNSGMUCV77DN5699E1GY6N38575".

Definition _mockCommandResponse (command : string) : Reply :=
  if includes command "getaddress" then
    mkReply VUndef
      (VObj [ ("script", VStr mockScript);
              ("address", VStr mockAddress);
              ("miniaddress", VStr mockAddress);
              ("simple", VBool true);
              ("default", VBool true);
              ("publickey", VStr mockPublicKey);
              ("track", VBool true) ])
      VUndef
  else if includes command "balance" then
    mkReply VUndef (VObj [("balance", VStr "11585.69")]) VUndef
  else
    mkReply VUndef (VObj [("mock", VBool true); ("command", VStr command)]) VUndef.

Section WithEnv.
Variable E : Env.

(** [init()], by what it leaves: on every path on which its promise
    settles [isReady] has been set, and [developmentMode] says whether
    the node interface was found. *)
Definition init : M unit :=
  write (set_minima true (initDevelopment E)).

(** The callback of [MDS.cmd] or [Minima.cmd]. *)
Definition answered (r : Reply) (failed : string) : M Reply :=
  if truthy (status r) then ret r
  else throw (Error (toStr (or (error r) (VStr failed)))).

Definition _mdsCommand (command : string) : M Reply :=
  ready <- read minimaAPI_isReady ;;
  if negb ready then throw (Error "API not initialized")
  else
    dev <- read developmentMode ;;
    if dev then ret (_mockCommandResponse command)
    else
      n <- read (fun w => length (commands w)) ;;
      match node E n command with
      | MDS_cmd r =>
          write (fun w => set_commands (commands w ++ [command])%list w) ;;;
          answered r "MDS command failed"
      | Minima_cmd r =>
          write (fun w => set_commands (commands w ++ [command])%list w) ;;;
          answered r "Minima command failed"
      | NoApi => throw (Error "No API available for command execution")
      | CmdThrows message =>
          write (fun w => set_commands (commands w ++ [command])%list w) ;;;
          throw (Error ("API command execution failed: " ++ message))
      end.

Definition cmd (command : string) : M Reply := _mdsCommand command.

Definition sendCustomTransaction (transactionData : value) : M value :=
  try_catch
    (ready <- read minimaAPI_isReady ;;
     (if negb ready then init else ret tt) ;;;
     let command := "send " in
     amount <- lift (get transactionData "amount") ;;
     let command :=
       if truthy amount then command ++ "amount:" ++ toStr amount ++ " " else command in
     address <- lift (get transactionData "address") ;;
     let command :=
       if truthy address then command ++ "address:" ++ toStr address ++ " " else command in
     state <- lift (get transactionData "state") ;;
     let command :=
       if truthy state
       then let stateObj := VObj [("0", stringified state)] in
            command ++ " state:" ++ toStr (stringified stateObj)
       else command in
     result <- _mdsCommand command ;;
     if truthy (response result) && truthy (prop (response result) "txpowid")
     then ret (prop (response result) "txpowid")
     else throw (Error "Transaction failed - no txpowid returned"))
    (fun error => throw (Error ("Transaction failed: " ++ messageOf error))).

(** [localStorage.getItem(key)], a string or [null]. *)
Definition getItem (key : string) : M value :=
  read (fun w => match localStorage w !! key with
                 | Some s => VStr s
                 | None => VNull
                 end).

Definition setItem (key : string) (v : value) : M unit :=
  write (fun w => set_localStorage (<[key := toStr v]> (localStorage w)) w).

Definition getPersistentUserId : M value :=
  storedId <- getItem "minidev_persistent_id" ;;
  if truthy storedId then ret storedId else read currentAddress.

(** The address that development mode makes up. *)
Definition devAddress : string := "MxDEV1234567890ABCDEFGH1234567890ABCDEFGH".

Definition getCurrentAddress : M value :=
  try_catch
    (ready <- read minimaAPI_isReady ;;
     (if negb ready then init else ret tt) ;;;
     dev <- read developmentMode ;;
     if dev then
       storedAddress <- getItem "minidev_address" ;;
       if truthy storedAddress
       then write (set_currentAddress storedAddress) ;;;
            ret storedAddress
       else write (set_currentAddress (VStr devAddress)) ;;;
            setItem "minidev_address" (VStr devAddress) ;;;
            ret (VStr devAddress)
     else
       result <- _mdsCommand "getaddress" ;;
       if truthy (response result) && truthy (prop (response result) "address")
       then
         let address := prop (response result) "address" in
         write (set_currentAddress address) ;;;
         persistentId <- getItem "minidev_persistent_id" ;;
         (if negb (truthy persistentId)
          then setItem "minidev_persistent_id" address
          else ret tt) ;;;
         ret address
       else throw (Error "Failed to get address from Minima node"))
    (fun error => throw (Error ("Failed to get Minima address: " ++ messageOf error))).

(** [setManualAddress(address)], for the string its documentation asks for. *)
Definition setManualAddress (address : string) : M bool :=
  if negb (String.eqb address "") && String.prefix "Mx" address
     && (30 <=? String.length address)%nat
  then write (set_currentAddress (VStr address)) ;;;
       setItem "minidev_address" (VStr address) ;;;
       ret true
  else ret false.

End WithEnv.

End MinimaAPI.

(** ** js/maximaAPI.js *)

Module MaximaAPI.

Section WithEnv.
Variable E : Env.

(** [broadcastDownload], by its outcome: the send goes through the
    peer-messaging layer with state of its own, none of it read by the
    code modelled here; it returns once accepted, or throws. *)
Definition broadcastDownload (dappUid : string) (downloaderAddress : value) : M unit :=
  match maxima E with
  | None => ret tt
  | Some e => throw e
  end.

End WithEnv.

End MaximaAPI.

(** ** js/marketplace.js, class BlockchainAPI *)

Module BlockchainAPI.

(** The treasury that receives the registration fee. *)
Definition treasury : string :=
  "MxG086AUGQMWM6S47P6GWR2U1AV3391EPR5Q53N7DN9MGNMMN6BMH270SV8QRSC".

Definition registrationTag : string := "minidev_dapp_registration".

(** [coin.state.find(s => s.port === '0')]; the callback throws on an
    item that is [null]. *)
Fixpoint findPort0 (items : list value) : exn + option value :=
  match items with
  | [] => inr None
  | s :: rest =>
      match get s "port" with
      | inl e => inl e
      | inr port => if strictEqStr port "0" then inr (Some s) else findPort0 rest
      end
  end.

(** The object pushed for a coin whose state decodes to [dappData]. *)
Definition registeredDapp (coin dappData : value) : value :=
  VObj [ ("uid", prop dappData "dapp_uid");
         ("name", prop dappData "name");
         ("version", prop dappData "version");
         ("description", prop dappData "description");
         ("category", prop dappData "category");
         ("icon", or (prop dappData "icon") VNull);
         ("ipfs_hash", prop dappData "ipfs_hash");
         ("developer_address", prop dappData "developer_address");
         ("timestamp", prop dappData "timestamp");
         ("downloads", VNum 0);
         ("tips", VNum 0);
         ("txId", or (prop coin "coinid") (prop coin "txpowid")) ].

(** [for (const coin of coins)] needs an iterable. *)
Definition iterate (coins : value) : exn + list value :=
  match coins with
  | VArr items => inr items
  | VStr s => inr (chars s)
  | _ => inl (TypeError "is not iterable")
  end.

Definition profileTag : string := "minidev_profile_registration".

Definition identityTag : string := "minidev_developer_identity".

(** The own enumerable properties that [{...v}] copies; none for
    [null], [undefined], a number or a boolean. *)
Definition spread (v : value) : list (string * value) :=
  match Object_entries v with
  | inr props => props
  | inl _ => []
  end.

(** [{...props, k: v}]: a key that is there keeps its place. *)
Fixpoint withProp (props : list (string * value)) (k : string) (v : value)
  : list (string * value) :=
  match props with
  | [] => [(k, v)]
  | (k', x) :: rest =>
      if String.eqb k' k then (k', v) :: rest else (k', x) :: withProp rest k v
  end.

(** The object pushed for a coin whose state decodes to [profileData]. *)
Definition registeredProfile (coin profileData : value) : value :=
  VObj (withProp
          (withProp (spread profileData)
                    "txId" (or (prop coin "coinid") (prop coin "txpowid")))
          "block" (or (prop coin "created") (VStr "unknown"))).

Section WithEnv.
Variable E : Env.

(** The inner [try] of the scan: decode the data of port 0 and push the
    dapp when it is tagged as a registration; [catch (e) {}] skips. *)
Definition decode (coin data : value) (dapps : list value) : list value :=
  match JSON_parse E (toStr data) with
  | None => dapps
  | Some dappData =>
      match get dappData "type" with
      | inl _ => dapps
      | inr type =>
          if strictEqStr type registrationTag
          then (dapps ++ [registeredDapp coin dappData])%list
          else dapps
      end
  end.

(** The body of the [for] loop, before the test of the limit. *)
Definition visit (coin : value) (dapps : list value) : exn + list value :=
  match get coin "state" with
  | inl e => inl e
  | inr state =>
      match state with
      | VArr items =>
          match findPort0 items with
          | inl e => inl e
          | inr None => inr dapps
          | inr (Some dappState) =>
              if truthy (prop dappState "data")
              then inr (decode coin (prop dappState "data") dapps)
              else inr dapps
          end
      | _ => inr dapps
      end
  end.

Fixpoint scan (coins : list value) (limit : Z) (dapps : list value)
  : exn + list value :=
  match coins with
  | [] => inr dapps
  | coin :: rest =>
      match visit coin dapps with
      | inl e => inl e
      | inr dapps =>
          if Z.of_nat (length dapps) >=? limit then inr dapps
          else scan rest limit dapps
      end
  end.

(** [limit] is [None] when the argument is left out. *)
Definition queryRegisteredDapps (limit : option Z) : M (list value) :=
  let limit := default 100 limit in
  try_catch
    (ready <- read blockchainAPI_isReady ;;
     if negb ready then throw (Error "Blockchain API not ready")
     else
       result <- MinimaAPI.cmd E "coins relevant:false" ;;
       if negb (truthy (response result))
          || negb (truthy (prop (response result) "coins"))
       then ret []
       else
         coins <- lift (iterate (prop (response result) "coins")) ;;
         lift (scan coins limit []))
    (fun error => ret []).

Definition registerDapp (dapp developerAddress : value) : M value :=
  try_catch
    (ready <- read blockchainAPI_isReady ;;
     if negb ready then throw (Error "Blockchain API not ready")
     else
       name <- lift (get dapp "name") ;;
       timestamp <- Date_now E ;;
       let transactionData :=
         VObj [ ("amount", VStr "0.01");
                ("address", VStr treasury);
                ("state",
                 VObj [ ("type", VStr registrationTag);
                        ("dapp_uid", prop dapp "uid");
                        ("name", prop dapp "name");
                        ("version", prop dapp "version");
                        ("description", prop dapp "description");
                        ("category", prop dapp "category");
                        ("ipfs_hash", prop dapp "ipfs_hash");
                        ("developer_address", developerAddress);
                        ("timestamp", VNum timestamp);
                        ("registration_fee", VStr "0.01") ]) ] in
       txId <- MinimaAPI.sendCustomTransaction E transactionData ;;
       ret txId)
    (fun error => throw error).

Definition registerProfile (profile : value) : M value :=
  try_catch
    (ready <- read blockchainAPI_isReady ;;
     if negb ready then throw (Error "Blockchain API not ready")
     else
       username <- lift (get profile "username") ;;
       let transactionData :=
         VObj [ ("amount", VStr "0.01");
                ("address", VStr treasury);
                ("state",
                 VObj [ ("type", VStr profileTag);
                        ("username", prop profile "username");
                        ("bio", or (prop profile "bio") (VStr ""));
                        ("gitUrl", or (prop profile "gitUrl") VNull);
                        ("twitterUrl", or (prop profile "twitterUrl") VNull);
                        ("address", prop profile "address");
                        ("timestamp", prop profile "timestamp");
                        ("registration_fee", VStr "0.01") ]) ] in
       txId <- MinimaAPI.sendCustomTransaction E transactionData ;;
       ret txId)
    (fun error => throw error).

(** The inner [try] of [queryProfiles]: decode the data of port 0 and
    push it, with the coin's id and block, unless an address is asked
    for and it is another's; [catch (e)] skips.  [address] is [None]
    when the argument is left out; the empty string is falsy too. *)
Definition decodeProfile (address : option string) (coin data : value)
           (profiles : list value) : list value :=
  match JSON_parse E (toStr data) with
  | None => profiles
  | Some profileData =>
      let pushed := (profiles ++ [registeredProfile coin profileData])%list in
      match address with
      | None => pushed
      | Some a =>
          if String.eqb a "" then pushed
          else match get profileData "address" with
               | inl _ => profiles
               | inr found => if strictEqStr found a then pushed else profiles
               end
      end
  end.

(** The body of the [for] loop of [queryProfiles]. *)
Definition visitProfile (address : option string) (coin : value)
           (profiles : list value) : exn + list value :=
  match get coin "state" with
  | inl e => inl e
  | inr state =>
      match state with
      | VArr items =>
          match findPort0 items with
          | inl e => inl e
          | inr None => inr profiles
          | inr (Some profileState) =>
              if truthy profileState
              then inr (decodeProfile address coin (prop profileState "data") profiles)
              else inr profiles
          end
      | _ => inr profiles
      end
  end.

Fixpoint scanProfiles (address : option string) (coins : list value)
         (profiles : list value) : exn + list value :=
  match coins with
  | [] => inr profiles
  | coin :: rest =>
      match visitProfile address coin profiles with
      | inl e => inl e
      | inr profiles => scanProfiles address rest profiles
      end
  end.

Definition queryProfiles (address : option string) : M (list value) :=
  try_catch
    (ready <- read blockchainAPI_isReady ;;
     if negb ready then throw (Error "Blockchain API not ready")
     else
       result <- MinimaAPI.cmd E "coins relevant:false" ;;
       if negb (truthy (response result))
          || negb (truthy (prop (response result) "coins"))
       then ret []
       else
         coins <- lift (iterate (prop (response result) "coins")) ;;
         lift (scanProfiles address coins []))
    (fun error => ret []).

(** The lookup is not implemented: [null] on every path. *)
Definition getDappRegistration (dappUid : string) : M value :=
  try_catch
    (ready <- read blockchainAPI_isReady ;;
     if negb ready then throw (Error "Blockchain API not ready")
     else ret VNull)
    (fun error => ret VNull).

Definition verifyDappOwnership (dappUid claimedOwner : string) : M bool :=
  try_catch
    (registration <- getDappRegistration dappUid ;;
     if negb (truthy registration) then ret false
     else
       developer_address <- lift (get registration "developer_address") ;;
       ret (strictEqStr developer_address claimedOwner))
    (fun error => ret false).

Definition registerDeveloperIdentity (developerAddress identityHash : value) : M value :=
  try_catch
    (ready <- read blockchainAPI_isReady ;;
     if negb ready then throw (Error "Blockchain API not ready")
     else
       timestamp <- Date_now E ;;
       let transactionData :=
         VObj [ ("amount", VStr "0.001");
                ("address", VStr treasury);
                ("state",
                 VObj [ ("type", VStr identityTag);
                        ("developer_address", developerAddress);
                        ("identity_hash", identityHash);
                        ("timestamp", VNum timestamp) ]) ] in
       txId <- MinimaAPI.sendCustomTransaction E transactionData ;;
       ret txId)
    (fun error => throw error).

End WithEnv.

End BlockchainAPI.

(** ** js/app.js, class MiniMartApp *)

Module MiniMartApp.

Fixpoint setAssoc (k : string) (v : value) (props : list (string * value))
  : list (string * value) :=
  match props with
  | [] => [(k, v)]
  | (k', x) :: rest =>
      if String.eqb k' k then (k', v) :: rest else (k', x) :: setAssoc k v rest
  end.

(** [o.k = v] on an object. *)
Definition setProp (o : value) (k : string) (v : value) : value :=
  match o with
  | VObj props => VObj (setAssoc k v props)
  | _ => o
  end.

(** The value a reference stands for. *)
Definition deref (objects : list value) (r : nat) : value :=
  default VUndef (objects !! r).

(** [this.dapps.find(d => d.uid === dappUid)], as the reference found. *)
Fixpoint find (objects : list value) (dappUid : string) (refs : list nat)
  : exn + option nat :=
  match refs with
  | [] => inr None
  | r :: rest =>
      match get (deref objects r) "uid" with
      | inl e => inl e
      | inr uid => if strictEqStr uid dappUid then inr (Some r) else find objects dappUid rest
      end
  end.

Section WithEnv.
Variable E : Env.

Definition anonymous : M value :=
  t <- Date_now E ;;
  let fallback := VStr ("anonymous_" ++ numToStr t) in
  MinimaAPI.setItem "minidev_persistent_id" fallback ;;;
  ret fallback.

Definition getUserMinimaAddress : M value :=
  try_catch
    (persistentId <- MinimaAPI.getPersistentUserId ;;
     if truthy persistentId then ret persistentId
     else
       addressResult <- MinimaAPI.cmd E "getaddress" ;;
       if truthy (response addressResult)
          && truthy (prop (response addressResult) "address")
       then
         let address := prop (response addressResult) "address" in
         MinimaAPI.setItem "minidev_persistent_id" address ;;;
         ret address
       else anonymous)
    (fun error => anonymous).

(** [this.dapps.unshift(dapp)]; the redrawing that follows touches the
    document only. *)
Definition handleNewDapp (dapp : value) : M unit :=
  write (fun w => set_view (objects w ++ [dapp])%list (length (objects w) :: dapps w) w).

Definition handleProfileUpdate (profile : value) : M unit := ret tt.

Definition handleMaximaMessage (message : value) : M unit :=
  type <- lift (get message "type") ;;
  if strictEqStr type "minidev_new_dapp" then handleNewDapp (prop message "dapp")
  else if strictEqStr type "minidev_profile_update"
       then handleProfileUpdate (prop message "profile")
       else ret tt.

(** [dapp.downloads = (dapp.downloads || 0) + 1], through the reference. *)
Definition countDownload (r : nat) : M unit :=
  write (fun w =>
    let dapp := deref (objects w) r in
    let dapp' := setProp dapp "downloads"
                         (plus1 (or (prop dapp "downloads") (VNum 0))) in
    set_view (<[r := dapp']> (objects w)) (dapps w) w).

(** The toasts and the redrawing touch the document only.  The inner
    [catch] reads [installResult], a [const] of the [try] block. *)
Definition downloadDapp (dappUid : string) : M unit :=
  try_catch
    (userAddress <- getUserMinimaAddress ;;
     found <- (fun w => (find (objects w) dappUid (dapps w), w)) ;;
     match found with
     | None => ret tt
     | Some r =>
         file <- read (fun w => prop (deref (objects w) r) "file") ;;
         if negb (truthy file) then ret tt
         else
           try_catch
             (installResult <- MinimaAPI.cmd E ("mds action:install file:" ++ toStr file) ;;
              if strictEqTrue (status installResult)
              then
                try_catch (MaximaAPI.broadcastDownload E dappUid userAddress)
                          (fun maximaError => ret tt) ;;;
                countDownload r
              else throw (Error (toStr (or (error installResult)
                                           (VStr "MDS install returned false status")))))
             (fun installError => throw (ReferenceError "installResult"))
     end)
    (fun error => ret tt).

End WithEnv.

End MiniMartApp.

(** ** Profiles in the browser's store

    [MinimaAPI.saveProfile] (js/minimaAPI.js) with the broadcast it
    calls (js/maximaAPI.js), and [MiniMartApp.checkUsernameUnique]
    (js/app.js), which reads what it stores. *)

Module Profiles.

(** [a === b] where [a] comes fresh from [JSON.parse]: an object or an
    array just made is identical to nothing else. *)
Definition strictEq (a b : value) : bool :=
  match a, b with
  | VUndef, VUndef => true
  | VNull, VNull => true
  | VBool x, VBool y => Bool.eqb x y
  | VNum x, VNum y => (x =? y)%Z
  | VStr x, VStr y => String.eqb x y
  | _, _ => false
  end.

Section WithEnv.
Variable E : Env.

(** [MaximaAPI.broadcastProfileUpdate], by its outcome: the message is
    stamped with the clock, then sent through the peer-messaging layer. *)
Definition broadcastProfileUpdate (profile : value) : M unit :=
  timestamp <- Date_now E ;;
  match maxima E with
  | None => ret tt
  | Some e => throw e
  end.

Definition saveProfile (profileData : value) : M bool :=
  try_catch
    (if negb (truthy profileData) then throw (Error "Profile data is required")
     else
       userId <- MinimaAPI.getPersistentUserId ;;
       if negb (truthy userId) then throw (Error "Unable to get persistent user ID")
       else
         let storageKey := "minidev_profile_" ++ toStr userId in
         lastUpdated <- Date_now E ;;
         MinimaAPI.setItem storageKey
           (stringified
              (VObj (BlockchainAPI.withProp
                       (BlockchainAPI.withProp (BlockchainAPI.spread profileData)
                                               "lastUpdated" (VNum lastUpdated))
                       "storedLocally" (VBool true)))) ;;;
         try_catch (broadcastProfileUpdate profileData) (fun maximaError => ret tt) ;;;
         ret true)
    (fun error => throw (Error ("Failed to save profile: " ++ messageOf error))).

(** The body of the loop of [checkUsernameUnique] for the text stored
    under one profile key: does it hold [username] for another address.
    Text that does not parse, or parses to [null], is skipped. *)
Definition takenBy (username : string) (currentAddress : value) (text : string) : bool :=
  match JSON_parse E text with
  | None => false
  | Some profileData =>
      match get profileData "username" with
      | inl _ => false
      | inr found =>
          strictEqStr found username
          && negb (strictEq (prop profileData "address") currentAddress)
      end
  end.

(** The keys are visited in the order the browser lists them; the
    answer does not depend on it. *)
Definition checkUsernameUnique (username : string) (currentAddress : value) : M bool :=
  try_catch
    (allKeys <- read (fun w => map_to_list (localStorage w)) ;;
     let profileKeys :=
       List.filter (fun kv => String.prefix "minidev_profile_" (fst kv)) allKeys in
     ret (negb (existsb (fun kv => takenBy username currentAddress (snd kv)) profileKeys)))
    (fun error => ret true).

End WithEnv.

End Profiles.

(** * The vocabulary of the properties *)

Ltac run := unfold bind, ret, throw, try_catch, lift, read, write, settled in *.

Definition nullish (v : value) : bool :=
  match v with
  | VUndef | VNull => true
  | _ => false
  end.

Module Catalog.

(** The identifier [generateUid] gives a key and an address at clock
    reading [t]. *)
Definition uidAt (key : string) (address : value) (t : Z) : string :=
  "0x" ++ toUpperCase (toString16 (Z.abs
     (StoreAggregator.hashOf (key ++ "_" ++ toStr address ++ "_" ++ numToStr t)))).

(** The listing of a key whose data is an object or a primitive, made at
    the clock readings [t1] (identifier) and [t2] (timestamp). *)
Definition listing (key : string) (dd : value) (baseUrl storeUrl : string)
           (p : Profile) (t1 t2 : Z) : value :=
  VObj
    [ ("uid", VStr (uidAt key (address p) t1));
      ("name", or (prop dd "name") (VStr key));
      ("description", or (prop dd "description") (VStr "No description provided"));
      ("version", or (prop dd "version") (VStr "1.0.0"));
      ("category", or (prop dd "category") (VStr "Utility"));
      ("file", VStr (baseUrl ++ "/" ++ toStr (or (prop dd "miniDapp") (prop dd "file"))));
      ("icon", if truthy (prop dd "icon")
               then VStr (baseUrl ++ "/" ++ toStr (prop dd "icon")) else VNull);
      ("developer", username p);
      ("developer_address", address p);
      ("maxima_address", or (maxima_address p) VNull);
      ("store_url", VStr storeUrl);
      ("store_name", VStr (toStr (username p) ++ "'s Store"));
      ("downloads", or (prop dd "downloads") (VNum 0));
      ("timestamp", VNum t2);
      ("verified", or (verified p) (VBool false));
      ("featured", VBool (strictEqStr (featured_dapp_uid p) key)) ].

(** What the loop of [parseStoreData] appends, entry by entry, when it
    starts at the [t]-th clock reading. *)
Fixpoint listings (E : Env) (baseUrl storeUrl : string) (p : Profile)
         (entries : list (string * value)) (t : nat) : list value :=
  match entries with
  | [] => []
  | (key, dd) :: rest =>
      if StoreAggregator.isMetadata key then listings E baseUrl storeUrl p rest t
      else if nullish dd then listings E baseUrl storeUrl p rest (S t)
      else listing key dd baseUrl storeUrl p (clock E t) (clock E (S t))
           :: listings E baseUrl storeUrl p rest (S (S t))
  end.

(** The number of clock readings the loop takes. *)
Fixpoint readings (entries : list (string * value)) : nat :=
  match entries with
  | [] => 0
  | (key, dd) :: rest =>
      if StoreAggregator.isMetadata key then readings rest
      else if nullish dd then S (readings rest)
      else S (S (readings rest))
  end.

End Catalog.

Import Catalog.

(** An entry of a catalog that gets a listing: its key is not one of the
    metadata keys and its data is not [null]. *)
Definition listed (entry : string * value) : bool :=
  negb (StoreAggregator.isMetadata (fst entry)) && negb (nullish (snd entry)).





(** An object without the properties named. *)
Definition without (keys : list string) (d : value) : value :=
  match d with
  | VObj props =>
      VObj (List.filter (fun kv => negb (existsb (String.eqb (fst kv)) keys)) props)
  | _ => d
  end.

(** The outcome of a normalization, the named properties left out of
    every listing. *)
Definition outcomeWithout (keys : list string) (r : exn + list value)
  : exn + list value :=
  match r with
  | inr dapps => inr (map (without keys) dapps)
  | inl e => inl e
  end.

(** ** What a computation leaves as it was *)

(** [m] leaves [f] of the world as it was. *)
Definition keeps {A X} (f : World -> X) (m : M A) : Prop :=
  forall w, f (snd (m w)) = f w.

(** The listings of the view model: the references and the objects. *)
Definition view (w : World) : list nat * list value := (dapps w, objects w).

(** The records of the catalog cache. *)
Definition cache (w : World) : gmap string (list value) * gmap string Z :=
  (cachedStores w, lastFetchTime w).

(** ** Fetches and pipelines *)

(** The error a [fetch] that does not deliver a document ends in: the
    network failed, the timeout fired, the status is not 2xx, or the
    body is not JSON. *)
Definition fetchError (outcome : FetchOutcome) : option exn :=
  match outcome with
  | NetworkError message => Some (Error message)
  | TimedOut => Some TimeoutError
  | Response status statusText json =>
      if negb (response_ok status)
      then Some (Error ("HTTP " ++ numToStr status ++ ": " ++ statusText))
      else match json with
           | None => Some SyntaxError
           | Some _ => None
           end
  end.

(** The outcomes on which the [try] block of [fetchStore] throws: those
    above, and a document that is [null]. *)
Definition tryThrows (outcome : FetchOutcome) : bool :=
  match outcome with
  | Response status _ (Some storeData) => negb (response_ok status) || nullish storeData
  | _ => true
  end.

(** The profiles [fetchAllStores] fetches for, and the URL of one. *)
Definition declared (profiles : list Profile) : list Profile :=
  List.filter StoreAggregator.hasStore profiles.

Definition urlOf (p : Profile) : string := default "" (store_url p).

(** The pipelines as they stand when [fetchAllStores] has started them
    all, before any fetch in flight has ended. *)
Definition started (E : Env) (profiles : list Profile) (w : World)
  : list StoreAggregator.Pipeline :=
  match fst (StoreAggregator.launchAll E (declared profiles) w) with
  | inr ps => ps
  | inl _ => []
  end.

(** A pipeline just started for [p] in world [w]: settled with the
    fresh record of its store, or waiting for its fetch. *)
Definition launched (w : World) (p : Profile) (x : StoreAggregator.Pipeline) : Prop :=
  (exists cached, x = StoreAggregator.Done (inr cached)
                  /\ cachedStores w !! urlOf p = Some cached)
  \/ (exists now outcome, x = StoreAggregator.Waiting (urlOf p) p now outcome).

Definition isDone (x : StoreAggregator.Pipeline) : bool :=
  match x with
  | StoreAggregator.Done _ => true
  | StoreAggregator.Waiting _ _ _ _ => false
  end.

(** One fetch in flight ends: its pipeline runs to its end in the world
    as it is then, and is settled. *)
Inductive ends (E : Env)
  : list StoreAggregator.Pipeline * World -> list StoreAggregator.Pipeline * World -> Prop :=
| ends_at (i : nat) (storeUrl : string) (p : Profile) (now : Z) (outcome : FetchOutcome)
          (ps : list StoreAggregator.Pipeline) (w : World) :
    ps !! i = Some (StoreAggregator.Waiting storeUrl p now outcome) ->
    ends E (ps, w)
         (<[i := StoreAggregator.Done
                   (fst (StoreAggregator.fetchStore_end E storeUrl p now outcome w))]> ps,
          snd (StoreAggregator.fetchStore_end E storeUrl p now outcome w)).

(** What a settled pipeline contributes, and whether it failed. *)
Definition entriesOf (r : exn + list value) : list value :=
  match r with
  | inr dapps => dapps
  | inl _ => []
  end.

Definition isRejected (r : exn + list value) : bool :=
  match r with
  | inl _ => true
  | inr _ => false
  end.

(** ** The registry scan, record by record *)

(** A ledger record the loop can visit: an object (not [null]) whose
    state, when an array, holds no [null]. *)
Definition wellFormedRecord (coin : value) : bool :=
  negb (nullish coin)
  && match prop coin "state" with
     | VArr items => forallb (fun s => negb (nullish s)) items
     | _ => true
     end.

(** The data in the metadata slot of a record: that of the first item of
    its state whose port is "0", when there is one and it is not empty. *)
Definition metadataSlot (coin : value) : option value :=
  match prop coin "state" with
  | VArr items =>
      match List.find (fun s => strictEqStr (prop s "port") "0") items with
      | Some s => if truthy (prop s "data") then Some (prop s "data") else None
      | None => None
      end
  | _ => None
  end.

(** The listing of a record whose metadata decodes as JSON and is tagged
    as a dapp registration; [None] for every other record. *)
Definition registration (E : Env) (coin : value) : option value :=
  match metadataSlot coin with
  | None => None
  | Some data =>
      match JSON_parse E (toStr data) with
      | None => None
      | Some dappData =>
          if strictEqStr (prop dappData "type") BlockchainAPI.registrationTag
          then Some (BlockchainAPI.registeredDapp coin dappData)
          else None
      end
  end.

(** ** The registration transfer *)

(** The metadata [registerDapp] puts in the state of its transaction, for
    a clock reading [timestamp]. *)
Definition registrationState (dapp developerAddress : value) (timestamp : Z) : value :=
  VObj [ ("type", VStr BlockchainAPI.registrationTag);
         ("dapp_uid", prop dapp "uid");
         ("name", prop dapp "name");
         ("version", prop dapp "version");
         ("description", prop dapp "description");
         ("category", prop dapp "category");
         ("ipfs_hash", prop dapp "ipfs_hash");
         ("developer_address", developerAddress);
         ("timestamp", VNum timestamp);
         ("registration_fee", VStr "0.01") ].

(** The command of a transfer of the fee to the treasury that carries
    [state], as JSON text, at port 0. *)
Definition transferCommand (state : value) : string :=
  "send amount:0.01 address:" ++ BlockchainAPI.treasury ++ "  state:"
  ++ toStr (stringified (VObj [("0", stringified state)])).

(** The mode [MinimaAPI] answers a command in: the one it is in, or the
    one [init] settles in when it was not ready. *)
Definition answersInDevelopment (E : Env) (w : World) : bool :=
  if minimaAPI_isReady w then developmentMode w else initDevelopment E.

(** The node's answer, when it is one, to the command [MinimaAPI] gives
    it next. *)
Definition nodeAnswer (E : Env) (w : World) (command : string) : option Reply :=
  match node E (length (commands w)) command with
  | MDS_cmd r | Minima_cmd r => Some r
  | NoApi | CmdThrows _ => None
  end.

(** ** A small page for the examples *)

Module Demo.

(** A clock that advances one second from a reading to the next. *)
Definition clockMs (n : nat) : Z := 1700000000000 + 1000 * Z.of_nat n.

Definition quiet : Env :=
  mkEnv clockMs (fun _ => TimedOut) [] (fun _ _ => NoApi) false None (fun _ => None).

Definition blank : World :=
  mkWorld 0 [] [] ∅ ∅ ∅ false false VNull false [] [].

Definition catalogUrl : string := "http://host/store/dapps.json".

Definition alice : Profile :=
  mkProfile (Some catalogUrl) (VStr "alice") (VStr "MxALICE") VUndef VUndef VUndef.

Definition game : value :=
  VObj [("miniDapp", VStr "game.mds.zip"); ("icon", VStr "game.png")].

Definition catalog : value :=
  VObj [("name", VStr "Alice's dapps"); ("game", game); ("broken", VNull)].

(** The metadata of a registration, and its JSON text. *)
Definition registrationOf (uid name : string) : value :=
  VObj [ ("type", VStr "minidev_dapp_registration");
         ("dapp_uid", VStr uid);
         ("name", VStr name) ].

Definition textOf (v : value) : string := default "" (JSON_stringify v).

(** [JSON.parse] on the texts of the examples. *)
Definition parseTable (s : string) : option value :=
  if String.eqb s (textOf (registrationOf "0x1" "One")) then Some (registrationOf "0x1" "One")
  else if String.eqb s (textOf (registrationOf "0x2" "Two")) then Some (registrationOf "0x2" "Two")
  else if String.eqb s (textOf (VObj [("type", VStr "profile")]))
       then Some (VObj [("type", VStr "profile")])
  else if String.eqb s "null" then Some VNull
  else None.

(** A ledger record with [data] at port 0. *)
Definition coinWith (coinid : string) (data : value) : value :=
  VObj [ ("coinid", VStr coinid);
         ("state", VArr [ VObj [("port", VStr "1"); ("data", VStr "0x00")];
                          VObj [("port", VStr "0"); ("data", data)] ]) ].

Definition coinOne : value := coinWith "0xC1" (VStr (textOf (registrationOf "0x1" "One"))).
Definition coinTwo : value := coinWith "0xC2" (VStr (textOf (registrationOf "0x2" "Two"))).

Definition ledger : list value :=
  [ coinOne;
    VObj [("coinid", VStr "0xC3")];
    coinWith "0xC4" (VStr "not json");
    coinWith "0xC5" (VStr (textOf (VObj [("type", VStr "profile")])));
    coinWith "0xC6" (VStr "null");
    coinTwo ].

(** A node that answers the scan with [coins], and accepts a transfer
    and an install. *)
Definition nodeWith (coins : list value) (n : nat) (command : string) : NodeOutcome :=
  if String.eqb command "coins relevant:false"
  then MDS_cmd (mkReply (VBool true) (VObj [("coins", VArr coins)]) VUndef)
  else if String.prefix "send " command
  then MDS_cmd (mkReply (VBool true) (VObj [("txpowid", VStr "0xTX1")]) VUndef)
  else if String.prefix "mds action:install " command
  then MDS_cmd (mkReply (VBool true) (VObj [("installed", VBool true)]) VUndef)
  else MDS_cmd (mkReply (VBool false) VUndef (VStr "unknown command")).

Definition chain (coins : list value) : Env :=
  mkEnv clockMs (fun _ => TimedOut) [] (nodeWith coins) false None parseTable.

(** The page once the three interfaces are up, in production mode. *)
Definition online : World :=
  mkWorld 0 [] [] ∅ ∅ ∅ true false VNull true [] [].

(** The listing of the game in Alice's catalog, and a page that shows it:
    the node is up, the user has an identifier. *)
Definition gameListing : value :=
  listing "game" game "http://host/store" catalogUrl alice (clockMs 0) (clockMs 1).

Definition shop : World :=
  mkWorld 0 [] [] {[ "minidev_persistent_id" := "MxME" ]} ∅ ∅
          true false VNull true [gameListing] [0%nat].



(** A dapp ready to be registered. *)
Definition draft : value :=
  VObj [ ("uid", VStr "0x1"); ("name", VStr "One"); ("version", VStr "1.0.0");
         ("description", VStr "The first"); ("category", VStr "Games");
         ("ipfs_hash", VStr "QmOne") ].

(** A node that refuses every transfer, as one does for want of funds. *)
Definition refusing : Env :=
  mkEnv clockMs (fun _ => TimedOut) []
        (fun _ _ => MDS_cmd (mkReply (VBool false) VUndef (VStr "Insufficient funds")))
        false None parseTable.

(** The page in development mode: interfaces up, no node behind them. *)
Definition offline : World :=
  mkWorld 0 [] [] ∅ ∅ ∅ true true VNull true [] [].

(** A second publisher, whose store was fetched once, long ago, and does
    not answer any more; Alice's store answers. *)
Definition bobUrl : string := "http://bob/dapps.json".

Definition bob : Profile :=
  mkProfile (Some bobUrl) (VStr "bob") (VStr "MxBOB") VUndef VUndef VUndef.

Definition bobOld : value :=
  listing "chat" (VObj [("file", VStr "chat.mds.zip")]) "http://bob" bobUrl bob
          1600000000000 1600000000001.

Definition aliceUp : Env :=
  mkEnv clockMs
        (fun n => match n with
                  | O => Response 200 "OK" (Some catalog)
                  | _ => TimedOut
                  end)
        [] (fun _ _ => NoApi) false None (fun _ => None).

Definition returning : World :=
  mkWorld 0 [] [] ∅ {[ bobUrl := [bobOld] ]} {[ bobUrl := 1600000000000 ]}
          false false VNull false [] [].

End Demo.

(** The identifiers of the listings of an outcome. *)
Definition uids (r : exn + list value) : list value :=
  match r with
  | inr dapps => map (fun d => prop d "uid") dapps
  | inl _ => []
  end.

(** ** Vocabulary of the further properties *)

(** The base-31 polynomial of a sequence of code units, from the first
    unit (highest power) to the last. *)
Definition poly31 (codes : list Z) : Z :=
  fold_left (fun h c => 31 * h + c) codes 0.


(** Does the string hold a character that is not white space. *)
Fixpoint hasInk (s : string) : bool :=
  match s with
  | EmptyString => false
  | String c r => negb (isWhite c) || hasInk r
  end.

(** ** The profile scan, record by record *)

(** The data at port 0 of a record as [queryProfiles] reads it: that of
    the first item of its state whose port is "0", empty or not. *)
Definition profileSlot (coin : value) : option value :=
  match prop coin "state" with
  | VArr items =>
      match List.find (fun s => strictEqStr (prop s "port") "0") items with
      | Some s => Some (prop s "data")
      | None => None
      end
  | _ => None
  end.

(** Is a decoded record asked for: every one when no address is given. *)
Definition askedFor (address : option string) (profileData : value) : bool :=
  match address with
  | None => true
  | Some a => String.eqb a "" || strictEqStr (prop profileData "address") a
  end.

(** The entry of a record whose port 0 decodes as JSON and is asked for. *)
Definition profileRecord (E : Env) (address : option string) (coin : value) : option value :=
  match profileSlot coin with
  | None => None
  | Some data =>
      match JSON_parse E (toStr data) with
      | None => None
      | Some profileData =>
          if askedFor address profileData
          then Some (BlockchainAPI.registeredProfile coin profileData)
          else None
      end
  end.

(** ** What a registration leaves on the ledger *)

(** The ledger record of a transaction that carries [state], as JSON
    text, at port 0. *)
Definition recordOf (coinid : string) (state : value) : value :=
  VObj [ ("coinid", VStr coinid);
         ("state", VArr [ VObj [("port", VStr "0"); ("data", stringified state)] ]) ].

(** The metadata [registerProfile] puts in the state of its transaction. *)
Definition profileState (profile : value) : value :=
  VObj [ ("type", VStr BlockchainAPI.profileTag);
         ("username", prop profile "username");
         ("bio", or (prop profile "bio") (VStr ""));
         ("gitUrl", or (prop profile "gitUrl") VNull);
         ("twitterUrl", or (prop profile "twitterUrl") VNull);
         ("address", prop profile "address");
         ("timestamp", prop profile "timestamp");
         ("registration_fee", VStr "0.01") ].

(** ** Development mode *)

(** [MinimaAPI] is up and answers from its mock. *)
Definition mocked (w : World) : Prop :=
  minimaAPI_isReady w = true /\ developmentMode w = true.

(** [m] stays in development mode and gives the node no command. *)
Definition calm {A} (m : M A) : Prop :=
  forall w, mocked w -> mocked (snd (m w)) /\ commands (snd (m w)) = commands w.

(** [m] keeps what holds of the world. *)
Definition preserves {A} (P : World -> Prop) (m : M A) : Prop :=
  forall w, P w -> P (snd (m w)).

(** The stored identifier of the user. *)
Definition persistentId (w : World) : option string :=
  localStorage w !! "minidev_persistent_id".

(** ** Stored profiles *)

(** What [saveProfile] stores for a profile saved at clock reading [t]. *)
Definition storedProfile (profileData : value) (t : Z) : value :=
  VObj (BlockchainAPI.withProp
          (BlockchainAPI.withProp (BlockchainAPI.spread profileData) "lastUpdated" (VNum t))
          "storedLocally" (VBool true)).

(** Some profile in the store holds [username] for an address that is
    not [currentAddress]. *)
Definition heldByAnother (E : Env) (w : World) (username : string) (currentAddress : value)
  : Prop :=
  exists key text profileData,
    localStorage w !! key = Some text
    /\ String.prefix "minidev_profile_" key = true
    /\ JSON_parse E text = Some profileData
    /\ prop profileData "username" = VStr username
    /\ Profiles.strictEq (prop profileData "address") currentAddress = false.

(** Worlds and documents of the further examples. *)
Module Sample.


(** Alice's store answers; the second request is answered too, with an
    empty catalog. *)
Definition bothUp : Env :=
  mkEnv Demo.clockMs
        (fun n => match n with
                  | O => Response 200 "OK" (Some Demo.catalog)
                  | _ => Response 200 "OK" (Some (VObj []))
                  end)
        [] (fun _ _ => NoApi) false None (fun _ => None).




(** Bob's store was fetched ten seconds before the first clock reading. *)
Definition justFetched : World :=
  mkWorld 0 [] [] ∅ {[ Demo.bobUrl := [Demo.bobOld] ]} {[ Demo.bobUrl := 1699999990000 ]}
          false false VNull false [] [].

(** An environment whose first request is answered with Alice's catalog. *)
Definition answering : Env :=
  mkEnv Demo.clockMs (fun _ => Response 200 "OK" (Some Demo.catalog)) []
        (fun _ _ => NoApi) false None (fun _ => None).

(** A profile that declares a blank store URL, and one that declares none. *)
Definition blankStore : Profile :=
  mkProfile (Some "  ") (VStr "carol") (VStr "MxCAROL") VUndef VUndef VUndef.

Definition noStore : Profile :=
  mkProfile None (VStr "dave") (VStr "MxDAVE") VUndef VUndef VUndef.

(** A ledger with a profile of Alice, one of Bob, and a dapp registration. *)
Definition profileOf (name address : string) : value :=
  VObj [ ("type", VStr "minidev_profile_registration");
         ("username", VStr name);
         ("address", VStr address) ].

Definition parseProfiles (s : string) : option value :=
  if String.eqb s (Demo.textOf (profileOf "alice" "MxALICE"))
  then Some (profileOf "alice" "MxALICE")
  else if String.eqb s (Demo.textOf (profileOf "bob" "MxBOB"))
  then Some (profileOf "bob" "MxBOB")
  else Demo.parseTable s.

Definition registry : list value :=
  [ Demo.coinWith "0xP1" (VStr (Demo.textOf (profileOf "alice" "MxALICE")));
    Demo.coinOne;
    Demo.coinWith "0xP2" (VStr (Demo.textOf (profileOf "bob" "MxBOB"))) ].

(** The node of [Demo.chain] with the texts of the profiles decoded. *)
Definition profiles (coins : list value) : Env :=
  mkEnv Demo.clockMs (fun _ => TimedOut) [] (Demo.nodeWith coins) false None parseProfiles.

(** The registration of [Demo.draft] by MxDEV at the first clock
    reading, and a node whose ledger holds it. *)
Definition sent : value := registrationState Demo.draft (VStr "MxDEV") (Demo.clockMs 0).

Definition parseSent (s : string) : option value :=
  if String.eqb s (Demo.textOf sent) then Some sent else Demo.parseTable s.

Definition registered : Env :=
  mkEnv Demo.clockMs (fun _ => TimedOut) []
        (Demo.nodeWith [Demo.coinOne; recordOf "0xC9" sent]) false None parseSent.

(** A profile with no bio and no links, and a node whose ledger holds
    its registration. *)
Definition me : value :=
  VObj [ ("username", VStr "alice"); ("address", VStr "MxALICE");
         ("timestamp", VNum 1700000000000) ].

Definition parsePublished (s : string) : option value :=
  if String.eqb s (Demo.textOf (profileState me)) then Some (profileState me)
  else Demo.parseTable s.

Definition published : Env :=
  mkEnv Demo.clockMs (fun _ => TimedOut) []
        (Demo.nodeWith [Demo.coinOne; recordOf "0xP9" (profileState me)])
        false None parsePublished.

(** A page in development mode whose user has an identifier. *)
Definition known : World :=
  mkWorld 0 [] [] {[ "minidev_persistent_id" := "MxME" ]} ∅ ∅
          true true VNull true [] [].

(** An address that [setManualAddress] accepts. *)
Definition manual : string := "MxMANUAL0123456789ABCDEFGHIJKLMNOP".

(** The announcement of a dapp, and one that carries none. *)
Definition announced : value :=
  VObj [ ("uid", VStr "0x1B264F8D"); ("name", VStr "Game, again");
         ("file", VStr "http://other/game.mds.zip") ].

Definition announcement : value :=
  VObj [ ("type", VStr "minidev_new_dapp"); ("dapp", announced) ].

Definition emptyAnnouncement : value :=
  VObj [ ("type", VStr "minidev_new_dapp") ].

(** A node that gives its address, and a page in production mode whose
    user has no identifier yet. *)
Definition addressing (a : string) : Env :=
  mkEnv Demo.clockMs (fun _ => TimedOut) []
        (fun _ command =>
           if String.eqb command "getaddress"
           then MDS_cmd (mkReply (VBool true) (VObj [("address", VStr a)]) VUndef)
           else MDS_cmd (mkReply (VBool false) VUndef (VStr "unknown command")))
        false None (fun _ => None).

(** Alice's profile as the form makes it, and a browser that decodes
    what is stored for it at the first clock reading. *)
Definition form : value :=
  VObj [ ("username", VStr "alice"); ("bio", VStr "hello");
         ("address", VStr "MxME") ].

Definition parseStored (s : string) : option value :=
  if String.eqb s (Demo.textOf (storedProfile form (Demo.clockMs 0)))
  then Some (storedProfile form (Demo.clockMs 0))
  else None.

Definition browser : Env :=
  mkEnv Demo.clockMs (fun _ => TimedOut) [] (fun _ _ => NoApi) false None parseStored.

End Sample.

(** * Properties *)

(** ** How the catalog normalizer runs *)

Lemma get_nullish v k : nullish v = true -> get v k = inl (TypeError k).
Proof. destruct v; simpl; congruence. Qed.

Lemma get_prop v k : nullish v = false -> get v k = inr (prop v k).
Proof. destruct v; simpl; congruence. Qed.


Lemma set_ticks_ticks n w : ticks (set_ticks n w) = n.
Proof. reflexivity. Qed.

Lemma set_ticks_twice n m w : set_ticks n (set_ticks m w) = set_ticks n w.
Proof. reflexivity. Qed.

Lemma set_ticks_same w : set_ticks (ticks w) w = w.
Proof. destruct w; reflexivity. Qed.

Lemma generateUid_run E key addr w :
  StoreAggregator.generateUid E key addr w
  = (inr (uidAt key addr (clock E (ticks w))), set_ticks (S (ticks w)) w).
Proof. reflexivity. Qed.

Lemma dappOf_run E key dd base url p w :
  nullish dd = false ->
  StoreAggregator.dappOf E key dd base url p w
  = (inr (listing key dd base url p (clock E (ticks w)) (clock E (S (ticks w)))),
     set_ticks (S (S (ticks w))) w).
Proof.
  intros Hn. unfold StoreAggregator.dappOf.
  unfold bind at 1. rewrite generateUid_run.
  run. rewrite !(get_prop _ _ Hn). reflexivity.
Qed.

Lemma dappOf_null E key dd base url p w :
  nullish dd = true ->
  StoreAggregator.dappOf E key dd base url p w
  = (inl (TypeError "name"), set_ticks (S (ticks w)) w).
Proof.
  intros Hn. unfold StoreAggregator.dappOf.
  unfold bind at 1. rewrite generateUid_run.
  run. rewrite (get_nullish _ _ Hn). reflexivity.
Qed.

Lemma parseEntries_run E base url p entries : forall acc w,
  StoreAggregator.parseEntries E base url p entries acc w
  = (inr (acc ++ listings E base url p entries (ticks w))%list,
     set_ticks (ticks w + readings entries) w).
Proof.
  induction entries as [|[key dd] rest IH]; intros acc w; simpl.
  - rewrite app_nil_r, Nat.add_0_r, set_ticks_same. reflexivity.
  - unfold bind at 1. unfold StoreAggregator.parseEntry.
    destruct (StoreAggregator.isMetadata key) eqn:Hm.
    + unfold try_catch, ret. apply IH.
    + destruct (nullish dd) eqn:Hn.
      * unfold try_catch, bind. rewrite (dappOf_null _ _ _ _ _ _ _ Hn).
        unfold ret. rewrite IH. simpl ticks. rewrite set_ticks_twice.
        f_equal. f_equal. lia.
      * unfold try_catch, bind. rewrite (dappOf_run _ _ _ _ _ _ _ Hn).
        unfold ret. rewrite IH. simpl ticks. rewrite set_ticks_twice.
        rewrite <- app_assoc. simpl. f_equal. f_equal. lia.
Qed.

Lemma parseStoreData_run E storeData url p w entries :
  Object_entries storeData = inr entries ->
  StoreAggregator.parseStoreData E storeData url p w
  = (inr (listings E (StoreAggregator.baseUrlOf url) url p entries (ticks w)),
     set_ticks (ticks w + readings entries) w).
Proof.
  intros H. unfold StoreAggregator.parseStoreData, bind, lift. rewrite H.
  apply parseEntries_run.
Qed.

Lemma parseStoreData_throws E storeData url p w e :
  Object_entries storeData = inl e ->
  StoreAggregator.parseStoreData E storeData url p w = (inl e, w).
Proof.
  intros H. unfold StoreAggregator.parseStoreData, bind, lift. rewrite H. reflexivity.
Qed.

(** ** Frame lemmas *)

Section Keeps.
Context {X : Type} (f : World -> X).

Lemma keeps_ret {A} (a : A) : keeps f (ret a).
Proof. intros w. reflexivity. Qed.

Lemma keeps_throw {A} (e : exn) : keeps f (@throw A e).
Proof. intros w. reflexivity. Qed.

Lemma keeps_lift {A} (r : exn + A) : keeps f (lift r).
Proof. intros w. reflexivity. Qed.

Lemma keeps_read {A} (g : World -> A) : keeps f (read g).
Proof. intros w. reflexivity. Qed.

Lemma keeps_write (g : World -> World) :
  (forall w, f (g w) = f w) -> keeps f (write g).
Proof. intros H w. apply H. Qed.

Lemma keeps_bind {A B} (m : M A) (k : A -> M B) :
  keeps f m -> (forall a, keeps f (k a)) -> keeps f (bind m k).
Proof.
  intros Hm Hk w. unfold bind. specialize (Hm w).
  destruct (m w) as [[e|a] w']; simpl in *; [exact Hm|].
  rewrite Hk. exact Hm.
Qed.

Lemma keeps_try_catch {A} (m : M A) (h : exn -> M A) :
  keeps f m -> (forall e, keeps f (h e)) -> keeps f (try_catch m h).
Proof.
  intros Hm Hh w. unfold try_catch. specialize (Hm w).
  destruct (m w) as [[e|a] w']; simpl in *; [|exact Hm].
  rewrite Hh. exact Hm.
Qed.

Lemma keeps_settled {A} (m : M A) : keeps f m -> keeps f (settled m).
Proof.
  intros Hm w. unfold settled. specialize (Hm w).
  destruct (m w) as [r w']. exact Hm.
Qed.

Lemma keeps_if {A} (b : bool) (m1 m2 : M A) :
  keeps f m1 -> keeps f m2 -> keeps f (if b then m1 else m2).
Proof. destruct b; auto. Qed.
End Keeps.

Ltac keeps_basic :=
  first
    [ apply keeps_ret | apply keeps_throw | apply keeps_lift | apply keeps_read
    | apply keeps_bind; [|intros ?] | apply keeps_try_catch; [|intros ?]
    | apply keeps_settled | apply keeps_if
    | apply keeps_write; intros ?; reflexivity ].

Lemma Date_now_keeps {X} (f : World -> X) E :
  (forall n w, f (set_ticks n w) = f w) -> keeps f (Date_now E).
Proof. intros H w. apply H. Qed.

Lemma fetch_keeps {X} (f : World -> X) E r :
  (forall l w, f (set_requests l w) = f w) -> keeps f (fetch E r).
Proof. intros H w. apply H. Qed.

Lemma cmd_keeps {X} (f : World -> X) E command :
  (forall l w, f (set_commands l w) = f w) -> keeps f (MinimaAPI.cmd E command).
Proof.
  intros H. unfold MinimaAPI.cmd, MinimaAPI._mdsCommand, MinimaAPI.answered.
  repeat keeps_basic.
  destruct (node E _ command); repeat keeps_basic; apply keeps_write; intros; apply H.
Qed.

(** The steps that leave a part of the world alone, tried before the
    computation is taken apart. *)
Ltac keeps_step :=
  first
    [ apply Date_now_keeps; reflexivity
    | apply fetch_keeps; reflexivity
    | apply cmd_keeps; reflexivity
    | keeps_basic ].

Ltac keeps_auto := repeat keeps_step.

Lemma getUserMinimaAddress_view E : keeps view (MiniMartApp.getUserMinimaAddress E).
Proof.
  unfold MiniMartApp.getUserMinimaAddress, MiniMartApp.anonymous,
    MinimaAPI.getPersistentUserId, MinimaAPI.getItem, MinimaAPI.setItem.
  keeps_auto.
Qed.

(** ** The catalog normalizer: defaults, URL resolution, identifiers *)











Lemma listings_without E1 E2 base url p entries : forall t1 t2,
  map (without ["uid"; "timestamp"]) (listings E1 base url p entries t1)
  = map (without ["uid"; "timestamp"]) (listings E2 base url p entries t2).
Proof.
  induction entries as [|[key dd] rest IH]; intros t1 t2; simpl; [reflexivity|].
  destruct (StoreAggregator.isMetadata key); [apply IH|].
  destruct (nullish dd); [apply IH|].
  simpl. f_equal. apply IH.
Qed.

Lemma listings_same_clock E1 E2 base url p entries : forall t1 t2,
  (forall n, clock E1 (t1 + n) = clock E2 (t2 + n)) ->
  listings E1 base url p entries t1 = listings E2 base url p entries t2.
Proof.
  induction entries as [|[key dd] rest IH]; intros t1 t2 H; simpl; [reflexivity|].
  destruct (StoreAggregator.isMetadata key); [apply IH; exact H|].
  assert (H1 : forall n, clock E1 (S t1 + n) = clock E2 (S t2 + n)).
  { intros n. generalize (H (S n)). rewrite !Nat.add_succ_r. simpl. auto. }
  destruct (nullish dd); [apply IH; exact H1|].
  generalize (H 0%nat). rewrite !Nat.add_0_r. intros ->.
  generalize (H1 0%nat). rewrite !Nat.add_0_r. intros ->.
  f_equal. apply IH. intros n.
  generalize (H1 (S n)). rewrite !Nat.add_succ_r. simpl. auto.
Qed.

(** The hash is no injection of the clock: two readings that give the
    same identifier. *)
Lemma uidAt_collision :
  uidAt "game" (VStr "MxALICE") 1760760058757 = uidAt "game" (VStr "MxALICE") 1681688477223.
Proof. vm_compute. reflexivity. Qed.

(** C1, as the code has it.  Two normalizations of the same document
    with the same URL and publisher give listings equal in every field
    but [timestamp] and [uid].  [generateUid] hashes the key, the
    publisher's address and the reading of the clock, and nothing else:
    the identifiers are the same too whenever the two normalizations
    read the same clock values, whatever the worlds they run in.
    (Readings that differ may or may not give the same identifier.) *)
Theorem C1_normalization_up_to_clock
  (E1 E2 : Env) (storeData : value) (storeUrl : string) (profile : Profile)
  (w1 w2 : World) :
  outcomeWithout ["uid"; "timestamp"]
    (fst (StoreAggregator.parseStoreData E1 storeData storeUrl profile w1))
  = outcomeWithout ["uid"; "timestamp"]
      (fst (StoreAggregator.parseStoreData E2 storeData storeUrl profile w2))
  /\ ((forall n, clock E1 (ticks w1 + n) = clock E2 (ticks w2 + n)) ->
      fst (StoreAggregator.parseStoreData E1 storeData storeUrl profile w1)
      = fst (StoreAggregator.parseStoreData E2 storeData storeUrl profile w2))
  /\ (forall key address w,
        fst (StoreAggregator.generateUid E1 key address w)
        = inr (uidAt key address (clock E1 (ticks w))))
  /\ (forall key address wa wb,
        clock E1 (ticks wa) = clock E2 (ticks wb) ->
        fst (StoreAggregator.generateUid E1 key address wa)
        = fst (StoreAggregator.generateUid E2 key address wb)).
Proof.
  assert (Hdet : forall key address wa wb,
             clock E1 (ticks wa) = clock E2 (ticks wb) ->
             fst (StoreAggregator.generateUid E1 key address wa)
             = fst (StoreAggregator.generateUid E2 key address wb)).
  { intros key address wa wb Hc. rewrite !generateUid_run. cbn [fst]. rewrite Hc.
    reflexivity. }
  destruct (Object_entries storeData) as [e | entries] eqn:He.
  - rewrite !(parseStoreData_throws _ _ _ _ _ _ He). simpl. auto.
  - rewrite !(parseStoreData_run _ _ _ _ _ _ He). simpl.
    split; [f_equal; apply listings_without|].
    split; [|split; [reflexivity | exact Hdet]].
    intros H. f_equal. apply listings_same_clock. exact H.
Qed.

(** C1 as stated fails: the same catalog normalized twice in a row, the
    clock one second further at each reading, gets two different
    identifiers for the same key and publisher. *)
Lemma C1_uid_depends_on_clock :
  let first := StoreAggregator.parseStoreData Demo.quiet Demo.catalog Demo.catalogUrl
                 Demo.alice Demo.blank in
  let second := StoreAggregator.parseStoreData Demo.quiet Demo.catalog Demo.catalogUrl
                  Demo.alice (snd first) in
  uids (outcomeWithout ["timestamp"] (fst first)) = [VStr "0x1B264F8D"]
  /\ uids (outcomeWithout ["timestamp"] (fst second)) = [VStr "0x1B24F270"]
  /\ outcomeWithout ["timestamp"] (fst first) <> outcomeWithout ["timestamp"] (fst second).
Proof.
  cbv zeta.
  assert (H1 : uids (outcomeWithout ["timestamp"]
                 (fst (StoreAggregator.parseStoreData Demo.quiet Demo.catalog
                         Demo.catalogUrl Demo.alice Demo.blank))) = [VStr "0x1B264F8D"])
    by (vm_compute; reflexivity).
  assert (H2 : uids (outcomeWithout ["timestamp"]
                 (fst (StoreAggregator.parseStoreData Demo.quiet Demo.catalog
                         Demo.catalogUrl Demo.alice
                         (snd (StoreAggregator.parseStoreData Demo.quiet Demo.catalog
                                 Demo.catalogUrl Demo.alice Demo.blank)))))
               = [VStr "0x1B24F270"])
    by (vm_compute; reflexivity).
  split; [exact H1|]. split; [exact H2|].
  intros Heq. rewrite Heq in H1. rewrite H1 in H2. discriminate H2.
Qed.

(** ** The registry scan *)

Lemma findPort0_find items :
  forallb (fun s => negb (nullish s)) items = true ->
  BlockchainAPI.findPort0 items
  = inr (List.find (fun s => strictEqStr (prop s "port") "0") items).
Proof.
  induction items as [|s rest IH]; simpl; [reflexivity|].
  intros H. apply andb_true_iff in H as [Hs Hrest]. apply negb_true_iff in Hs.
  rewrite (get_prop _ _ Hs).
  destruct (strictEqStr (prop s "port") "0"); [reflexivity | apply IH, Hrest].
Qed.

Lemma decode_registration E coin data dapps :
  BlockchainAPI.decode E coin data dapps
  = (dapps ++ option_list
       (match JSON_parse E (toStr data) with
        | None => None
        | Some dappData =>
            if strictEqStr (prop dappData "type") BlockchainAPI.registrationTag
            then Some (BlockchainAPI.registeredDapp coin dappData)
            else None
        end))%list.
Proof.
  unfold BlockchainAPI.decode.
  destruct (JSON_parse E (toStr data)) as [dd|]; [|symmetry; apply app_nil_r].
  destruct (nullish dd) eqn:Hn.
  - rewrite (get_nullish _ _ Hn). destruct dd; try discriminate Hn; symmetry; apply app_nil_r.
  - rewrite (get_prop _ _ Hn).
    destruct (strictEqStr (prop dd "type") BlockchainAPI.registrationTag);
      [reflexivity | symmetry; apply app_nil_r].
Qed.

Lemma visit_registration E coin dapps :
  wellFormedRecord coin = true ->
  BlockchainAPI.visit E coin dapps = inr (dapps ++ option_list (registration E coin))%list.
Proof.
  unfold wellFormedRecord, BlockchainAPI.visit, registration, metadataSlot.
  intros H. apply andb_true_iff in H as [Hc Hs]. apply negb_true_iff in Hc.
  rewrite (get_prop _ _ Hc).
  destruct (prop coin "state") as [| | | | |items|]; try (rewrite app_nil_r; reflexivity).
  rewrite (findPort0_find _ Hs).
  destruct (List.find _ items) as [s|]; [|rewrite app_nil_r; reflexivity].
  destruct (truthy (prop s "data")); [|rewrite app_nil_r; reflexivity].
  rewrite decode_registration. reflexivity.
Qed.

Lemma scan_take E coins : forall limit dapps,
  forallb wellFormedRecord coins = true ->
  (length dapps < Z.to_nat limit)%nat ->
  BlockchainAPI.scan E coins limit dapps
  = inr (take (Z.to_nat limit) (dapps ++ omap (registration E) coins)).
Proof.
  induction coins as [|coin rest IH]; intros limit dapps Hwf Hlen.
  - simpl. rewrite app_nil_r, take_ge by lia. reflexivity.
  - cbn [forallb] in Hwf. apply andb_true_iff in Hwf as [Hc Hrest].
    cbn [BlockchainAPI.scan omap list_omap]. rewrite (visit_registration _ _ _ Hc).
    destruct (registration E coin) as [d|].
    + change (option_list (Some d)) with [d].
      assert (Hl : length (dapps ++ [d]) = S (length dapps))
        by (rewrite length_app; simpl; lia).
      replace (dapps ++ d :: omap (registration E) rest)%list
        with ((dapps ++ [d]) ++ omap (registration E) rest)%list
        by (rewrite <- app_assoc; reflexivity).
      destruct (Z.of_nat (length (dapps ++ [d])) >=? limit) eqn:Hge.
      * rewrite (take_app_length' (dapps ++ [d])); [reflexivity | lia].
      * apply IH; [exact Hrest | lia].
    + change (option_list (@None value)) with (@nil value). rewrite app_nil_r.
      destruct (Z.of_nat (length dapps) >=? limit) eqn:Hge; [lia|].
      apply IH; assumption.
Qed.

Lemma decode_length E coin data dapps :
  (length dapps <= length (BlockchainAPI.decode E coin data dapps) <= S (length dapps))%nat.
Proof.
  rewrite decode_registration, length_app.
  destruct (JSON_parse E (toStr data)) as [dd|]; simpl; [|lia].
  destruct (strictEqStr (prop dd "type") BlockchainAPI.registrationTag); simpl; lia.
Qed.

Lemma visit_length E coin dapps dapps' :
  BlockchainAPI.visit E coin dapps = inr dapps' ->
  (length dapps <= length dapps' <= S (length dapps))%nat.
Proof.
  unfold BlockchainAPI.visit.
  destruct (get coin "state") as [|state]; [discriminate|].
  destruct state as [| | | | |items|]; try (intros [= <-]; lia).
  destruct (BlockchainAPI.findPort0 items) as [|[s|]]; [discriminate| |intros [= <-]; lia].
  destruct (truthy (prop s "data")); [|intros [= <-]; lia].
  intros [= <-]. apply decode_length.
Qed.

Lemma scan_bound E coins : forall limit dapps l,
  BlockchainAPI.scan E coins limit dapps = inr l ->
  (length l <= Nat.max (S (length dapps)) (Z.to_nat limit))%nat.
Proof.
  induction coins as [|coin rest IH]; intros limit dapps l; simpl.
  - intros [= <-]. lia.
  - destruct (BlockchainAPI.visit E coin dapps) as [e|dapps'] eqn:Hv; [discriminate|].
    apply visit_length in Hv.
    destruct (Z.of_nat (length dapps') >=? limit) eqn:Hge.
    + intros [= <-]. lia.
    + intros H. apply IH in H. lia.
Qed.

(** The scan never throws: whatever fails inside, the caller gets []. *)
Lemma queryRegisteredDapps_total E limit w :
  exists dapps, fst (BlockchainAPI.queryRegisteredDapps E limit w) = inr dapps.
Proof.
  unfold BlockchainAPI.queryRegisteredDapps, try_catch.
  match goal with |- context [match ?b w with _ => _ end] => destruct (b w) as [[e|l] w'] end;
    eexists; reflexivity.
Qed.

(** From a limit of one on, the scan returns no more than the limit. *)
Lemma queryRegisteredDapps_bound E limit w dapps :
  1 <= default 100 limit ->
  fst (BlockchainAPI.queryRegisteredDapps E limit w) = inr dapps ->
  Z.of_nat (length dapps) <= default 100 limit.
Proof.
  intros Hl. unfold BlockchainAPI.queryRegisteredDapps, try_catch, bind, read, throw, ret, lift.
  destruct (blockchainAPI_isReady w); simpl; [|intros [= <-]; simpl; lia].
  destruct (MinimaAPI.cmd E "coins relevant:false" w) as [[e|result] w'];
    simpl; [intros [= <-]; simpl; lia|].
  destruct (negb (truthy (response result))
            || negb (truthy (prop (response result) "coins")));
    simpl; [intros [= <-]; simpl; lia|].
  destruct (BlockchainAPI.iterate (prop (response result) "coins")) as [e|coins];
    simpl; [intros [= <-]; simpl; lia|].
  destruct (BlockchainAPI.scan E coins (default 100 limit) []) as [e|l] eqn:Hs;
    simpl; [intros [= <-]; simpl; lia|].
  intros [= <-]. apply scan_bound in Hs. simpl in Hs. lia.
Qed.

(** C6, as the code has it.  Over well-formed ledger records and with a
    limit of one or more (100 when the argument is left out), the scan
    returns, in the order of the records, the listings of the records
    whose metadata slot decodes as JSON tagged as a dapp registration,
    cut off after the first [limit] of them; a record whose metadata is
    absent, is not JSON or is not so tagged is passed over, and the scan
    goes on with the records after it. *)
Theorem C6_scan_skips_and_stops_at_limit
  (E : Env) (w : World) (limit : option Z) (result : Reply) (coins : list value) :
  blockchainAPI_isReady w = true ->
  fst (MinimaAPI.cmd E "coins relevant:false" w) = inr result ->
  prop (response result) "coins" = VArr coins ->
  forallb wellFormedRecord coins = true ->
  1 <= default 100 limit ->
  fst (BlockchainAPI.queryRegisteredDapps E limit w)
  = inr (take (Z.to_nat (default 100 limit)) (omap (registration E) coins)).
Proof.
  intros Hready Hcmd Hcoins Hwf Hlimit.
  unfold BlockchainAPI.queryRegisteredDapps, try_catch, bind, read, throw, ret, lift.
  rewrite Hready. simpl.
  destruct (MinimaAPI.cmd E "coins relevant:false" w) as [r w'].
  simpl in Hcmd. subst r.
  assert (Ht : truthy (response result) = true).
  { destruct (response result); simpl in Hcoins; try discriminate; reflexivity. }
  rewrite Ht, Hcoins. simpl.
  rewrite scan_take; [reflexivity | exact Hwf | simpl; lia].
Qed.

Lemma C6_scan_skips_and_stops_at_limit_witness :
  forallb wellFormedRecord Demo.ledger = true
  /\ uids (fst (BlockchainAPI.queryRegisteredDapps (Demo.chain Demo.ledger) None Demo.online))
     = [VStr "0x1"; VStr "0x2"].
Proof.
  split; [reflexivity|].
  rewrite (C6_scan_skips_and_stops_at_limit (Demo.chain Demo.ledger) Demo.online None
             (mkReply (VBool true) (VObj [("coins", VArr Demo.ledger)]) VUndef)
             Demo.ledger eq_refl eq_refl eq_refl eq_refl ltac:(simpl; lia)).
  reflexivity.
Defined.

(** C6 as stated fails: of 101 records that each hold a valid, tagged
    registration, a scan with the default limit returns 100 listings. *)
Lemma C6_more_records_than_the_limit :
  length (omap (registration (Demo.chain (repeat Demo.coinOne 101)))
               (repeat Demo.coinOne 101)) = 101%nat
  /\ exists dapps,
       fst (BlockchainAPI.queryRegisteredDapps
              (Demo.chain (repeat Demo.coinOne 101)) None Demo.online) = inr dapps
       /\ length dapps = 100%nat.
Proof.
  split; [vm_compute; reflexivity|].
  eexists. split; [vm_compute; reflexivity | reflexivity].
Qed.

(** C10.  The limit is tested after a record has been visited, so a
    limit of zero lets the first registration through: the scan of a
    ledger that holds registrations returns one listing. *)
Theorem C10_limit_zero_returns_one :
  fst (BlockchainAPI.queryRegisteredDapps (Demo.chain Demo.ledger) (Some 0) Demo.online)
  = inr [BlockchainAPI.registeredDapp Demo.coinOne (Demo.registrationOf "0x1" "One")].
Proof. vm_compute. reflexivity. Qed.

(** ** The view model and the live channel *)





(** ** Registering a dapp *)

Lemma sendCustomTransaction_run E state w :
  truthy state = true ->
  MinimaAPI.sendCustomTransaction E
    (VObj [("amount", VStr "0.01"); ("address", VStr BlockchainAPI.treasury); ("state", state)]) w
  = let w0 := if minimaAPI_isReady w then w else set_minima true (initDevelopment E) w in
    match MinimaAPI._mdsCommand E (transferCommand state) w0 with
    | (inr result, w') =>
        if truthy (response result) && truthy (prop (response result) "txpowid")
        then (inr (prop (response result) "txpowid"), w')
        else (inl (Error "Transaction failed: Transaction failed - no txpowid returned"), w')
    | (inl e, w') => (inl (Error ("Transaction failed: " ++ messageOf e)), w')
    end.
Proof.
  intros Hs. unfold MinimaAPI.sendCustomTransaction, try_catch, bind, read, lift, ret, throw.
  cbn [get prop assoc String.eqb Ascii.eqb Bool.eqb truthy negb].
  rewrite Hs. cbv zeta.
  change ("send " ++ "amount:" ++ toStr (VStr "0.01") ++ " ")%string
    with "send amount:0.01 ".
  match goal with
  | |- context [MinimaAPI._mdsCommand E ?c] =>
      change c with (transferCommand state)
  end.
  destruct (minimaAPI_isReady w); cbn [negb MinimaAPI.init write];
    match goal with
    | |- context [MinimaAPI._mdsCommand E ?c ?w0] =>
        destruct (MinimaAPI._mdsCommand E c w0) as [[e|result] w']
    end; try reflexivity;
    destruct (truthy (response result) && truthy (prop (response result) "txpowid"));
    reflexivity.
Qed.

Lemma mdsCommand_run E command w :
  MinimaAPI._mdsCommand E command w
  = if negb (minimaAPI_isReady w) then (inl (Error "API not initialized"), w)
    else if developmentMode w then (inr (MinimaAPI._mockCommandResponse command), w)
    else
      let sent := set_commands (commands w ++ [command])%list w in
      match node E (length (commands w)) command with
      | MDS_cmd r =>
          if truthy (status r) then (inr r, sent)
          else (inl (Error (toStr (or (error r) (VStr "MDS command failed")))), sent)
      | Minima_cmd r =>
          if truthy (status r) then (inr r, sent)
          else (inl (Error (toStr (or (error r) (VStr "Minima command failed")))), sent)
      | NoApi => (inl (Error "No API available for command execution"), w)
      | CmdThrows message =>
          (inl (Error ("API command execution failed: " ++ message)), sent)
      end.
Proof.
  unfold MinimaAPI._mdsCommand, MinimaAPI.answered, bind, read, write, ret, throw.
  destruct (minimaAPI_isReady w); cbn [negb]; cbv beta iota; [|reflexivity].
  destruct (developmentMode w); cbv beta iota zeta; [reflexivity|].
  destruct (node E (length (commands w)) command) as [|m|r|r]; try reflexivity;
    destruct (truthy (status r)); reflexivity.
Qed.

Lemma mock_has_no_txpowid command :
  truthy (response (MinimaAPI._mockCommandResponse command))
  && truthy (prop (response (MinimaAPI._mockCommandResponse command)) "txpowid") = false.
Proof.
  unfold MinimaAPI._mockCommandResponse.
  destruct (includes command "getaddress"); [reflexivity|].
  destruct (includes command "balance"); reflexivity.
Qed.

Lemma registerDapp_run E dapp developerAddress w :
  blockchainAPI_isReady w = true ->
  nullish dapp = false ->
  BlockchainAPI.registerDapp E dapp developerAddress w
  = let w1 := set_ticks (S (ticks w)) w in
    let w0 := if minimaAPI_isReady w then w1 else set_minima true (initDevelopment E) w1 in
    match MinimaAPI._mdsCommand E
            (transferCommand (registrationState dapp developerAddress (clock E (ticks w)))) w0
    with
    | (inr result, w') =>
        if truthy (response result) && truthy (prop (response result) "txpowid")
        then (inr (prop (response result) "txpowid"), w')
        else (inl (Error "Transaction failed: Transaction failed - no txpowid returned"), w')
    | (inl e, w') => (inl (Error ("Transaction failed: " ++ messageOf e)), w')
    end.
Proof.
  intros Hb Hn.
  unfold BlockchainAPI.registerDapp, try_catch, bind, read, lift, throw, ret, Date_now.
  rewrite Hb, (get_prop _ _ Hn). cbn [negb].
  fold (registrationState dapp developerAddress (clock E (ticks w))).
  rewrite sendCustomTransaction_run by reflexivity. cbv zeta.
  change (minimaAPI_isReady (set_ticks (S (ticks w)) w)) with (minimaAPI_isReady w).
  match goal with
  | |- context [MinimaAPI._mdsCommand E ?c ?w0] =>
      destruct (MinimaAPI._mdsCommand E c w0) as [[e|result] w']
  end; [reflexivity|].
  destruct (truthy (response result) && truthy (prop (response result) "txpowid"));
    reflexivity.
Qed.

(** How an attempt ends, by the mode and by the node's answer. *)
Lemma registerDapp_cases E dapp developerAddress w :
  blockchainAPI_isReady w = true ->
  nullish dapp = false ->
  let attempt := BlockchainAPI.registerDapp E dapp developerAddress w in
  let command :=
    transferCommand (registrationState dapp developerAddress (clock E (ticks w))) in
  if answersInDevelopment E w
  then commands (snd attempt) = commands w
       /\ fst attempt
          = inl (Error "Transaction failed: Transaction failed - no txpowid returned")
  else match nodeAnswer E w command with
       | Some r =>
           commands (snd attempt) = (commands w ++ [command])%list
           /\ (if truthy (status r)
               then if truthy (response r) && truthy (prop (response r) "txpowid")
                    then fst attempt = inr (prop (response r) "txpowid")
                    else exists message, fst attempt = inl (Error message)
               else exists message, fst attempt = inl (Error message))
       | None =>
           (commands (snd attempt) = commands w
            \/ commands (snd attempt) = (commands w ++ [command])%list)
           /\ exists message, fst attempt = inl (Error message)
       end.
Proof.
  intros Hb Hn. cbv zeta. rewrite (registerDapp_run _ _ _ _ Hb Hn). cbv zeta.
  rewrite mdsCommand_run. unfold answersInDevelopment, nodeAnswer.
  set (command := transferCommand _).
  assert (Hmock := mock_has_no_txpowid command).
  destruct (minimaAPI_isReady w) eqn:Hr.
  - cbn [minimaAPI_isReady developmentMode commands set_ticks]. rewrite Hr. cbn [negb].
    destruct (developmentMode w).
    + rewrite Hmock. split; reflexivity.
    + cbv zeta. destruct (node E (length (commands w)) command) as [|m|r|r].
      * split; [left; reflexivity | eexists; reflexivity].
      * split; [right; reflexivity | eexists; reflexivity].
      * destruct (truthy (status r)).
        -- destruct (truthy (response r) && truthy (prop (response r) "txpowid"));
             (split; [reflexivity|]); [reflexivity | eexists; reflexivity].
        -- split; [reflexivity | eexists; reflexivity].
      * destruct (truthy (status r)).
        -- destruct (truthy (response r) && truthy (prop (response r) "txpowid"));
             (split; [reflexivity|]); [reflexivity | eexists; reflexivity].
        -- split; [reflexivity | eexists; reflexivity].
  - cbn [minimaAPI_isReady developmentMode commands set_ticks set_minima negb].
    destruct (initDevelopment E).
    + rewrite Hmock. split; reflexivity.
    + cbv zeta. destruct (node E (length (commands w)) command) as [|m|r|r].
      * split; [left; reflexivity | eexists; reflexivity].
      * split; [right; reflexivity | eexists; reflexivity].
      * destruct (truthy (status r)).
        -- destruct (truthy (response r) && truthy (prop (response r) "txpowid"));
             (split; [reflexivity|]); [reflexivity | eexists; reflexivity].
        -- split; [reflexivity | eexists; reflexivity].
      * destruct (truthy (status r)).
        -- destruct (truthy (response r) && truthy (prop (response r) "txpowid"));
             (split; [reflexivity|]); [reflexivity | eexists; reflexivity].
        -- split; [reflexivity | eexists; reflexivity].
Qed.

(** C3, as the code has it.  An attempt made while the registry client
    is not ready fails at once and gives the node nothing.  An attempt
    made while it is ready gives the node at most one command, and that
    command is the transfer of the fee 0.01 to the treasury with the
    metadata of the entry, as JSON text, at port 0 of the state.  The
    attempt succeeds only when the node has answered that one command
    with a true status and a transaction id, which is then the result;
    when the node refuses the command, which is how a balance below the
    fee shows (the code reads no balance), and always in development
    mode, the attempt ends in an error thrown to the caller, and no
    second command is given. *)
Theorem C3_registration_is_one_transfer
  (E : Env) (w : World) (dapp developerAddress : value) :
  let attempt := BlockchainAPI.registerDapp E dapp developerAddress w in
  let command :=
    transferCommand (registrationState dapp developerAddress (clock E (ticks w))) in
  (blockchainAPI_isReady w = false ->
     fst attempt = inl (Error "Blockchain API not ready")
     /\ commands (snd attempt) = commands w)
  /\ (blockchainAPI_isReady w = true -> nullish dapp = false ->
        (commands (snd attempt) = commands w
         \/ commands (snd attempt) = (commands w ++ [command])%list)
        /\ (forall txId, fst attempt = inr txId ->
              answersInDevelopment E w = false
              /\ commands (snd attempt) = (commands w ++ [command])%list
              /\ truthy txId = true
              /\ exists r, nodeAnswer E w command = Some r
                           /\ truthy (status r) = true
                           /\ prop (response r) "txpowid" = txId)
        /\ (forall r, answersInDevelopment E w = false ->
              nodeAnswer E w command = Some r -> truthy (status r) = false ->
              commands (snd attempt) = (commands w ++ [command])%list
              /\ exists message, fst attempt = inl (Error message))
        /\ (answersInDevelopment E w = true ->
              commands (snd attempt) = commands w
              /\ fst attempt
                 = inl (Error "Transaction failed: Transaction failed - no txpowid returned"))).
Proof.
  cbv zeta. split.
  - intros Hb. unfold BlockchainAPI.registerDapp, try_catch, bind, read, throw.
    rewrite Hb. split; reflexivity.
  - intros Hb Hn. pose proof (registerDapp_cases E dapp developerAddress w Hb Hn) as H.
    cbv zeta in H.
    set (attempt := BlockchainAPI.registerDapp E dapp developerAddress w) in *.
    set (command := transferCommand _) in *.
    destruct (answersInDevelopment E w).
    + destruct H as [Hc Hf]. split; [left; exact Hc|].
      split; [intros txId Ht; rewrite Hf in Ht; discriminate|].
      split; [intros r Hdev; discriminate|].
      intros _. split; assumption.
    + split; [|split; [|split; [|intros Hdev; discriminate]]].
      * destruct (nodeAnswer E w command) as [r|]; destruct H as [Hc _];
          [right; exact Hc | exact Hc].
      * intros txId Ht. split; [reflexivity|].
        destruct (nodeAnswer E w command) as [r|];
          [|destruct H as [_ [m Hm]]; rewrite Hm in Ht; discriminate].
        destruct H as [Hc H]. split; [exact Hc|].
        destruct (truthy (status r)) eqn:Hs;
          [|destruct H as [m Hm]; rewrite Hm in Ht; discriminate].
        destruct (truthy (response r) && truthy (prop (response r) "txpowid")) eqn:Hx;
          [|destruct H as [m Hm]; rewrite Hm in Ht; discriminate].
        rewrite H in Ht. injection Ht as <-.
        apply andb_true_iff in Hx as [_ Hx].
        split; [exact Hx|]. exists r. auto.
      * intros r _ Hr Hs. rewrite Hr in H. destruct H as [Hc H]. rewrite Hs in H.
        split; assumption.
Qed.

Lemma C3_registration_is_one_transfer_witness :
  (fst (BlockchainAPI.registerDapp (Demo.chain []) Demo.draft (VStr "MxDEV") Demo.online)
   = inr (VStr "0xTX1")
   /\ commands (snd (BlockchainAPI.registerDapp (Demo.chain []) Demo.draft (VStr "MxDEV")
                       Demo.online))
      = [transferCommand (registrationState Demo.draft (VStr "MxDEV") (Demo.clockMs 0))])
  /\ (commands (snd (BlockchainAPI.registerDapp Demo.refusing Demo.draft (VStr "MxDEV")
                       Demo.online))
      = [transferCommand (registrationState Demo.draft (VStr "MxDEV") (Demo.clockMs 0))]
      /\ exists message,
           fst (BlockchainAPI.registerDapp Demo.refusing Demo.draft (VStr "MxDEV") Demo.online)
           = inl (Error message)).
Proof.
  split.
  - destruct (C3_registration_is_one_transfer (Demo.chain []) Demo.online Demo.draft
                (VStr "MxDEV")) as [_ H].
    destruct (H eq_refl eq_refl) as [_ [Hok _]].
    assert (Hr : fst (BlockchainAPI.registerDapp (Demo.chain []) Demo.draft (VStr "MxDEV")
                        Demo.online) = inr (VStr "0xTX1")) by (vm_compute; reflexivity).
    split; [exact Hr|].
    destruct (Hok _ Hr) as [_ [Hc _]]. exact Hc.
  - destruct (C3_registration_is_one_transfer Demo.refusing Demo.online Demo.draft
                (VStr "MxDEV")) as [_ H].
    destruct (H eq_refl eq_refl) as [_ [_ [Hno _]]].
    exact (Hno (mkReply (VBool false) VUndef (VStr "Insufficient funds"))
               eq_refl eq_refl eq_refl).
Defined.

(** C3 as stated fails: an attempt made before the registry client is
    ready submits no transfer at all, and neither does an attempt made in
    development mode, which fails although nothing was refused. *)
Lemma C3_attempts_that_submit_nothing :
  BlockchainAPI.registerDapp (Demo.chain []) Demo.draft (VStr "MxDEV") Demo.blank
  = (inl (Error "Blockchain API not ready"), Demo.blank)
  /\ commands Demo.blank = []
  /\ fst (BlockchainAPI.registerDapp (Demo.chain []) Demo.draft (VStr "MxDEV") Demo.offline)
     = inl (Error "Transaction failed: Transaction failed - no txpowid returned")
  /\ commands (snd (BlockchainAPI.registerDapp (Demo.chain []) Demo.draft (VStr "MxDEV")
                      Demo.offline)) = [].
Proof. repeat split; vm_compute; reflexivity. Qed.

(** ** One fetch *)

Lemma parseStoreData_keeps {X} (f : World -> X) E storeData url p :
  (forall n w, f (set_ticks n w) = f w) ->
  keeps f (StoreAggregator.parseStoreData E storeData url p).
Proof.
  intros H w. destruct (Object_entries storeData) as [e|entries] eqn:He.
  - rewrite (parseStoreData_throws _ _ _ _ _ _ He). reflexivity.
  - rewrite (parseStoreData_run _ _ _ _ _ _ He). apply H.
Qed.

Lemma Object_entries_total v :
  nullish v = false -> exists entries, Object_entries v = inr entries.
Proof. destruct v; simpl; try discriminate; eauto. Qed.

Lemma fetchStore_begin_run E storeUrl w :
  StoreAggregator.fetchStore_begin E storeUrl w
  = let now := clock E (ticks w) in
    match (if StoreAggregator.isFresh (lastFetchTime w !! storeUrl) now
           then cachedStores w !! storeUrl else None) with
    | Some cached => (inr (inl cached), set_ticks (S (ticks w)) w)
    | None =>
        (inr (inr (now, network E (length (requests w)))),
         set_requests (requests w ++ [StoreAggregator.theRequest storeUrl])%list
                      (set_ticks (S (S (ticks w))) w))
    end.
Proof.
  unfold StoreAggregator.fetchStore_begin, bind, read, ret, Date_now, fetch. cbv zeta.
  cbn [lastFetchTime cachedStores set_ticks].
  destruct (if StoreAggregator.isFresh (lastFetchTime w !! storeUrl) (clock E (ticks w))
            then cachedStores w !! storeUrl else None); reflexivity.
Qed.

(** The [try] block throws exactly on the outcomes of [tryThrows], and
    then has written nothing. *)
Lemma fetchStore_try_throws E storeUrl p now outcome w :
  tryThrows outcome = true ->
  exists e w', StoreAggregator.fetchStore_try E storeUrl p now outcome w = (inl e, w')
               /\ cache w' = cache w /\ requests w' = requests w
               /\ (forall e', fetchError outcome = Some e' -> e = e').
Proof.
  unfold StoreAggregator.fetchStore_try, bind, throw, Date_now, lift.
  destruct outcome as [m| |status text [doc|]]; simpl.
  - intros _. eexists _, _. repeat split; congruence.
  - intros _. eexists _, _. repeat split; congruence.
  - destruct (response_ok status); simpl.
    + intros Hn. rewrite (parseStoreData_throws E doc) with (e := TypeError "Object.entries");
        [|destruct doc; simpl in *; congruence].
      destruct doc; try discriminate Hn; simpl; eexists _, _; repeat split; congruence.
    + intros _. eexists _, _. repeat split; congruence.
  - intros _. destruct (response_ok status); simpl; eexists _, _; repeat split; congruence.
Qed.

Lemma fetchStore_try_returns E storeUrl p now outcome w :
  tryThrows outcome = false ->
  exists dapps w', StoreAggregator.fetchStore_try E storeUrl p now outcome w = (inr dapps, w')
                   /\ cachedStores w' = <[storeUrl := dapps]> (cachedStores w)
                   /\ lastFetchTime w' = <[storeUrl := now]> (lastFetchTime w)
                   /\ requests w' = requests w.
Proof.
  unfold StoreAggregator.fetchStore_try, bind, throw, Date_now, lift, write, ret.
  destruct outcome as [m| |status text [doc|]]; simpl; try discriminate.
  destruct (response_ok status); simpl; [|discriminate].
  intros Hn. destruct (Object_entries_total _ Hn) as [entries He]. rewrite He.
  rewrite (parseStoreData_run _ _ _ _ _ _ He). eexists _, _. repeat split.
Qed.

Lemma fetchStore_end_fallback E storeUrl p now outcome w cached :
  tryThrows outcome = true ->
  cachedStores w !! storeUrl = Some cached ->
  exists w', StoreAggregator.fetchStore_end E storeUrl p now outcome w = (inr cached, w')
             /\ cache w' = cache w /\ requests w' = requests w.
Proof.
  intros Ht Hc. unfold StoreAggregator.fetchStore_end, try_catch.
  destruct (fetchStore_try_throws E storeUrl p now outcome w Ht) as [e [w' [Hr [Hk [Hq _]]]]].
  rewrite Hr. unfold StoreAggregator.fetchStore_catch, bind, read, ret.
  injection Hk as Hk1 Hk2. rewrite Hk1, Hc. eexists. repeat split; try assumption.
  unfold cache. congruence.
Qed.

Lemma fetchStore_end_rejects E storeUrl p now outcome w :
  tryThrows outcome = true ->
  cachedStores w !! storeUrl = None ->
  exists e w', StoreAggregator.fetchStore_end E storeUrl p now outcome w = (inl e, w')
               /\ cache w' = cache w /\ requests w' = requests w
               /\ (forall e', fetchError outcome = Some e' -> e = e').
Proof.
  intros Ht Hc. unfold StoreAggregator.fetchStore_end, try_catch.
  destruct (fetchStore_try_throws E storeUrl p now outcome w Ht) as [e [w' [Hr [Hk [Hq He]]]]].
  rewrite Hr. unfold StoreAggregator.fetchStore_catch, bind, read, throw.
  injection Hk as Hk1 Hk2. rewrite Hk1, Hc. eexists _, _. repeat split; try assumption.
  unfold cache. congruence.
Qed.

Lemma fetchStore_end_returns E storeUrl p now outcome w :
  tryThrows outcome = false ->
  exists dapps w', StoreAggregator.fetchStore_end E storeUrl p now outcome w = (inr dapps, w')
                   /\ cachedStores w' = <[storeUrl := dapps]> (cachedStores w)
                   /\ lastFetchTime w' = <[storeUrl := now]> (lastFetchTime w)
                   /\ requests w' = requests w.
Proof.
  intros Ht. unfold StoreAggregator.fetchStore_end, try_catch.
  destruct (fetchStore_try_returns E storeUrl p now outcome w Ht)
    as [dapps [w' [Hr [H1 [H2 H3]]]]].
  rewrite Hr. eexists _, _. repeat split; assumption.
Qed.

Lemma fetchStore_end_requests E storeUrl p now outcome :
  keeps requests (StoreAggregator.fetchStore_end E storeUrl p now outcome).
Proof.
  intros w. destruct (tryThrows outcome) eqn:Ht.
  - destruct (cachedStores w !! storeUrl) as [c|] eqn:Hc.
    + destruct (fetchStore_end_fallback E storeUrl p now outcome w c Ht Hc) as [w' [-> [_ H]]].
      exact H.
    + destruct (fetchStore_end_rejects E storeUrl p now outcome w Ht Hc)
        as [e [w' [-> [_ [H _]]]]].
      exact H.
  - destruct (fetchStore_end_returns E storeUrl p now outcome w Ht)
      as [d [w' [-> [_ [_ H]]]]].
    exact H.
Qed.









(** ** The pipelines of an aggregation *)

Lemma launch_run E p w :
  StoreAggregator.launch E p w
  = match (if StoreAggregator.isFresh (lastFetchTime w !! urlOf p) (clock E (ticks w))
           then cachedStores w !! urlOf p else None) with
    | Some cached =>
        (inr (StoreAggregator.Done (inr cached)), set_ticks (S (ticks w)) w)
    | None =>
        (inr (StoreAggregator.Waiting (urlOf p) p (clock E (ticks w))
                (network E (length (requests w)))),
         set_requests (requests w ++ [StoreAggregator.theRequest (urlOf p)])%list
                      (set_ticks (S (S (ticks w))) w))
    end.
Proof.
  unfold StoreAggregator.launch, bind, settled, ret. fold (urlOf p).
  rewrite fetchStore_begin_run. cbv zeta.
  destruct (if StoreAggregator.isFresh _ _ then _ else _); reflexivity.
Qed.

Lemma launch_shape E p w :
  exists x w', StoreAggregator.launch E p w = (inr x, w')
               /\ cache w' = cache w /\ launched w p x.
Proof.
  rewrite launch_run.
  destruct (StoreAggregator.isFresh _ _) eqn:Hf.
  - destruct (cachedStores w !! urlOf p) as [c|] eqn:Hc.
    + eexists _, _. split; [reflexivity|]. split; [reflexivity|].
      left. eauto.
    + eexists _, _. split; [reflexivity|]. split; [reflexivity|].
      right. eauto.
  - eexists _, _. split; [reflexivity|]. split; [reflexivity|].
    right. eauto.
Qed.

Lemma launched_cache w w' p x :
  cache w' = cache w -> launched w p x -> launched w' p x.
Proof.
  intros Hc [[c [-> H]] | H]; [left | right; exact H].
  exists c. split; [reflexivity|]. injection Hc as -> _. exact H.
Qed.

Lemma launchAll_shape E ps : forall w,
  exists xs w', StoreAggregator.launchAll E ps w = (inr xs, w')
                /\ cache w' = cache w /\ Forall2 (launched w) ps xs.
Proof.
  induction ps as [|p rest IH]; intros w; simpl.
  - eexists _, _. split; [reflexivity|]. split; [reflexivity | constructor].
  - unfold bind. destruct (launch_shape E p w) as [x [w1 [-> [Hc1 Hl]]]].
    destruct (IH w1) as [xs [w2 [-> [Hc2 Hall]]]].
    eexists _, _. split; [reflexivity|]. split; [congruence|].
    constructor; [exact Hl|].
    eapply Forall2_impl; [exact Hall|].
    intros q y Hq. eapply launched_cache; [|exact Hq]. symmetry. exact Hc1.
Qed.

Lemma finish_run E i ps w :
  match ps !! i with
  | Some (StoreAggregator.Waiting storeUrl p now outcome) =>
      StoreAggregator.finish E i ps w
      = (inr (<[i := StoreAggregator.Done
                       (fst (StoreAggregator.fetchStore_end E storeUrl p now outcome w))]> ps),
         snd (StoreAggregator.fetchStore_end E storeUrl p now outcome w))
  | _ => StoreAggregator.finish E i ps w = (inr ps, w)
  end.
Proof.
  unfold StoreAggregator.finish.
  destruct (ps !! i) as [[r|u p now out]|]; try reflexivity.
  unfold bind, settled, ret.
  destruct (StoreAggregator.fetchStore_end E u p now out w); reflexivity.
Qed.

(** The roll-up of the results. *)
Lemma count_fold rs : forall t,
  fold_left StoreAggregator.count rs t
  = StoreAggregator.mkTally
      (StoreAggregator.allDapps t ++ concat (map entriesOf rs))%list
      (StoreAggregator.successCount t + length (List.filter (fun r => negb (isRejected r)) rs))
      (StoreAggregator.failCount t + length (List.filter isRejected rs)).
Proof.
  induction rs as [|r rest IH]; intros t; simpl.
  - rewrite app_nil_r, !Nat.add_0_r. destruct t; reflexivity.
  - rewrite IH. destruct r as [e|d]; simpl; f_equal; try lia.
    rewrite <- app_assoc. reflexivity.
Qed.

(** What the end of one pipeline does to the cache, by its result. *)
Lemma fetchStore_end_cases E storeUrl p now outcome w :
  let r := fst (StoreAggregator.fetchStore_end E storeUrl p now outcome w) in
  let w' := snd (StoreAggregator.fetchStore_end E storeUrl p now outcome w) in
  requests w' = requests w
  /\ (forall u, cachedStores w' !! u = None -> cachedStores w !! u = None)
  /\ (forall u, u <> storeUrl ->
        cachedStores w' !! u = cachedStores w !! u
        /\ lastFetchTime w' !! u = lastFetchTime w !! u)
  /\ match r with
     | inl e => tryThrows outcome = true /\ cachedStores w !! storeUrl = None
                /\ cache w' = cache w
     | inr dapps =>
         (tryThrows outcome = true /\ cachedStores w !! storeUrl = Some dapps
          /\ cache w' = cache w)
         \/ (tryThrows outcome = false
             /\ cachedStores w' = <[storeUrl := dapps]> (cachedStores w)
             /\ lastFetchTime w' = <[storeUrl := now]> (lastFetchTime w))
     end.
Proof.
  cbv zeta. destruct (tryThrows outcome) eqn:Ht.
  - destruct (cachedStores w !! storeUrl) as [c|] eqn:Hc.
    + destruct (fetchStore_end_fallback E storeUrl p now outcome w c Ht Hc)
        as [w' [-> [Hk Hq]]]. simpl.
      pose proof Hk as Hk'. injection Hk' as Hk1 Hk2.
      split; [exact Hq|]. split; [intros u; rewrite Hk1; auto|].
      split; [intros u _; rewrite Hk1, Hk2; auto|].
      left. auto.
    + destruct (fetchStore_end_rejects E storeUrl p now outcome w Ht Hc)
        as [e [w' [-> [Hk [Hq _]]]]]. simpl.
      pose proof Hk as Hk'. injection Hk' as Hk1 Hk2.
      split; [exact Hq|]. split; [intros u; rewrite Hk1; auto|].
      split; [intros u _; rewrite Hk1, Hk2; auto|].
      auto.
  - destruct (fetchStore_end_returns E storeUrl p now outcome w Ht)
      as [d [w' [-> [H1 [H2 Hq]]]]]. simpl.
    split; [exact Hq|].
    split.
    { intros u. rewrite H1. destruct (decide (storeUrl = u)) as [->|Hne].
      - rewrite lookup_insert_eq. discriminate.
      - rewrite lookup_insert_ne by exact Hne. auto. }
    split.
    { intros u Hne. rewrite H1, H2, !lookup_insert_ne by congruence. auto. }
    right. auto.
Qed.

Lemma ends_rtc_facts E s s' :
  rtc (ends E) s s' ->
  length (fst s') = length (fst s)
  /\ (forall i r, fst s !! i = Some (StoreAggregator.Done r) ->
        fst s' !! i = Some (StoreAggregator.Done r))
  /\ (forall i u p now out,
        fst s' !! i = Some (StoreAggregator.Waiting u p now out) ->
        fst s !! i = Some (StoreAggregator.Waiting u p now out))
  /\ requests (snd s') = requests (snd s)
  /\ (forall u, cachedStores (snd s') !! u = None -> cachedStores (snd s) !! u = None)
  /\ (forall i u p now out e,
        fst s !! i = Some (StoreAggregator.Waiting u p now out) ->
        fst s' !! i = Some (StoreAggregator.Done (inl e)) ->
        tryThrows out = true /\ cachedStores (snd s) !! u = None)
  /\ (forall i u p now out dapps,
        fst s !! i = Some (StoreAggregator.Waiting u p now out) ->
        fst s' !! i = Some (StoreAggregator.Done (inr dapps)) ->
        tryThrows out = true ->
        exists cached, cachedStores (snd s') !! u = Some cached).
Proof.
  induction 1 as [s | s s1 s' Hstep Hrtc IH].
  - repeat split; auto; intros; congruence.
  - destruct IH as [IHlen [IHdone [IHwait [IHreq [IHmono [IHexp IHconv]]]]]].
    destruct Hstep as [i0 u0 p0 now0 out0 ps w Hi0]. simpl in *.
    pose proof (fetchStore_end_cases E u0 p0 now0 out0 w) as Hc. cbv zeta in Hc.
    destruct Hc as [Hq [Hmono [Hother Hres]]].
    assert (Hlt : (i0 < length ps)%nat) by (eapply lookup_lt_Some; eauto).
    split; [rewrite IHlen; apply length_insert|].
    split.
    { intros i r Hi. apply IHdone. rewrite list_lookup_insert_ne; [exact Hi|].
      intros ->. congruence. }
    split.
    { intros i u p now out Hi. apply IHwait in Hi.
      destruct (decide (i0 = i)) as [->|Hne].
      - rewrite list_lookup_insert_eq in Hi by exact Hlt. discriminate.
      - rewrite list_lookup_insert_ne in Hi by exact Hne. exact Hi. }
    split; [congruence|].
    split; [intros u Hu; apply Hmono, IHmono, Hu|].
    split.
    { intros i u p now out e Hi Hi'.
      destruct (decide (i0 = i)) as [->|Hne].
      - rewrite Hi in Hi0. injection Hi0 as <- <- <- <-.
        specialize (IHdone i _ (list_lookup_insert_eq _ _ _ Hlt)).
        rewrite IHdone in Hi'. injection Hi' as Hr. rewrite Hr in Hres.
        destruct Hres as [Ht [Hn _]]. auto.
      - assert (Hi1 : <[i0 := StoreAggregator.Done
                           (fst (StoreAggregator.fetchStore_end E u0 p0 now0 out0 w))]> ps !! i
                      = Some (StoreAggregator.Waiting u p now out))
          by (rewrite list_lookup_insert_ne by exact Hne; exact Hi).
        destruct (IHexp i u p now out e Hi1 Hi') as [Ht Hn]. auto. }
    intros i u p now out dapps Hi Hi' Ht.
    destruct (decide (i0 = i)) as [->|Hne].
    + rewrite Hi in Hi0. injection Hi0 as <- <- <- <-.
      specialize (IHdone i _ (list_lookup_insert_eq _ _ _ Hlt)).
      rewrite IHdone in Hi'. injection Hi' as Hr. rewrite Hr in Hres.
      destruct Hres as [[_ [Hd Hk]] | [Hf _]]; [|congruence].
      injection Hk as Hk1 _.
      destruct (cachedStores (snd s') !! u) as [c|] eqn:Hfinal; [eauto|].
      apply IHmono in Hfinal. rewrite Hk1 in Hfinal. congruence.
    + eapply IHconv; [|exact Hi'|exact Ht].
      rewrite list_lookup_insert_ne by exact Hne. exact Hi.
Qed.

(** While every fetch of [u] that is still in flight is one that fails,
    the record of [u] stays what it is, and the pipelines of [u] that
    end settle with it. *)
Lemma ends_rtc_stale E u ds s s' :
  rtc (ends E) s s' ->
  cachedStores (snd s) !! u = Some ds ->
  (forall i q now out, fst s !! i = Some (StoreAggregator.Waiting u q now out) ->
     tryThrows out = true) ->
  cachedStores (snd s') !! u = Some ds
  /\ lastFetchTime (snd s') !! u = lastFetchTime (snd s) !! u
  /\ (forall i q now out r,
        fst s !! i = Some (StoreAggregator.Waiting u q now out) ->
        fst s' !! i = Some (StoreAggregator.Done r) -> r = inr ds).
Proof.
  induction 1 as [s | s s1 s' Hstep Hrtc IH]; intros Hds Hfail.
  - repeat split; auto; intros; congruence.
  - pose proof (ends_rtc_facts E s1 s' Hrtc) as [_ [Hdone _]].
    destruct Hstep as [i0 u0 p0 now0 out0 ps w Hi0]. simpl in *.
    pose proof (fetchStore_end_cases E u0 p0 now0 out0 w) as Hc. cbv zeta in Hc.
    destruct Hc as [_ [_ [Hother Hres]]].
    assert (Hlt : (i0 < length ps)%nat) by (eapply lookup_lt_Some; eauto).
    assert (Hstep1 :
      cachedStores (snd (StoreAggregator.fetchStore_end E u0 p0 now0 out0 w)) !! u = Some ds
      /\ lastFetchTime (snd (StoreAggregator.fetchStore_end E u0 p0 now0 out0 w)) !! u
         = lastFetchTime w !! u
      /\ (u0 = u -> fst (StoreAggregator.fetchStore_end E u0 p0 now0 out0 w) = inr ds)).
    { destruct (decide (u0 = u)) as [->|Hne].
      - specialize (Hfail i0 p0 now0 out0 Hi0).
        destruct (fst (StoreAggregator.fetchStore_end E u p0 now0 out0 w)) as [e|d].
        + destruct Hres as [_ [Hn _]]. congruence.
        + destruct Hres as [[_ [Hd Hk]] | [Ht _]]; [|congruence].
          injection Hk as Hk1 Hk2. rewrite Hk1, Hk2.
          repeat split; auto. intros _. congruence.
      - destruct (Hother u (not_eq_sym Hne)) as [H1 H2]. rewrite H1, H2.
        repeat split; auto. intros Heq. congruence. }
    destruct Hstep1 as [Hds1 [Ht1 Hr1]].
    destruct IH as [IHds [IHt IHr]]; [exact Hds1| |].
    { intros i q now out Hi. destruct (decide (i0 = i)) as [->|Hne].
      - rewrite list_lookup_insert_eq in Hi by exact Hlt. discriminate.
      - rewrite list_lookup_insert_ne in Hi by exact Hne. eapply Hfail, Hi. }
    split; [exact IHds|]. split; [congruence|].
    intros i q now out r Hi Hi'.
    destruct (decide (i0 = i)) as [->|Hne].
    + rewrite Hi in Hi0. injection Hi0 as <- <- <- <-.
      specialize (Hdone i _ (list_lookup_insert_eq _ _ _ Hlt)).
      rewrite Hdone in Hi'. injection Hi' as <-. apply Hr1. reflexivity.
    + eapply IHr; [|exact Hi']. rewrite list_lookup_insert_ne by exact Hne. exact Hi.
Qed.

Lemma finishAll_ends E order : forall ps w,
  exists ps' w',
    StoreAggregator.finishAll E order ps w = (inr ps', w')
    /\ rtc (ends E) (ps, w) (ps', w')
    /\ (forall i, In i order -> (i < length ps)%nat ->
          exists r, ps' !! i = Some (StoreAggregator.Done r)).
Proof.
  induction order as [|i rest IH]; intros ps w; simpl.
  - eexists _, _. split; [reflexivity|]. split; [constructor|]. intros i [].
  - unfold bind. pose proof (finish_run E i ps w) as Hf.
    destruct (ps !! i) as [[r|u p now out]|] eqn:Hi.
    + rewrite Hf. destruct (IH ps w) as [ps' [w' [-> [Hrtc Hd]]]].
      eexists _, _. split; [reflexivity|]. split; [exact Hrtc|].
      intros j [<-|Hj] Hlt; [|auto].
      exists r. apply (ends_rtc_facts E _ _ Hrtc). exact Hi.
    + rewrite Hf.
      assert (Hlt : (i < length ps)%nat) by (eapply lookup_lt_Some; eauto).
      match goal with |- context [StoreAggregator.finishAll E rest ?ps1 ?w1] =>
        destruct (IH ps1 w1) as [ps' [w' [-> [Hrtc Hd]]]] end.
      eexists _, _. split; [reflexivity|].
      split; [eapply rtc_l; [apply ends_at; exact Hi | exact Hrtc]|].
      intros j [<-|Hj] Hltj.
      * eexists. apply (ends_rtc_facts E _ _ Hrtc). simpl.
        apply list_lookup_insert_eq. exact Hlt.
      * apply Hd; [exact Hj|]. rewrite length_insert. exact Hltj.
    + rewrite Hf. destruct (IH ps w) as [ps' [w' [-> [Hrtc Hd]]]].
      eexists _, _. split; [reflexivity|]. split; [exact Hrtc|].
      intros j [<-|Hj] Hlt; [|auto].
      apply lookup_ge_None in Hi. lia.
Qed.

Lemma omap_resultOf_done ended :
  (forall i, (i < length ended)%nat -> exists r, ended !! i = Some (StoreAggregator.Done r)) ->
  Forall2 (fun x r => x = StoreAggregator.Done r) ended (omap StoreAggregator.resultOf ended).
Proof.
  induction ended as [|x rest IH]; intros H; [constructor|].
  destruct (H 0%nat) as [r Hr]; [simpl; lia|]. simpl in Hr. injection Hr as ->.
  cbn [omap list_omap StoreAggregator.resultOf]. constructor; [reflexivity|].
  apply IH. intros i Hi. apply (H (S i)). simpl. lia.
Qed.

(** [Promise.allSettled] over the pipelines: all are started, cache
    untouched; the fetches in flight end one after the other; every
    pipeline is settled, and the results come in the order of the
    profiles. *)
Lemma allSettled_run E pws w :
  exists xs w1 ended w' results,
    StoreAggregator.launchAll E pws w = (inr xs, w1)
    /\ cache w1 = cache w
    /\ Forall2 (launched w) pws xs
    /\ rtc (ends E) (xs, w1) (ended, w')
    /\ StoreAggregator.allSettled E pws w = (inr results, w')
    /\ Forall2 (fun x r => x = StoreAggregator.Done r) ended results
    /\ length results = length pws.
Proof.
  destruct (launchAll_shape E pws w) as [xs [w1 [Hl [Hc Hall]]]].
  destruct (finishAll_ends E (schedule E ++ seq 0 (length pws)) xs w1)
    as [ended [w' [Hf [Hrtc Hdone]]]].
  assert (Hlen : length xs = length pws) by (symmetry; eapply Forall2_length; eauto).
  assert (Hlen' : length ended = length xs) by apply (ends_rtc_facts E _ _ Hrtc).
  assert (Hd : Forall2 (fun x r => x = StoreAggregator.Done r) ended
                 (omap StoreAggregator.resultOf ended)).
  { apply omap_resultOf_done. intros i Hi. apply Hdone; [|lia].
    apply in_or_app. right. apply in_seq. lia. }
  exists xs, w1, ended, w', (omap StoreAggregator.resultOf ended).
  split; [exact Hl|]. split; [exact Hc|]. split; [exact Hall|]. split; [exact Hrtc|].
  split.
  - unfold StoreAggregator.allSettled, bind, ret. rewrite Hl, Hf. reflexivity.
  - split; [exact Hd|]. rewrite <- (Forall2_length _ _ _ Hd). lia.
Qed.

Lemma aggregation_run E profiles w results w' :
  StoreAggregator.allSettled E (declared profiles) w = (inr results, w') ->
  declared profiles <> [] ->
  StoreAggregator.aggregation E profiles w
  = (inr (Some (StoreAggregator.mkTally
                  (concat (map entriesOf results))
                  (length (List.filter (fun r => negb (isRejected r)) results))
                  (length (List.filter isRejected results)))), w').
Proof.
  intros Hs Hne. unfold StoreAggregator.aggregation, bind, ret. fold (declared profiles).
  destruct (declared profiles) as [|p rest] eqn:Hd; [congruence|].
  cbn [length Nat.eqb]. rewrite Hs, count_fold. reflexivity.
Qed.

Lemma fetchAllStores_run E profiles w results w' :
  StoreAggregator.allSettled E (declared profiles) w = (inr results, w') ->
  fst (StoreAggregator.fetchAllStores E profiles w) = inr (concat (map entriesOf results))
  /\ (declared profiles <> [] -> snd (StoreAggregator.fetchAllStores E profiles w) = w').
Proof.
  intros Hs. unfold StoreAggregator.fetchAllStores, bind, ret.
  destruct (declared profiles) as [|p rest] eqn:Hd.
  - unfold StoreAggregator.aggregation, ret. fold (declared profiles). rewrite Hd. simpl.
    split; [|congruence].
    revert Hs. unfold StoreAggregator.allSettled, bind, ret. simpl.
    destruct (StoreAggregator.finishAll E _ [] w) as [[e|ended] w2] eqn:Hf; [discriminate|].
    destruct (finishAll_ends E (schedule E ++ seq 0 0) [] w) as [e2 [w3 [Hf2 [Hrtc _]]]].
    simpl in Hf2. rewrite app_nil_r in Hf, Hf2. rewrite Hf2 in Hf. injection Hf as <- <-.
    pose proof (ends_rtc_facts E _ _ Hrtc) as [Hlen _]. simpl in Hlen.
    destruct e2; [|discriminate]. intros [= <- _]. reflexivity.
  - rewrite <- Hd in Hs.
    rewrite (aggregation_run E profiles w results w' Hs) by congruence.
    split; reflexivity.
Qed.

(** The world in which a pipeline ended: a pipeline that was waiting and
    is settled ended at some moment of the run, and its result is what
    the rest of [fetchStore] made of the world as it was then. *)
Lemma ends_rtc_moment E s s' :
  rtc (ends E) s s' ->
  forall i u p now out r,
    fst s !! i = Some (StoreAggregator.Waiting u p now out) ->
    fst s' !! i = Some (StoreAggregator.Done r) ->
    exists ps wi,
      rtc (ends E) s (ps, wi)
      /\ ps !! i = Some (StoreAggregator.Waiting u p now out)
      /\ r = fst (StoreAggregator.fetchStore_end E u p now out wi)
      /\ (forall v, cachedStores (snd s') !! v = None -> cachedStores wi !! v = None).
Proof.
  induction 1 as [s | s s1 s' Hstep Hrtc IH]; intros i u p now out r Hi Hi'.
  - congruence.
  - pose proof (ends_rtc_facts E _ _ Hrtc) as [_ [Hstay [_ [_ [Hmono _]]]]].
    destruct Hstep as [i0 u0 p0 now0 out0 ps w Hi0]. simpl in *.
    assert (Hlt : (i0 < length ps)%nat) by (eapply lookup_lt_Some; eauto).
    destruct (decide (i0 = i)) as [->|Hne].
    + rewrite Hi in Hi0. injection Hi0 as <- <- <- <-.
      exists ps, w. split; [constructor|]. split; [exact Hi|].
      specialize (Hstay i _ (list_lookup_insert_eq _ _ _ Hlt)).
      rewrite Hstay in Hi'. injection Hi' as <-. split; [reflexivity|].
      intros v Hv. apply Hmono in Hv.
      pose proof (fetchStore_end_cases E u p now out w) as Hc. cbv zeta in Hc.
      apply Hc. exact Hv.
    + destruct (IH i u p now out r) as [ps' [wi [Hreach [Hw [Hr Hm]]]]].
      { rewrite list_lookup_insert_ne by exact Hne. exact Hi. }
      { exact Hi'. }
      exists ps', wi. split; [|auto].
      eapply rtc_l; [apply ends_at; exact Hi0 | exact Hreach].
Qed.

(** ** The aggregation *)

Lemma started_launchAll E profiles w xs w1 :
  StoreAggregator.launchAll E (declared profiles) w = (inr xs, w1) ->
  started E profiles w = xs.
Proof. intros H. unfold started. rewrite H. reflexivity. Qed.

(** C4.  A store that [fetchAllStores] fetches for has a record in the
    cache, of whatever age, and every fetch of it that this aggregation
    makes fails: the entries of the record are part of what the
    aggregation returns, and the record, entries and time, is still in
    the cache afterwards. *)
Theorem C4_stale_fallback
  (E : Env) (profiles : list Profile) (w : World) (p : Profile) (u : string)
  (ds : list value) :
  In p profiles ->
  StoreAggregator.hasStore p = true ->
  store_url p = Some u ->
  cachedStores w !! u = Some ds ->
  (forall q now outcome,
      In (StoreAggregator.Waiting u q now outcome) (started E profiles w) ->
      tryThrows outcome = true) ->
  exists before after,
    fst (StoreAggregator.fetchAllStores E profiles w) = inr (before ++ ds ++ after)%list
    /\ cachedStores (snd (StoreAggregator.fetchAllStores E profiles w)) !! u = Some ds
    /\ lastFetchTime (snd (StoreAggregator.fetchAllStores E profiles w)) !! u
       = lastFetchTime w !! u.
Proof.
  intros Hin Hhas Hurl Hds Hfail.
  assert (Hp : In p (declared profiles)) by (apply filter_In; auto).
  assert (Hne : declared profiles <> []) by (intros Heq; rewrite Heq in Hp; destruct Hp).
  apply list_elem_of_In, list_elem_of_lookup in Hp as [i0 Hi0].
  destruct (allSettled_run E (declared profiles) w)
    as [xs [w1 [ended [w' [results [Hl [Hc [Hall [Hrtc [Hs [Hdone Hlen]]]]]]]]]]].
  pose proof (started_launchAll _ _ _ _ _ Hl) as Hst.
  injection Hc as Hc1 Hc2.
  destruct (ends_rtc_stale E u ds _ _ Hrtc) as [Hds' [Ht' Hsettle]].
  { simpl. rewrite Hc1. exact Hds. }
  { simpl. intros i q now out Hi. apply (Hfail q now out). rewrite Hst.
    apply list_elem_of_In, list_elem_of_lookup. eauto. }
  simpl in Hds', Ht', Hsettle.
  destruct (Forall2_lookup_l _ _ _ _ _ Hall Hi0) as [x [Hx Hlx]].
  assert (Hu : urlOf p = u) by (unfold urlOf; rewrite Hurl; reflexivity).
  assert (Hend : ended !! i0 = Some (StoreAggregator.Done (inr ds))).
  { destruct Hlx as [[c [-> Hcc]] | [now [out ->]]].
    - rewrite Hu, Hds in Hcc. injection Hcc as <-.
      apply (ends_rtc_facts E _ _ Hrtc). exact Hx.
    - rewrite Hu in Hx.
      assert (Hlt : (i0 < length ended)%nat).
      { rewrite (Forall2_length _ _ _ Hdone), Hlen. eapply lookup_lt_Some; eauto. }
      destruct (lookup_lt_is_Some_2 _ _ Hlt) as [y Hy].
      destruct (Forall2_lookup_l _ _ _ _ _ Hdone Hy) as [r [_ ->]].
      rewrite (Hsettle i0 p now out r Hx Hy) in Hy. exact Hy. }
  destruct (Forall2_lookup_l _ _ _ _ _ Hdone Hend) as [r [Hr Heq]].
  injection Heq as <-.
  destruct (fetchAllStores_run E profiles w results w' Hs) as [Hres Hw].
  rewrite (Hw Hne), Hres.
  exists (concat (map entriesOf (take i0 results))),
         (concat (map entriesOf (drop (S i0) results))).
  split; [|split; [exact Hds' | rewrite Ht', Hc2; reflexivity]].
  rewrite <- (take_drop_middle _ _ _ Hr) at 1.
  rewrite map_app, concat_app. simpl. reflexivity.
Qed.

Lemma C4_stale_fallback_witness :
  cachedStores Demo.returning !! Demo.bobUrl = Some [Demo.bobOld]
  /\ network Demo.aliceUp 1 = TimedOut
  /\ exists before after,
       fst (StoreAggregator.fetchAllStores Demo.aliceUp [Demo.alice; Demo.bob] Demo.returning)
       = inr (before ++ [Demo.bobOld] ++ after)%list
       /\ cachedStores (snd (StoreAggregator.fetchAllStores Demo.aliceUp
                               [Demo.alice; Demo.bob] Demo.returning)) !! Demo.bobUrl
          = Some [Demo.bobOld]
       /\ lastFetchTime (snd (StoreAggregator.fetchAllStores Demo.aliceUp
                                [Demo.alice; Demo.bob] Demo.returning)) !! Demo.bobUrl
          = lastFetchTime Demo.returning !! Demo.bobUrl.
Proof.
  split; [reflexivity|]. split; [reflexivity|].
  apply (C4_stale_fallback Demo.aliceUp [Demo.alice; Demo.bob] Demo.returning Demo.bob
           Demo.bobUrl [Demo.bobOld]).
  - right. left. reflexivity.
  - reflexivity.
  - reflexivity.
  - reflexivity.
  - intros q now outcome Hin.
    assert (Hs : started Demo.aliceUp [Demo.alice; Demo.bob] Demo.returning
                 = [StoreAggregator.Waiting Demo.catalogUrl Demo.alice (Demo.clockMs 0)
                      (Response 200 "OK" (Some Demo.catalog));
                    StoreAggregator.Waiting Demo.bobUrl Demo.bob (Demo.clockMs 2) TimedOut])
      by (vm_compute; reflexivity).
    rewrite Hs in Hin. destruct Hin as [H|[H|[]]].
    + discriminate H.
    + injection H as _ _ <-. reflexivity.
Defined.

(** C2, as the code has it.  [fetchAllStores] never raises, and what it
    returns is the array of entries only: the entries, in the order of
    the profiles, of every declared source whose pipeline is fulfilled,
    whether its document was fetched now or its entries came from the
    cache (a fresh record, or any record after a failed fetch).  The
    failure count, which it logs in its summary and does not return, is
    the number of rejected pipelines, and with the success count makes
    the number of declared sources.  A pipeline is rejected exactly
    when its fetch failed and the cache holds no record of its store at
    the moment the fetch ends, in the world the pipelines that ended
    before it have left: so it is rejected only when the cache had no
    such record at the start, and whenever it has none by the end.  A
    pipeline whose fetch delivered a document, and one served from a
    fresh record, is fulfilled. *)
Theorem C2_partial_failure_is_contained
  (E : Env) (profiles : list Profile) (w : World) :
  exists results w',
    StoreAggregator.allSettled E (declared profiles) w = (inr results, w')
    /\ length results = length (declared profiles)
    /\ fst (StoreAggregator.fetchAllStores E profiles w)
       = inr (concat (map entriesOf results))
    /\ (declared profiles <> [] ->
        fst (StoreAggregator.aggregation E profiles w)
        = inr (Some (StoreAggregator.mkTally
                       (concat (map entriesOf results))
                       (length (List.filter (fun r => negb (isRejected r)) results))
                       (length (List.filter isRejected results))))
        /\ (length (List.filter (fun r => negb (isRejected r)) results)
            + length (List.filter isRejected results) = length (declared profiles))%nat)
    /\ (forall i e, results !! i = Some (inl e) ->
          exists p now outcome,
            declared profiles !! i = Some p
            /\ started E profiles w !! i
               = Some (StoreAggregator.Waiting (urlOf p) p now outcome)
            /\ tryThrows outcome = true
            /\ cachedStores w !! urlOf p = None)
    /\ (forall i u p now outcome,
          started E profiles w !! i = Some (StoreAggregator.Waiting u p now outcome) ->
          tryThrows outcome = false ->
          exists dapps, results !! i = Some (inr dapps))
    /\ (forall i u p now outcome,
          started E profiles w !! i = Some (StoreAggregator.Waiting u p now outcome) ->
          tryThrows outcome = true ->
          cachedStores w' !! u = None ->
          exists e, results !! i = Some (inl e))
    /\ (forall i cached,
          started E profiles w !! i = Some (StoreAggregator.Done (inr cached)) ->
          results !! i = Some (inr cached))
    /\ (forall i u p now outcome,
          started E profiles w !! i = Some (StoreAggregator.Waiting u p now outcome) ->
          exists ps wi r,
            rtc (ends E)
                (started E profiles w,
                 snd (StoreAggregator.launchAll E (declared profiles) w))
                (ps, wi)
            /\ ps !! i = Some (StoreAggregator.Waiting u p now outcome)
            /\ results !! i = Some r
            /\ r = fst (StoreAggregator.fetchStore_end E u p now outcome wi)
            /\ (isRejected r = true
                <-> tryThrows outcome = true /\ cachedStores wi !! u = None)
            /\ (forall v, cachedStores wi !! v = None -> cachedStores w !! v = None)
            /\ (forall v, cachedStores w' !! v = None -> cachedStores wi !! v = None)).
Proof.
  destruct (allSettled_run E (declared profiles) w)
    as [xs [w1 [ended [w' [results [Hl [Hc [Hall [Hrtc [Hs [Hdone Hlen]]]]]]]]]]].
  pose proof (started_launchAll _ _ _ _ _ Hl) as Hst. rewrite Hst.
  pose proof (ends_rtc_facts E _ _ Hrtc) as [Hlen' [Hstay [_ [_ [_ [Hexp Hconv]]]]]].
  simpl in Hlen', Hstay, Hexp, Hconv.
  injection Hc as Hc1 Hc2.
  exists results, w'. split; [exact Hs|]. split; [exact Hlen|].
  split; [apply (fetchAllStores_run E profiles w results w' Hs)|].
  split.
  { intros Hne. rewrite (aggregation_run E profiles w results w' Hs Hne).
    split; [reflexivity|]. rewrite <- Hlen. clear.
    induction results as [|[e|d] rest IH]; simpl; lia. }
  split.
  { intros i e Hi.
    destruct (Forall2_lookup_r _ _ _ _ _ Hdone Hi) as [y [Hy ->]].
    assert (Hlt : (i < length xs)%nat).
    { rewrite <- Hlen'. eapply lookup_lt_Some; eauto. }
    destruct (lookup_lt_is_Some_2 _ _ Hlt) as [x Hx].
    destruct (Forall2_lookup_r _ _ _ _ _ Hall Hx) as [p [Hp Hlx]].
    destruct Hlx as [[c [-> _]] | [now [out ->]]].
    - apply Hstay in Hx. congruence.
    - destruct (Hexp i _ _ _ _ e Hx Hy) as [Ht Hn].
      exists p, now, out. rewrite <- Hc1. auto. }
  split.
  { intros i u p now out Hx Ht.
    assert (Hlt : (i < length ended)%nat).
    { rewrite Hlen'. eapply lookup_lt_Some; eauto. }
    destruct (lookup_lt_is_Some_2 _ _ Hlt) as [y Hy].
    destruct (Forall2_lookup_l _ _ _ _ _ Hdone Hy) as [r [Hr ->]].
    destruct r as [e|d]; [|eauto].
    destruct (Hexp i _ _ _ _ e Hx Hy) as [Ht' _]. congruence. }
  split.
  { intros i u p now out Hx Ht Hnone.
    assert (Hlt : (i < length ended)%nat).
    { rewrite Hlen'. eapply lookup_lt_Some; eauto. }
    destruct (lookup_lt_is_Some_2 _ _ Hlt) as [y Hy].
    destruct (Forall2_lookup_l _ _ _ _ _ Hdone Hy) as [r [Hr ->]].
    destruct r as [e|d]; [eauto|].
    destruct (Hconv i _ _ _ _ d Hx Hy Ht) as [c Hc]. congruence. }
  split.
  { intros i c Hx. apply Hstay in Hx.
    destruct (Forall2_lookup_l _ _ _ _ _ Hdone Hx) as [r [Hr Heq]].
    injection Heq as <-. exact Hr. }
  intros i u p now out Hx. rewrite Hl. cbn [snd].
  assert (Hlt : (i < length ended)%nat).
  { rewrite Hlen'. eapply lookup_lt_Some; eauto. }
  destruct (lookup_lt_is_Some_2 _ _ Hlt) as [y Hy].
  destruct (Forall2_lookup_l _ _ _ _ _ Hdone Hy) as [r [Hr ->]].
  destruct (ends_rtc_moment E _ _ Hrtc i u p now out r Hx Hy)
    as [ps [wi [Hreach [Hw [Heq Hm]]]]].
  pose proof (ends_rtc_facts E _ _ Hreach) as [_ [_ [_ [_ [Hm0 _]]]]].
  simpl in Hm, Hm0.
  exists ps, wi, r. split; [exact Hreach|]. split; [exact Hw|]. split; [exact Hr|].
  split; [exact Heq|]. split.
  { pose proof (fetchStore_end_cases E u p now out wi) as Hc. cbv zeta in Hc.
    destruct Hc as [_ [_ [_ Hres]]]. rewrite <- Heq in Hres.
    destruct r as [e|d]; simpl; split.
    - intros _. destruct Hres as [Ht [Hn _]]. auto.
    - reflexivity.
    - discriminate.
    - intros [Ht Hn]. destruct Hres as [[_ [Hd _]] | [Hf _]]; congruence. }
  split; [intros v Hv; rewrite <- Hc1; apply Hm0, Hv | exact Hm].
Qed.

(** C2 as stated fails: no report is returned.  Of two stores, Alice's
    answers; in one run Bob's does not answer and has no record to fall
    back on, in the other it answers with an empty catalog.  The summary
    that is logged counts one failure in the first run and none in the
    second, and the caller gets the same value from both: the entries,
    with no count of failures in it. *)
Lemma C2_failure_count_is_not_returned :
  exists failing answering,
    fst (StoreAggregator.aggregation Demo.aliceUp [Demo.alice; Demo.bob] Demo.blank)
    = inr (Some failing)
    /\ fst (StoreAggregator.aggregation Sample.bothUp [Demo.alice; Demo.bob] Demo.blank)
       = inr (Some answering)
    /\ StoreAggregator.failCount failing = 1%nat
    /\ StoreAggregator.failCount answering = 0%nat
    /\ fst (StoreAggregator.fetchAllStores Demo.aliceUp [Demo.alice; Demo.bob] Demo.blank)
       = inr (StoreAggregator.allDapps failing)
    /\ fst (StoreAggregator.fetchAllStores Sample.bothUp [Demo.alice; Demo.bob] Demo.blank)
       = inr (StoreAggregator.allDapps answering)
    /\ fst (StoreAggregator.fetchAllStores Demo.aliceUp [Demo.alice; Demo.bob] Demo.blank)
       = fst (StoreAggregator.fetchAllStores Sample.bothUp [Demo.alice; Demo.bob] Demo.blank).
Proof.
  eexists _, _. split; [vm_compute; reflexivity|]. split; [vm_compute; reflexivity|].
  repeat split; vm_compute; reflexivity.
Qed.

(** * Further properties of the code *)

(** ** Identifiers and URLs *)

Lemma toInt32_mod a b :
  a mod 2 ^ 32 = b mod 2 ^ 32 -> StoreAggregator.toInt32 a = StoreAggregator.toInt32 b.
Proof.
  intros H. unfold StoreAggregator.toInt32.
  rewrite <- (Zplus_mod_idemp_l a), <- (Zplus_mod_idemp_l b), H. reflexivity.
Qed.

Lemma toInt32_congr a : (StoreAggregator.toInt32 a) mod 2 ^ 32 = a mod 2 ^ 32.
Proof.
  unfold StoreAggregator.toInt32.
  rewrite Zminus_mod, Zmod_mod, <- Zminus_mod.
  f_equal. lia.
Qed.

Lemma toInt32_range a : - 2 ^ 31 <= StoreAggregator.toInt32 a < 2 ^ 31.
Proof.
  unfold StoreAggregator.toInt32.
  pose proof (Z.mod_pos_bound (a + 2 ^ 31) (2 ^ 32) ltac:(lia)). lia.
Qed.

Lemma hashStep_poly h c :
  StoreAggregator.hashStep h c = StoreAggregator.toInt32 (31 * h + c).
Proof.
  unfold StoreAggregator.hashStep. cbv zeta. rewrite Z.land_diag.
  apply toInt32_mod.
  rewrite Z.shiftl_mul_pow2 by lia.
  rewrite <- Zplus_mod_idemp_l, <- Zminus_mod_idemp_l, toInt32_congr.
  rewrite <- Zmult_mod_idemp_l, toInt32_congr, Zmult_mod_idemp_l.
  rewrite Zminus_mod_idemp_l, Zplus_mod_idemp_l.
  f_equal. lia.
Qed.

Lemma toInt32_step a c :
  StoreAggregator.toInt32 (31 * StoreAggregator.toInt32 a + c)
  = StoreAggregator.toInt32 (31 * a + c).
Proof.
  apply toInt32_mod.
  rewrite <- Zplus_mod_idemp_l, <- Zmult_mod_idemp_r, toInt32_congr,
    Zmult_mod_idemp_r, Zplus_mod_idemp_l.
  reflexivity.
Qed.

Lemma fold_left_step {A B : Type} (f : A -> B -> A) (x : B) (l : list B) (a : A) :
  fold_left f (x :: l) a = fold_left f l (f a x).
Proof. reflexivity. Qed.

Lemma fold_left_done {A B : Type} (f : A -> B -> A) (a : A) : fold_left f [] a = a.
Proof. reflexivity. Qed.

Lemma hash_fold codes : forall a,
  fold_left StoreAggregator.hashStep codes (StoreAggregator.toInt32 a)
  = StoreAggregator.toInt32 (fold_left (fun h c => 31 * h + c) codes a).
Proof.
  induction codes as [|c rest IH]; intros a.
  - rewrite !fold_left_done. reflexivity.
  - rewrite !fold_left_step, hashStep_poly, toInt32_step. apply IH.
Qed.

(** X1.  The hash behind [generateUid] is the base-31 polynomial of the
    code units of the text, wrapped to a signed 32-bit integer; so it
    lies between -2^31 and 2^31 - 1, whatever the length of the text. *)
Theorem hashOf_is_polynomial_mod_2_32 (combined : string) :
  StoreAggregator.hashOf combined = StoreAggregator.toInt32 (poly31 (charCodes combined))
  /\ - 2 ^ 31 <= StoreAggregator.hashOf combined < 2 ^ 31.
Proof.
  assert (H : StoreAggregator.hashOf combined
              = StoreAggregator.toInt32 (poly31 (charCodes combined))).
  { pose proof (hash_fold (charCodes combined) 0) as H0.
    replace (StoreAggregator.toInt32 0) with 0 in H0 by (vm_compute; reflexivity).
    exact H0. }
  split; [exact H|]. rewrite H. apply toInt32_range.
Qed.





Lemma listings_provenance E base url p entries : forall t,
  Forall (fun d => prop d "store_url" = VStr url
                   /\ prop d "developer_address" = address p
                   /\ prop d "developer" = username p
                   /\ prop d "store_name" = VStr (toStr (username p) ++ "'s Store")
                   /\ exists uid, prop d "uid" = VStr ("0x" ++ uid))
         (listings E base url p entries t)
  /\ (length (listings E base url p entries t) <= length entries)%nat.
Proof.
  induction entries as [|[key dd] rest IH]; intros t; simpl; [split; [constructor | lia]|].
  destruct (StoreAggregator.isMetadata key).
  { destruct (IH t) as [H1 H2]. split; [exact H1 | lia]. }
  destruct (nullish dd).
  { destruct (IH (S t)) as [H1 H2]. split; [exact H1 | lia]. }
  destruct (IH (S (S t))) as [H1 H2]. split; [|simpl; lia].
  constructor; [|exact H1].
  unfold listing. cbn [prop assoc String.eqb Ascii.eqb Bool.eqb].
  repeat split. eexists. unfold uidAt. reflexivity.
Qed.

(** X3.  Every listing that [parseStoreData] returns says where it comes
    from: it carries the URL of the catalog, the address and the name of
    the publisher whose profile was given, and an identifier that starts
    with 0x; and there are no more listings than the document has keys.
    A document that is [null] makes it throw; a number or a boolean
    gives no listing. *)
Theorem parseStoreData_provenance
  (E : Env) (storeData : value) (storeUrl : string) (profile : Profile) (w : World) :
  (forall dapps,
      fst (StoreAggregator.parseStoreData E storeData storeUrl profile w) = inr dapps ->
      Forall (fun d => prop d "store_url" = VStr storeUrl
                       /\ prop d "developer_address" = address profile
                       /\ prop d "developer" = username profile
                       /\ prop d "store_name" = VStr (toStr (username profile) ++ "'s Store")
                       /\ exists uid, prop d "uid" = VStr ("0x" ++ uid))
             dapps
      /\ forall entries, Object_entries storeData = inr entries ->
                         (length dapps <= length entries)%nat)
  /\ (nullish storeData = true ->
      exists e, fst (StoreAggregator.parseStoreData E storeData storeUrl profile w) = inl e)
  /\ (forall n b, storeData = VNum n \/ storeData = VBool b ->
      fst (StoreAggregator.parseStoreData E storeData storeUrl profile w) = inr []).
Proof.
  split; [|split].
  - intros dapps H. destruct (Object_entries storeData) as [e|entries] eqn:He.
    + rewrite (parseStoreData_throws _ _ _ _ _ _ He) in H. discriminate.
    + rewrite (parseStoreData_run _ _ _ _ _ _ He) in H. simpl in H. injection H as <-.
      destruct (listings_provenance E (StoreAggregator.baseUrlOf storeUrl) storeUrl profile
                  entries (ticks w)) as [H1 H2].
      split; [exact H1|]. intros entries' [= <-]. exact H2.
  - intros Hn. destruct storeData; try discriminate Hn;
      (eexists; rewrite (parseStoreData_throws E _ _ _ _ (TypeError "Object.entries"));
       reflexivity).
  - intros n b [-> | ->]; reflexivity.
Qed.

(** ** The cache of the aggregator *)

Lemma fetchStore_hit E storeUrl p w cached :
  StoreAggregator.isFresh (lastFetchTime w !! storeUrl) (clock E (ticks w)) = true ->
  cachedStores w !! storeUrl = Some cached ->
  StoreAggregator.fetchStore E storeUrl p w = (inr cached, set_ticks (S (ticks w)) w).
Proof.
  intros Hf Hc. unfold StoreAggregator.fetchStore, bind.
  rewrite fetchStore_begin_run. cbv zeta. rewrite Hf, Hc. reflexivity.
Qed.

Lemma fetchStore_miss E storeUrl p w :
  (if StoreAggregator.isFresh (lastFetchTime w !! storeUrl) (clock E (ticks w))
   then cachedStores w !! storeUrl else None) = None ->
  StoreAggregator.fetchStore E storeUrl p w
  = StoreAggregator.fetchStore_end E storeUrl p (clock E (ticks w))
      (network E (length (requests w)))
      (set_requests (requests w ++ [StoreAggregator.theRequest storeUrl])%list
         (set_ticks (S (S (ticks w))) w)).
Proof.
  intros Hm. unfold StoreAggregator.fetchStore, bind.
  rewrite fetchStore_begin_run. cbv zeta. rewrite Hm. reflexivity.
Qed.

(** X4.  While the record of a store is younger than five minutes,
    [fetchStore] answers from it: the cached listings are returned, no
    request is made and the cache is left as it is, whoever the profile
    given is. *)
Theorem fetchStore_fresh_record_is_served
  (E : Env) (storeUrl : string) (profile : Profile) (w : World)
  (t : Z) (cached : list value) :
  lastFetchTime w !! storeUrl = Some t ->
  cachedStores w !! storeUrl = Some cached ->
  t <> 0 ->
  clock E (ticks w) - t < 5 * 60 * 1000 ->
  fst (StoreAggregator.fetchStore E storeUrl profile w) = inr cached
  /\ requests (snd (StoreAggregator.fetchStore E storeUrl profile w)) = requests w
  /\ cache (snd (StoreAggregator.fetchStore E storeUrl profile w)) = cache w.
Proof.
  intros Ht Hc H0 Hage.
  rewrite (fetchStore_hit E storeUrl profile w cached); [repeat split| |exact Hc].
  rewrite Ht. unfold StoreAggregator.isFresh, StoreAggregator.cacheDuration.
  apply andb_true_iff. split.
  - apply negb_true_iff, Z.eqb_neq, H0.
  - apply Z.ltb_lt, Hage.
Qed.

Lemma fetchStore_fresh_record_is_served_witness :
  fst (StoreAggregator.fetchStore Demo.quiet Demo.bobUrl Demo.alice Sample.justFetched)
  = inr [Demo.bobOld]
  /\ requests (snd (StoreAggregator.fetchStore Demo.quiet Demo.bobUrl Demo.alice
                      Sample.justFetched)) = requests Sample.justFetched
  /\ cache (snd (StoreAggregator.fetchStore Demo.quiet Demo.bobUrl Demo.alice
                   Sample.justFetched)) = cache Sample.justFetched.
Proof.
  apply (fetchStore_fresh_record_is_served Demo.quiet Demo.bobUrl Demo.alice
           Sample.justFetched 1699999990000 [Demo.bobOld]).
  - reflexivity.
  - reflexivity.
  - lia.
  - vm_compute; reflexivity.
Defined.

(** X5.  A store fetched with success is not fetched again for five
    minutes: when the first call finds no fresh record and the request
    is answered with a document, the listings are returned after exactly
    one request, and a second call for the same URL, made within five
    minutes of the first and with any profile, returns the same listings
    without a request.  (The age is counted from the clock reading taken
    at the start of the first call, and that reading must not be 0.) *)
Theorem fetchStore_success_is_cached
  (E : Env) (storeUrl : string) (profile other : Profile) (w : World) :
  StoreAggregator.isFresh (lastFetchTime w !! storeUrl) (clock E (ticks w)) = false ->
  tryThrows (network E (length (requests w))) = false ->
  clock E (ticks w) <> 0 ->
  clock E (ticks (snd (StoreAggregator.fetchStore E storeUrl profile w)))
    - clock E (ticks w) < 5 * 60 * 1000 ->
  exists dapps,
    fst (StoreAggregator.fetchStore E storeUrl profile w) = inr dapps
    /\ requests (snd (StoreAggregator.fetchStore E storeUrl profile w))
       = (requests w ++ [StoreAggregator.theRequest storeUrl])%list
    /\ fst (StoreAggregator.fetchStore E storeUrl other
              (snd (StoreAggregator.fetchStore E storeUrl profile w))) = inr dapps
    /\ requests (snd (StoreAggregator.fetchStore E storeUrl other
                        (snd (StoreAggregator.fetchStore E storeUrl profile w))))
       = (requests w ++ [StoreAggregator.theRequest storeUrl])%list.
Proof.
  intros Hstale Hok Hnow.
  rewrite (fetchStore_miss E storeUrl profile w) by (rewrite Hstale; reflexivity).
  match goal with |- context [StoreAggregator.fetchStore_end E storeUrl profile ?n ?o ?w0] =>
    destruct (fetchStore_end_returns E storeUrl profile n o w0 Hok)
      as [dapps [w1 [Hrun [Hc [Ht Hq]]]]] end.
  rewrite Hrun. cbn [fst snd]. intros Hage. exists dapps.
  split; [reflexivity|]. split; [rewrite Hq; reflexivity|].
  assert (Hhit : StoreAggregator.fetchStore E storeUrl other w1
                 = (inr dapps, set_ticks (S (ticks w1)) w1)).
  { apply fetchStore_hit.
    - rewrite Ht, lookup_insert_eq.
      unfold StoreAggregator.isFresh, StoreAggregator.cacheDuration.
      apply andb_true_iff. split.
      + apply negb_true_iff, Z.eqb_neq, Hnow.
      + apply Z.ltb_lt, Hage.
    - rewrite Hc, lookup_insert_eq. reflexivity. }
  rewrite Hhit. cbn [fst snd]. split; [reflexivity|].
  cbn [set_ticks requests]. rewrite Hq. reflexivity.
Qed.

Lemma fetchStore_success_is_cached_witness :
  exists dapps,
    fst (StoreAggregator.fetchStore Sample.answering Demo.catalogUrl Demo.alice Demo.blank)
    = inr dapps
    /\ requests (snd (StoreAggregator.fetchStore Sample.answering Demo.catalogUrl Demo.alice
                        Demo.blank))
       = (requests Demo.blank ++ [StoreAggregator.theRequest Demo.catalogUrl])%list
    /\ fst (StoreAggregator.fetchStore Sample.answering Demo.catalogUrl Demo.bob
              (snd (StoreAggregator.fetchStore Sample.answering Demo.catalogUrl Demo.alice
                      Demo.blank))) = inr dapps
    /\ requests (snd (StoreAggregator.fetchStore Sample.answering Demo.catalogUrl Demo.bob
                        (snd (StoreAggregator.fetchStore Sample.answering Demo.catalogUrl
                                Demo.alice Demo.blank))))
       = (requests Demo.blank ++ [StoreAggregator.theRequest Demo.catalogUrl])%list.
Proof.
  apply (fetchStore_success_is_cached Sample.answering Demo.catalogUrl Demo.alice Demo.bob
           Demo.blank).
  - reflexivity.
  - reflexivity.
  - vm_compute; discriminate.
  - vm_compute; reflexivity.
Defined.

(** X6.  [clearCache] of one store makes the aggregator forget it: the
    next [fetchStore] of that URL makes a request whatever the clock
    says, and has no record to fall back on when the request fails;
    the records of the other stores are left as they are.  Called
    without a URL, or with the empty string, it forgets every store. *)
Theorem clearCache_forgets_the_store
  (E : Env) (storeUrl : string) (profile : Profile) (w : World) :
  storeUrl <> "" ->
  requests (snd (StoreAggregator.fetchStore E storeUrl profile
                   (snd (StoreAggregator.clearCache (Some storeUrl) w))))
  = (requests w ++ [StoreAggregator.theRequest storeUrl])%list
  /\ (tryThrows (network E (length (requests w))) = true ->
      exists e, fst (StoreAggregator.fetchStore E storeUrl profile
                       (snd (StoreAggregator.clearCache (Some storeUrl) w))) = inl e)
  /\ (forall other, other <> storeUrl ->
        cachedStores (snd (StoreAggregator.clearCache (Some storeUrl) w)) !! other
        = cachedStores w !! other
        /\ lastFetchTime (snd (StoreAggregator.clearCache (Some storeUrl) w)) !! other
           = lastFetchTime w !! other)
  /\ (forall any,
        cache (snd (StoreAggregator.clearCache None w)) = (∅, ∅)
        /\ cache (snd (StoreAggregator.clearCache (Some "") w)) = (∅, ∅)
        /\ requests (snd (StoreAggregator.fetchStore E any profile
                            (snd (StoreAggregator.clearCache None w))))
           = (requests w ++ [StoreAggregator.theRequest any])%list).
Proof.
  intros Hne.
  assert (Hb : String.eqb storeUrl "" = false) by (apply String.eqb_neq, Hne).
  unfold StoreAggregator.clearCache. rewrite Hb. cbn [negb]. unfold write. cbn [snd].
  split; [|split; [|split]].
  - rewrite fetchStore_miss.
    + rewrite fetchStore_end_requests. reflexivity.
    + cbn. rewrite lookup_delete_eq. reflexivity.
  - intros Ht. rewrite fetchStore_miss by (cbn; rewrite lookup_delete_eq; reflexivity).
    match goal with |- context [StoreAggregator.fetchStore_end E storeUrl profile ?n ?o ?w0] =>
      destruct (fetchStore_end_rejects E storeUrl profile n o w0) as [e [w1 [Hr _]]] end.
    + exact Ht.
    + cbn. apply lookup_delete_eq.
    + rewrite Hr. eauto.
  - intros other Ho. cbn. rewrite !lookup_delete_ne by congruence. split; reflexivity.
  - intros any. split; [reflexivity|]. split; [reflexivity|].
    rewrite fetchStore_miss.
    + rewrite fetchStore_end_requests. reflexivity.
    + cbn. rewrite lookup_empty. reflexivity.
Qed.

Lemma clearCache_forgets_the_store_witness :
  requests (snd (StoreAggregator.fetchStore Demo.quiet Demo.bobUrl Demo.bob
                   (snd (StoreAggregator.clearCache (Some Demo.bobUrl) Sample.justFetched))))
  = [StoreAggregator.theRequest Demo.bobUrl]
  /\ fst (StoreAggregator.fetchStore Demo.quiet Demo.bobUrl Demo.bob
            (snd (StoreAggregator.clearCache (Some Demo.bobUrl) Sample.justFetched)))
     = inl TimeoutError.
Proof.
  pose proof (clearCache_forgets_the_store Demo.quiet Demo.bobUrl Demo.bob Sample.justFetched
                ltac:(discriminate)) as [Hq _].
  split; [exact Hq | vm_compute; reflexivity].
Defined.

(** ** Which profiles are fetched *)

Lemma trimStart_empty s : trimStart s = "" <-> hasInk s = false.
Proof.
  induction s as [|c r IH]; simpl; [tauto|].
  destruct (isWhite c); simpl; [exact IH|]. split; discriminate.
Qed.

Lemma trimEnd_empty s : trimEnd s = "" <-> hasInk s = false.
Proof.
  induction s as [|c r IH]; simpl; [tauto|].
  destruct (trimEnd r) as [|c' r'] eqn:Hr.
  - destruct (isWhite c); simpl.
    + split; [intros _; apply IH; reflexivity | reflexivity].
    + split; discriminate.
  - split; [discriminate|]. intros H. apply orb_false_iff in H as [_ H].
    apply IH in H. discriminate.
Qed.

Lemma hasInk_trimStart s : hasInk (trimStart s) = hasInk s.
Proof.
  induction s as [|c r IH]; simpl; [reflexivity|].
  destruct (isWhite c) eqn:Hc; simpl; [exact IH | rewrite Hc; reflexivity].
Qed.

Lemma trim_empty s : trim s = "" <-> hasInk s = false.
Proof. unfold trim. rewrite trimEnd_empty, hasInk_trimStart. tauto. Qed.

Lemma hasStore_hasInk p :
  StoreAggregator.hasStore p = match store_url p with
                               | Some u => hasInk u
                               | None => false
                               end.
Proof.
  unfold StoreAggregator.hasStore. destruct (store_url p) as [u|]; [|reflexivity].
  destruct (hasInk u) eqn:Hi.
  - apply andb_true_iff. split; apply negb_true_iff, String.eqb_neq; intros H.
    + rewrite H in Hi. discriminate.
    + apply trim_empty in H. congruence.
  - apply andb_false_iff. right. apply negb_false_iff, String.eqb_eq, trim_empty, Hi.
Qed.

(** X7.  A profile counts as declaring a store exactly when its store
    URL holds a character that is not white space.  When no profile of
    the list does, [fetchAllStores] returns the empty list at once: no
    request is made, the clock is not read and the cache is not
    touched. *)
Theorem fetchAllStores_without_stores
  (E : Env) (profiles : list Profile) (w : World) :
  (forall p u, In p profiles -> store_url p = Some u -> hasInk u = false) ->
  StoreAggregator.fetchAllStores E profiles w = (inr [], w).
Proof.
  intros H.
  assert (Hd : List.filter StoreAggregator.hasStore profiles = []).
  { induction profiles as [|p rest IH]; [reflexivity|]. simpl.
    rewrite hasStore_hasInk. destruct (store_url p) as [u|] eqn:Hu.
    - rewrite (H p u (or_introl eq_refl) Hu). apply IH.
      intros q v Hq. apply H. right. exact Hq.
    - apply IH. intros q v Hq. apply H. right. exact Hq. }
  unfold StoreAggregator.fetchAllStores, StoreAggregator.aggregation, bind, ret.
  rewrite Hd. reflexivity.
Qed.

Lemma fetchAllStores_without_stores_witness :
  StoreAggregator.fetchAllStores Sample.answering [Sample.blankStore; Sample.noStore] Demo.blank
  = (inr [], Demo.blank).
Proof.
  apply (fetchAllStores_without_stores Sample.answering
           [Sample.blankStore; Sample.noStore] Demo.blank).
  intros p u [<-|[<-|[]]] [= <-]. reflexivity.
Defined.

Lemma launchAll_cold E ps : forall w,
  cachedStores w = ∅ ->
  exists xs w', StoreAggregator.launchAll E ps w = (inr xs, w')
    /\ cache w' = cache w
    /\ requests w'
       = (requests w ++ map (fun p => StoreAggregator.theRequest (urlOf p)) ps)%list.
Proof.
  induction ps as [|p rest IH]; intros w Hc; simpl.
  - eexists _, _. split; [reflexivity|]. split; [reflexivity|].
    rewrite app_nil_r. reflexivity.
  - unfold bind. rewrite launch_run, Hc, lookup_empty.
    replace (if StoreAggregator.isFresh (lastFetchTime w !! urlOf p) (clock E (ticks w))
             then None else None) with (@None (list value))
      by (destruct (StoreAggregator.isFresh _ _); reflexivity).
    match goal with |- context [StoreAggregator.launchAll E rest ?w1] =>
      destruct (IH w1) as [xs [w2 [-> [Hk Hq]]]]; [exact Hc|] end.
    eexists _, _. split; [reflexivity|]. split; [rewrite Hk; reflexivity|].
    rewrite Hq. cbn [set_requests set_ticks requests]. rewrite <- app_assoc. reflexivity.
Qed.

(** X8.  On an empty cache [fetchAllStores] makes exactly one request
    for every profile that declares a store, in the order of the
    profiles and whatever the outcomes and the order in which the
    fetches end: a GET of the profile's URL with a timeout of ten
    seconds.  Two profiles that declare the same URL cause two
    requests. *)
Theorem fetchAllStores_requests_on_empty_cache
  (E : Env) (profiles : list Profile) (w : World) :
  cachedStores w = ∅ ->
  requests (snd (StoreAggregator.fetchAllStores E profiles w))
  = (requests w
     ++ map (fun p => mkRequest (urlOf p) "GET" "application/json" 10000)
            (declared profiles))%list.
Proof.
  intros Hc.
  destruct (allSettled_run E (declared profiles) w)
    as [xs [w1 [ended [w' [results [Hl [_ [_ [Hrtc [Hs _]]]]]]]]]].
  destruct (launchAll_cold E (declared profiles) w Hc) as [xs' [w1' [Hl' [_ Hq]]]].
  rewrite Hl in Hl'. injection Hl' as <- <-.
  destruct (fetchAllStores_run E profiles w results w' Hs) as [_ Hw].
  destruct (declared profiles) as [|p rest] eqn:Hd.
  - unfold StoreAggregator.fetchAllStores, StoreAggregator.aggregation, bind, ret.
    fold (declared profiles). rewrite Hd. simpl. rewrite app_nil_r. reflexivity.
  - rewrite Hw by discriminate.
    pose proof (ends_rtc_facts E _ _ Hrtc) as [_ [_ [_ [Hreq _]]]].
    simpl in Hreq. rewrite Hreq, Hq. reflexivity.
Qed.

Lemma fetchAllStores_requests_on_empty_cache_witness :
  requests (snd (StoreAggregator.fetchAllStores Demo.aliceUp
                   [Demo.alice; Sample.noStore; Demo.alice] Demo.blank))
  = [mkRequest Demo.catalogUrl "GET" "application/json" 10000;
     mkRequest Demo.catalogUrl "GET" "application/json" 10000].
Proof.
  exact (fetchAllStores_requests_on_empty_cache Demo.aliceUp
           [Demo.alice; Sample.noStore; Demo.alice] Demo.blank eq_refl).
Defined.

(** ** The profile scan *)

Lemma port0_is_object s : strictEqStr (prop s "port") "0" = true -> truthy s = true.
Proof. destruct s; simpl; try discriminate; reflexivity. Qed.

Lemma decodeProfile_record E address coin data profiles :
  BlockchainAPI.decodeProfile E address coin data profiles
  = (profiles ++ option_list
       (match JSON_parse E (toStr data) with
        | None => None
        | Some profileData =>
            if askedFor address profileData
            then Some (BlockchainAPI.registeredProfile coin profileData)
            else None
        end))%list.
Proof.
  unfold BlockchainAPI.decodeProfile, askedFor.
  destruct (JSON_parse E (toStr data)) as [pd|]; [|symmetry; apply app_nil_r].
  destruct address as [a|]; [|reflexivity].
  destruct (String.eqb a ""); [reflexivity|]. cbn [orb].
  destruct (nullish pd) eqn:Hn.
  - rewrite (get_nullish _ _ Hn). destruct pd; try discriminate Hn; symmetry; apply app_nil_r.
  - rewrite (get_prop _ _ Hn).
    destruct (strictEqStr (prop pd "address") a); [reflexivity | symmetry; apply app_nil_r].
Qed.

Lemma visitProfile_record E address coin profiles :
  wellFormedRecord coin = true ->
  BlockchainAPI.visitProfile E address coin profiles
  = inr (profiles ++ option_list (profileRecord E address coin))%list.
Proof.
  unfold wellFormedRecord, BlockchainAPI.visitProfile, profileRecord, profileSlot.
  intros H. apply andb_true_iff in H as [Hc Hs]. apply negb_true_iff in Hc.
  rewrite (get_prop _ _ Hc).
  destruct (prop coin "state") as [| | | | |items|]; try (rewrite app_nil_r; reflexivity).
  rewrite (findPort0_find _ Hs).
  destruct (List.find _ items) as [s|] eqn:Hf; [|rewrite app_nil_r; reflexivity].
  apply find_some in Hf as [_ Hp]. rewrite (port0_is_object _ Hp).
  rewrite decodeProfile_record. reflexivity.
Qed.

Lemma scanProfiles_omap E address coins : forall profiles,
  forallb wellFormedRecord coins = true ->
  BlockchainAPI.scanProfiles E address coins profiles
  = inr (profiles ++ omap (profileRecord E address) coins)%list.
Proof.
  induction coins as [|coin rest IH]; intros profiles Hwf.
  - simpl. rewrite app_nil_r. reflexivity.
  - cbn [forallb] in Hwf. apply andb_true_iff in Hwf as [Hc Hrest].
    cbn [BlockchainAPI.scanProfiles omap list_omap].
    rewrite (visitProfile_record _ _ _ _ Hc), (IH _ Hrest).
    destruct (profileRecord E address coin) as [p|].
    + change (option_list (Some p)) with [p]. rewrite <- app_assoc. reflexivity.
    + change (option_list None) with (@nil value). rewrite app_nil_r. reflexivity.
Qed.

Lemma queryProfiles_run E address w result coins :
  blockchainAPI_isReady w = true ->
  fst (MinimaAPI.cmd E "coins relevant:false" w) = inr result ->
  prop (response result) "coins" = VArr coins ->
  fst (BlockchainAPI.queryProfiles E address w)
  = inr (match BlockchainAPI.scanProfiles E address coins [] with
         | inr profiles => profiles
         | inl _ => []
         end).
Proof.
  intros Hready Hcmd Hcoins.
  unfold BlockchainAPI.queryProfiles, try_catch, bind, read, throw, ret, lift.
  rewrite Hready. simpl.
  destruct (MinimaAPI.cmd E "coins relevant:false" w) as [r w'].
  simpl in Hcmd. subst r.
  assert (Hresp : truthy (response result) = true).
  { destruct (response result); try discriminate Hcoins; reflexivity. }
  rewrite Hresp, Hcoins. simpl.
  destruct (BlockchainAPI.scanProfiles E address coins []); reflexivity.
Qed.

Lemma queryProfiles_scans_every_record_aux E w address result coins :
  blockchainAPI_isReady w = true ->
  fst (MinimaAPI.cmd E "coins relevant:false" w) = inr result ->
  prop (response result) "coins" = VArr coins ->
  forallb wellFormedRecord coins = true ->
  fst (BlockchainAPI.queryProfiles E address w)
  = inr (omap (profileRecord E address) coins).
Proof.
  intros Hready Hcmd Hcoins Hwf.
  rewrite (queryProfiles_run E address w result coins Hready Hcmd Hcoins).
  rewrite (scanProfiles_omap E address coins [] Hwf). reflexivity.
Qed.

(** X9.  The profile scan returns, in scan order and without a limit,
    one entry for every well-formed record whose state item at port 0
    decodes as JSON and, when an address is asked for, declares that
    address: the decoded properties with the record's id as [txId] and
    its block as [block].  The scan reads no type tag: the records of
    every application are decoded. *)
Theorem queryProfiles_scans_every_record
  (E : Env) (w : World) (address : option string) (result : Reply) (coins : list value) :
  blockchainAPI_isReady w = true ->
  fst (MinimaAPI.cmd E "coins relevant:false" w) = inr result ->
  prop (response result) "coins" = VArr coins ->
  forallb wellFormedRecord coins = true ->
  fst (BlockchainAPI.queryProfiles E address w)
  = inr (omap (profileRecord E address) coins).
Proof.
  intros Hready Hcmd Hcoins Hwf.
  apply (queryProfiles_scans_every_record_aux E w address result coins); assumption.
Qed.

Lemma queryProfiles_scans_every_record_witness :
  map (fun p => (prop p "txId", prop p "type"))
      (match fst (BlockchainAPI.queryProfiles (Demo.chain Demo.ledger) None Demo.online) with
       | inr profiles => profiles
       | inl _ => []
       end)
  = [ (VStr "0xC1", VStr "minidev_dapp_registration");
      (VStr "0xC5", VStr "profile");
      (VStr "0xC6", VUndef);
      (VStr "0xC2", VStr "minidev_dapp_registration") ].
Proof.
  rewrite (queryProfiles_scans_every_record (Demo.chain Demo.ledger) Demo.online None
             (mkReply (VBool true) (VObj [("coins", VArr Demo.ledger)]) VUndef)
             Demo.ledger eq_refl eq_refl eq_refl eq_refl).
  vm_compute. reflexivity.
Defined.

Lemma assoc_withProp_ne props k k' v :
  k <> k' -> assoc k (BlockchainAPI.withProp props k' v) = assoc k props.
Proof.
  intros Hne. induction props as [|[k0 x] rest IH]; simpl.
  - destruct (String.eqb_spec k' k); [congruence | reflexivity].
  - destruct (String.eqb_spec k0 k') as [->|Hk]; simpl.
    + destruct (String.eqb_spec k' k); [congruence | reflexivity].
    + destruct (String.eqb k0 k); [reflexivity | exact IH].
Qed.

Lemma assoc_withProp_eq props k v : assoc k (BlockchainAPI.withProp props k v) = v.
Proof.
  induction props as [|[k0 x] rest IH]; simpl.
  - rewrite String.eqb_refl. reflexivity.
  - destruct (String.eqb_spec k0 k) as [->|Hk]; simpl.
    + rewrite String.eqb_refl. reflexivity.
    + destruct (String.eqb_spec k0 k); [congruence | exact IH].
Qed.

Lemma registeredProfile_prop coin profileData k :
  k <> "txId" -> k <> "block" -> nullish (prop profileData k) = false ->
  prop (BlockchainAPI.registeredProfile coin profileData) k = prop profileData k.
Proof.
  intros H1 H2 Hp. unfold BlockchainAPI.registeredProfile. cbn [prop].
  rewrite !assoc_withProp_ne by assumption.
  destruct profileData; try discriminate Hp; reflexivity.
Qed.

Lemma registeredProfile_txId coin profileData :
  prop (BlockchainAPI.registeredProfile coin profileData) "txId"
  = or (prop coin "coinid") (prop coin "txpowid").
Proof.
  unfold BlockchainAPI.registeredProfile. cbn [prop].
  rewrite assoc_withProp_ne by discriminate. apply assoc_withProp_eq.
Qed.

Lemma visitProfile_Forall E address (P : value -> Prop) coin profiles l :
  (forall pd, askedFor address pd = true -> P (BlockchainAPI.registeredProfile coin pd)) ->
  Forall P profiles ->
  BlockchainAPI.visitProfile E address coin profiles = inr l ->
  Forall P l.
Proof.
  intros HP Hall. unfold BlockchainAPI.visitProfile.
  destruct (get coin "state") as [|state]; [discriminate|].
  destruct state as [| | | | |items|]; try (intros [= <-]; exact Hall).
  destruct (BlockchainAPI.findPort0 items) as [|[s|]];
    [discriminate| |intros [= <-]; exact Hall].
  destruct (truthy s); [|intros [= <-]; exact Hall].
  intros [= <-]. rewrite decodeProfile_record. apply Forall_app. split; [exact Hall|].
  destruct (JSON_parse E (toStr (prop s "data"))) as [pd|]; [|constructor].
  destruct (askedFor address pd) eqn:Ha; [|constructor].
  constructor; [apply HP, Ha | constructor].
Qed.

Lemma scanProfiles_Forall E address (P : value -> Prop) coins : forall profiles l,
  (forall coin pd, askedFor address pd = true ->
                   P (BlockchainAPI.registeredProfile coin pd)) ->
  Forall P profiles ->
  BlockchainAPI.scanProfiles E address coins profiles = inr l ->
  Forall P l.
Proof.
  induction coins as [|coin rest IH]; intros profiles l HP Hall; simpl.
  - intros [= <-]. exact Hall.
  - destruct (BlockchainAPI.visitProfile E address coin profiles) as [e|ps] eqn:Hv;
      [discriminate|].
    apply (IH ps l HP).
    eapply visitProfile_Forall; [|exact Hall|exact Hv]. intros pd. apply HP.
Qed.

Lemma queryProfiles_Forall E address (P : value -> Prop) w :
  (forall coin pd, askedFor address pd = true ->
                   P (BlockchainAPI.registeredProfile coin pd)) ->
  exists profiles,
    fst (BlockchainAPI.queryProfiles E address w) = inr profiles /\ Forall P profiles.
Proof.
  intros HP.
  unfold BlockchainAPI.queryProfiles, try_catch, bind, read, throw, ret, lift.
  destruct (blockchainAPI_isReady w); simpl; [|eexists; split; [reflexivity|constructor]].
  destruct (MinimaAPI.cmd E "coins relevant:false" w) as [[e|result] w'];
    simpl; [eexists; split; [reflexivity|constructor]|].
  destruct (negb (truthy (response result))
            || negb (truthy (prop (response result) "coins")));
    simpl; [eexists; split; [reflexivity|constructor]|].
  destruct (BlockchainAPI.iterate (prop (response result) "coins")) as [e|coins];
    simpl; [eexists; split; [reflexivity|constructor]|].
  destruct (BlockchainAPI.scanProfiles E address coins []) as [e|l] eqn:Hs;
    simpl; [eexists; split; [reflexivity|constructor]|].
  exists l. split; [reflexivity|].
  eapply scanProfiles_Forall; [exact HP | constructor | exact Hs].
Qed.

(** X10.  Asked for an address, the profile scan never throws and
    returns only entries whose own [address] is that address, whatever
    the ledger holds and whatever the node answers. *)
Theorem queryProfiles_returns_the_address_asked_for
  (E : Env) (w : World) (address : string) :
  address <> "" ->
  exists profiles,
    fst (BlockchainAPI.queryProfiles E (Some address) w) = inr profiles
    /\ Forall (fun p => prop p "address" = VStr address) profiles.
Proof.
  intros Hne. apply queryProfiles_Forall. intros coin pd Ha.
  unfold askedFor in Ha. apply String.eqb_neq in Hne. rewrite Hne in Ha. cbn [orb] in Ha.
  assert (Hp : prop pd "address" = VStr address).
  { destruct (prop pd "address"); try discriminate Ha.
    apply String.eqb_eq in Ha. congruence. }
  rewrite registeredProfile_prop; [exact Hp | discriminate | discriminate |].
  rewrite Hp. reflexivity.
Qed.

Lemma queryProfiles_returns_the_address_asked_for_witness :
  fst (BlockchainAPI.queryProfiles (Sample.profiles Sample.registry) (Some "MxALICE")
         Demo.online)
  = inr [BlockchainAPI.registeredProfile
           (Demo.coinWith "0xP1" (VStr (Demo.textOf (Sample.profileOf "alice" "MxALICE"))))
           (Sample.profileOf "alice" "MxALICE")]
  /\ Forall (fun p => prop p "address" = VStr "MxALICE")
            [BlockchainAPI.registeredProfile
               (Demo.coinWith "0xP1" (VStr (Demo.textOf (Sample.profileOf "alice" "MxALICE"))))
               (Sample.profileOf "alice" "MxALICE")].
Proof.
  assert (Hrun : fst (BlockchainAPI.queryProfiles (Sample.profiles Sample.registry)
                        (Some "MxALICE") Demo.online)
                 = inr [BlockchainAPI.registeredProfile
                          (Demo.coinWith "0xP1"
                             (VStr (Demo.textOf (Sample.profileOf "alice" "MxALICE"))))
                          (Sample.profileOf "alice" "MxALICE")])
    by (vm_compute; reflexivity).
  split; [exact Hrun|].
  destruct (queryProfiles_returns_the_address_asked_for (Sample.profiles Sample.registry)
              Demo.online "MxALICE" ltac:(discriminate)) as [profiles [Hp Hall]].
  rewrite Hrun in Hp. injection Hp as <-. exact Hall.
Defined.

(** X11.  Because the profile scan reads no type tag, it returns the
    dapp registrations of the ledger as profiles: when no address is
    asked for, every record that [queryRegisteredDapps] lists has an
    entry in the result of [queryProfiles], tagged as a dapp
    registration and with the same transaction id and name. *)
Theorem queryProfiles_lists_dapp_registrations
  (E : Env) (w : World) (result : Reply) (coins : list value) (coin dapp : value) :
  blockchainAPI_isReady w = true ->
  fst (MinimaAPI.cmd E "coins relevant:false" w) = inr result ->
  prop (response result) "coins" = VArr coins ->
  forallb wellFormedRecord coins = true ->
  In coin coins ->
  registration E coin = Some dapp ->
  exists profiles p,
    fst (BlockchainAPI.queryProfiles E None w) = inr profiles
    /\ In p profiles
    /\ prop p "type" = VStr "minidev_dapp_registration"
    /\ prop p "txId" = prop dapp "txId"
    /\ prop p "name" = prop dapp "name".
Proof.
  intros Hready Hcmd Hcoins Hwf Hin Hreg.
  unfold registration, metadataSlot in Hreg.
  destruct (prop coin "state") as [| | | | |items|] eqn:Hst; try discriminate Hreg.
  destruct (List.find _ items) as [s|] eqn:Hf; [|discriminate Hreg].
  destruct (truthy (prop s "data")); [|discriminate Hreg].
  destruct (JSON_parse E (toStr (prop s "data"))) as [pd|] eqn:Hparse; [|discriminate Hreg].
  destruct (strictEqStr (prop pd "type") BlockchainAPI.registrationTag) eqn:Htag;
    [|discriminate Hreg].
  injection Hreg as <-.
  assert (Hrec : profileRecord E None coin = Some (BlockchainAPI.registeredProfile coin pd)).
  { unfold profileRecord, profileSlot. rewrite Hst, Hf, Hparse. reflexivity. }
  assert (Htype : prop pd "type" = VStr BlockchainAPI.registrationTag).
  { destruct (prop pd "type"); try discriminate Htag.
    apply String.eqb_eq in Htag. congruence. }
  exists (omap (profileRecord E None) coins), (BlockchainAPI.registeredProfile coin pd).
  split; [apply (queryProfiles_scans_every_record_aux E w None result coins); assumption|].
  split.
  { apply list_elem_of_In, list_elem_of_omap. exists coin.
    split; [apply list_elem_of_In, Hin | exact Hrec]. }
  split.
  { rewrite registeredProfile_prop; [exact Htype | discriminate | discriminate |].
    rewrite Htype. reflexivity. }
  split.
  { rewrite registeredProfile_txId. reflexivity. }
  destruct pd as [| | | | | |props]; try discriminate Htype.
  unfold BlockchainAPI.registeredProfile, BlockchainAPI.registeredDapp.
  cbn [prop BlockchainAPI.spread Object_entries assoc String.eqb Ascii.eqb Bool.eqb].
  rewrite !assoc_withProp_ne by discriminate. reflexivity.
Qed.

Lemma queryProfiles_lists_dapp_registrations_witness :
  exists profiles p,
    fst (BlockchainAPI.queryProfiles (Demo.chain Demo.ledger) None Demo.online) = inr profiles
    /\ In p profiles
    /\ prop p "type" = VStr "minidev_dapp_registration"
    /\ prop p "txId"
       = prop (BlockchainAPI.registeredDapp Demo.coinTwo (Demo.registrationOf "0x2" "Two")) "txId"
    /\ prop p "name"
       = prop (BlockchainAPI.registeredDapp Demo.coinTwo (Demo.registrationOf "0x2" "Two")) "name".
Proof.
  apply (queryProfiles_lists_dapp_registrations (Demo.chain Demo.ledger) Demo.online
           (mkReply (VBool true) (VObj [("coins", VArr Demo.ledger)]) VUndef)
           Demo.ledger Demo.coinTwo).
  - reflexivity.
  - reflexivity.
  - reflexivity.
  - reflexivity.
  - simpl. tauto.
  - vm_compute. reflexivity.
Defined.

(** ** Development mode *)

Lemma calm_ret {A} (a : A) : calm (ret a).
Proof. intros w H. split; [exact H | reflexivity]. Qed.

Lemma calm_throw {A} (e : exn) : calm (@throw A e).
Proof. intros w H. split; [exact H | reflexivity]. Qed.

Lemma calm_lift {A} (r : exn + A) : calm (lift r).
Proof. intros w H. split; [exact H | reflexivity]. Qed.

Lemma calm_read {A} (g : World -> A) : calm (read g).
Proof. intros w H. split; [exact H | reflexivity]. Qed.

Lemma calm_write (g : World -> World) :
  (forall w, minimaAPI_isReady (g w) = minimaAPI_isReady w
             /\ developmentMode (g w) = developmentMode w
             /\ commands (g w) = commands w) ->
  calm (write g).
Proof.
  intros Hg w [H1 H2]. destruct (Hg w) as [G1 [G2 G3]]. unfold write. simpl.
  split; [split; congruence | exact G3].
Qed.

Lemma calm_bind {A B} (m : M A) (k : A -> M B) :
  calm m -> (forall a, calm (k a)) -> calm (bind m k).
Proof.
  intros Hm Hk w H. unfold bind. destruct (Hm w H) as [H1 H2].
  destruct (m w) as [[e|a] w']; simpl in *; [split; assumption|].
  destruct (Hk a w' H1) as [H3 H4]. split; [exact H3 | congruence].
Qed.

Lemma calm_try_catch {A} (m : M A) (h : exn -> M A) :
  calm m -> (forall e, calm (h e)) -> calm (try_catch m h).
Proof.
  intros Hm Hh w H. unfold try_catch. destruct (Hm w H) as [H1 H2].
  destruct (m w) as [[e|a] w']; simpl in *; [|split; assumption].
  destruct (Hh e w' H1) as [H3 H4]. split; [exact H3 | congruence].
Qed.

Lemma calm_if {A} (b : bool) (m1 m2 : M A) : calm m1 -> calm m2 -> calm (if b then m1 else m2).
Proof. destruct b; auto. Qed.

(** In development mode [isReady] and [developmentMode] read [true]. *)
Lemma calm_ready {B} (k : bool -> M B) :
  calm (k true) -> calm (bind (read minimaAPI_isReady) k).
Proof.
  intros Hk w H. unfold bind, read. destruct H as [H1 H2]. rewrite H1.
  apply Hk. split; assumption.
Qed.

Lemma calm_dev {B} (k : bool -> M B) :
  calm (k true) -> calm (bind (read developmentMode) k).
Proof.
  intros Hk w H. unfold bind, read. destruct H as [H1 H2]. rewrite H2.
  apply Hk. split; assumption.
Qed.

Lemma calm_Date_now E : calm (Date_now E).
Proof. intros w H. split; [exact H | reflexivity]. Qed.

Lemma calm_setItem key v : calm (MinimaAPI.setItem key v).
Proof. apply calm_write. intros w. repeat split. Qed.

Lemma calm_mdsCommand E command : calm (MinimaAPI._mdsCommand E command).
Proof.
  intros w H. rewrite mdsCommand_run. destruct H as [H1 H2]. rewrite H1, H2.
  split; [split; assumption | reflexivity].
Qed.

Ltac calm_step :=
  first
    [ apply calm_ret | apply calm_throw | apply calm_lift
    | apply calm_ready | apply calm_dev
    | apply calm_read | apply calm_Date_now | apply calm_setItem
    | apply calm_mdsCommand
    | apply calm_bind; [|intros ?] | apply calm_try_catch; [|intros ?]
    | apply calm_if
    | apply calm_write; intros ?; repeat split ].

Ltac calm_auto := repeat calm_step.

Lemma calm_sendCustomTransaction E transactionData :
  calm (MinimaAPI.sendCustomTransaction E transactionData).
Proof. unfold MinimaAPI.sendCustomTransaction. cbv zeta. calm_auto. Qed.

Lemma calm_registerDapp E dapp developerAddress :
  calm (BlockchainAPI.registerDapp E dapp developerAddress).
Proof.
  unfold BlockchainAPI.registerDapp. cbv zeta. calm_auto.
Qed.

Lemma calm_registerProfile E profile : calm (BlockchainAPI.registerProfile E profile).
Proof.
  unfold BlockchainAPI.registerProfile. cbv zeta. calm_auto.
Qed.

Lemma calm_registerDeveloperIdentity E a h :
  calm (BlockchainAPI.registerDeveloperIdentity E a h).
Proof.
  unfold BlockchainAPI.registerDeveloperIdentity. cbv zeta. calm_auto.
Qed.

Lemma calm_queryRegisteredDapps E limit : calm (BlockchainAPI.queryRegisteredDapps E limit).
Proof. unfold BlockchainAPI.queryRegisteredDapps, MinimaAPI.cmd. cbv zeta. calm_auto. Qed.

Lemma calm_queryProfiles E address : calm (BlockchainAPI.queryProfiles E address).
Proof. unfold BlockchainAPI.queryProfiles, MinimaAPI.cmd. calm_auto. Qed.

Lemma calm_getCurrentAddress E : calm (MinimaAPI.getCurrentAddress E).
Proof.
  unfold MinimaAPI.getCurrentAddress, MinimaAPI.getItem. cbv zeta. calm_auto.
Qed.

Lemma calm_getUserMinimaAddress E : calm (MiniMartApp.getUserMinimaAddress E).
Proof.
  unfold MiniMartApp.getUserMinimaAddress, MiniMartApp.anonymous,
    MinimaAPI.getPersistentUserId, MinimaAPI.getItem, MinimaAPI.cmd. cbv zeta. calm_auto.
Qed.

Lemma calm_downloadDapp E dappUid : calm (MiniMartApp.downloadDapp E dappUid).
Proof.
  unfold MiniMartApp.downloadDapp, MiniMartApp.countDownload,
    MaximaAPI.broadcastDownload, MinimaAPI.cmd.
  apply calm_try_catch; [|intros ?; apply calm_ret].
  apply calm_bind; [apply calm_getUserMinimaAddress | intros userAddress].
  apply calm_bind; [intros w H; split; [exact H | reflexivity] | intros found].
  destruct found as [r|]; [|apply calm_ret].
  destruct (maxima E); calm_auto.
Qed.

Lemma cmd_mocked E command w :
  mocked w -> MinimaAPI.cmd E command w = (inr (MinimaAPI._mockCommandResponse command), w).
Proof.
  intros [H1 H2]. unfold MinimaAPI.cmd. rewrite mdsCommand_run, H1, H2. reflexivity.
Qed.

Lemma sendCustomTransaction_mocked E transactionData w :
  mocked w ->
  exists message,
    fst (MinimaAPI.sendCustomTransaction E transactionData w)
    = inl (Error ("Transaction failed: " ++ message)).
Proof.
  intros [H1 H2].
  unfold MinimaAPI.sendCustomTransaction, try_catch, bind, read, lift, ret, throw.
  rewrite H1. cbn [negb]. cbv zeta.
  destruct (get transactionData "amount") as [e|amount]; [eexists; reflexivity|].
  destruct (get transactionData "address") as [e|address]; [eexists; reflexivity|].
  destruct (get transactionData "state") as [e|state]; [eexists; reflexivity|].
  match goal with |- context [MinimaAPI._mdsCommand E ?c w] =>
    rewrite (mdsCommand_run E c w), H1, H2; cbn [negb];
    rewrite (mock_has_no_txpowid c) end.
  eexists. reflexivity.
Qed.

Lemma mocked_set_ticks n w : mocked w -> mocked (set_ticks n w).
Proof. intros H. exact H. Qed.

Lemma queryRegisteredDapps_mocked E limit w :
  mocked w -> fst (BlockchainAPI.queryRegisteredDapps E limit w) = inr [].
Proof.
  intros H. unfold BlockchainAPI.queryRegisteredDapps, try_catch, bind, read, throw, ret.
  destruct (blockchainAPI_isReady w); cbn [negb]; [|reflexivity].
  rewrite (cmd_mocked E _ w H). reflexivity.
Qed.

Lemma queryProfiles_mocked E address w :
  mocked w -> fst (BlockchainAPI.queryProfiles E address w) = inr [].
Proof.
  intros H. unfold BlockchainAPI.queryProfiles, try_catch, bind, read, throw, ret.
  destruct (blockchainAPI_isReady w); cbn [negb]; [|reflexivity].
  rewrite (cmd_mocked E _ w H). reflexivity.
Qed.

Lemma registerDapp_mocked E dapp developerAddress w :
  mocked w -> exists e, fst (BlockchainAPI.registerDapp E dapp developerAddress w) = inl e.
Proof.
  intros H. unfold BlockchainAPI.registerDapp, try_catch, bind, read, throw, ret, lift, Date_now.
  destruct (blockchainAPI_isReady w); cbn [negb]; [|eexists; reflexivity].
  destruct (get dapp "name") as [e|name]; [eexists; reflexivity|]. cbv zeta.
  match goal with |- context [MinimaAPI.sendCustomTransaction E ?td ?w1] =>
    destruct (sendCustomTransaction_mocked E td w1 (mocked_set_ticks _ w H)) as [m Hm];
    destruct (MinimaAPI.sendCustomTransaction E td w1) as [r w2] end.
  simpl in Hm. subst r. eexists. reflexivity.
Qed.

Lemma registerProfile_mocked E profile w :
  mocked w -> exists e, fst (BlockchainAPI.registerProfile E profile w) = inl e.
Proof.
  intros H. unfold BlockchainAPI.registerProfile, try_catch, bind, read, throw, ret, lift.
  destruct (blockchainAPI_isReady w); cbn [negb]; [|eexists; reflexivity].
  destruct (get profile "username") as [e|name]; [eexists; reflexivity|]. cbv zeta.
  match goal with |- context [MinimaAPI.sendCustomTransaction E ?td ?w1] =>
    destruct (sendCustomTransaction_mocked E td w1 H) as [m Hm];
    destruct (MinimaAPI.sendCustomTransaction E td w1) as [r w2] end.
  simpl in Hm. subst r. eexists. reflexivity.
Qed.

Lemma registerDeveloperIdentity_mocked E developerAddress identityHash w :
  mocked w ->
  exists e,
    fst (BlockchainAPI.registerDeveloperIdentity E developerAddress identityHash w) = inl e.
Proof.
  intros H.
  unfold BlockchainAPI.registerDeveloperIdentity, try_catch, bind, read, throw, ret, Date_now.
  destruct (blockchainAPI_isReady w); cbn [negb]; [|eexists; reflexivity]. cbv zeta.
  match goal with |- context [MinimaAPI.sendCustomTransaction E ?td ?w1] =>
    destruct (sendCustomTransaction_mocked E td w1 (mocked_set_ticks _ w H)) as [m Hm];
    destruct (MinimaAPI.sendCustomTransaction E td w1) as [r w2] end.
  simpl in Hm. subst r. eexists. reflexivity.
Qed.

Lemma mock_status command : status (MinimaAPI._mockCommandResponse command) = VUndef.
Proof.
  unfold MinimaAPI._mockCommandResponse.
  destruct (includes command "getaddress"); [reflexivity|].
  destruct (includes command "balance"); reflexivity.
Qed.

Lemma downloadDapp_mocked_view E dappUid w :
  mocked w -> view (snd (MiniMartApp.downloadDapp E dappUid w)) = view w.
Proof.
  intros H. unfold MiniMartApp.downloadDapp, try_catch, bind, read, ret, throw.
  pose proof (getUserMinimaAddress_view E w) as Hv.
  destruct (calm_getUserMinimaAddress E w H) as [H1 _].
  destruct (MiniMartApp.getUserMinimaAddress E w) as [[e|a] w1]; simpl in *; [exact Hv|].
  destruct (MiniMartApp.find (objects w1) dappUid (dapps w1)) as [e|[r|]]; simpl;
    try exact Hv.
  destruct (truthy (prop (MiniMartApp.deref (objects w1) r) "file")); simpl; [|exact Hv].
  rewrite (cmd_mocked E _ w1 H1), mock_status. simpl. exact Hv.
Qed.

(** X12.  In development mode nothing reaches the node: every command
    is answered by the mock, the two scans of the ledger return the
    empty list, every registration fails, and neither these nor an
    install or the look-up of the user's address give the node a
    command; an install changes no listing. *)
Theorem development_mode_reaches_no_node (E : Env) (w : World) :
  minimaAPI_isReady w = true ->
  developmentMode w = true ->
  (forall command,
      MinimaAPI.cmd E command w = (inr (MinimaAPI._mockCommandResponse command), w))
  /\ (forall limit,
        fst (BlockchainAPI.queryRegisteredDapps E limit w) = inr []
        /\ commands (snd (BlockchainAPI.queryRegisteredDapps E limit w)) = commands w)
  /\ (forall address,
        fst (BlockchainAPI.queryProfiles E address w) = inr []
        /\ commands (snd (BlockchainAPI.queryProfiles E address w)) = commands w)
  /\ (forall dapp developerAddress,
        (exists e, fst (BlockchainAPI.registerDapp E dapp developerAddress w) = inl e)
        /\ commands (snd (BlockchainAPI.registerDapp E dapp developerAddress w)) = commands w)
  /\ (forall profile,
        (exists e, fst (BlockchainAPI.registerProfile E profile w) = inl e)
        /\ commands (snd (BlockchainAPI.registerProfile E profile w)) = commands w)
  /\ (forall developerAddress identityHash,
        (exists e, fst (BlockchainAPI.registerDeveloperIdentity E developerAddress
                          identityHash w) = inl e)
        /\ commands (snd (BlockchainAPI.registerDeveloperIdentity E developerAddress
                            identityHash w)) = commands w)
  /\ (forall dappUid,
        commands (snd (MiniMartApp.downloadDapp E dappUid w)) = commands w
        /\ view (snd (MiniMartApp.downloadDapp E dappUid w)) = view w)
  /\ commands (snd (MiniMartApp.getUserMinimaAddress E w)) = commands w
  /\ commands (snd (MinimaAPI.getCurrentAddress E w)) = commands w.
Proof.
  intros H1 H2. assert (H : mocked w) by (split; assumption).
  split; [intros c; apply cmd_mocked, H|].
  split; [intros limit; split;
          [apply queryRegisteredDapps_mocked, H | apply calm_queryRegisteredDapps, H]|].
  split; [intros address; split;
          [apply queryProfiles_mocked, H | apply calm_queryProfiles, H]|].
  split; [intros dapp dev; split;
          [apply registerDapp_mocked, H | apply calm_registerDapp, H]|].
  split; [intros profile; split;
          [apply registerProfile_mocked, H | apply calm_registerProfile, H]|].
  split; [intros a h; split;
          [apply registerDeveloperIdentity_mocked, H
          | apply calm_registerDeveloperIdentity, H]|].
  split; [intros uid; split; [apply calm_downloadDapp, H | apply downloadDapp_mocked_view, H]|].
  split; [apply calm_getUserMinimaAddress, H | apply calm_getCurrentAddress, H].
Qed.

Lemma development_mode_reaches_no_node_witness :
  fst (BlockchainAPI.queryRegisteredDapps (Demo.chain Demo.ledger) None Demo.offline) = inr []
  /\ commands (snd (BlockchainAPI.queryRegisteredDapps (Demo.chain Demo.ledger) None
                      Demo.offline)) = commands Demo.offline.
Proof.
  exact (proj1 (proj2 (development_mode_reaches_no_node (Demo.chain Demo.ledger) Demo.offline
                         eq_refl eq_refl)) None).
Defined.

(** ** Transfers *)

Lemma mdsCommand_commands E command w :
  (commands (snd (MinimaAPI._mdsCommand E command w)) = commands w
   \/ commands (snd (MinimaAPI._mdsCommand E command w)) = (commands w ++ [command])%list)
  /\ (forall reply,
        fst (MinimaAPI._mdsCommand E command w) = inr reply ->
        (reply = MinimaAPI._mockCommandResponse command
         /\ commands (snd (MinimaAPI._mdsCommand E command w)) = commands w)
        \/ (truthy (status reply) = true
            /\ commands (snd (MinimaAPI._mdsCommand E command w))
               = (commands w ++ [command])%list)).
Proof.
  rewrite mdsCommand_run.
  destruct (minimaAPI_isReady w); cbn [negb]; [|split; [left; reflexivity | discriminate]].
  destruct (developmentMode w).
  { split; [left; reflexivity|]. intros reply [= <-]. left. split; reflexivity. }
  cbv zeta.
  destruct (node E (length (commands w)) command) as [|m|r|r].
  - split; [left; reflexivity | discriminate].
  - split; [right; reflexivity | discriminate].
  - destruct (truthy (status r)) eqn:Hs; (split; [right; reflexivity|]);
      [intros reply [= <-]; right; split; [exact Hs | reflexivity] | discriminate].
  - destruct (truthy (status r)) eqn:Hs; (split; [right; reflexivity|]);
      [intros reply [= <-]; right; split; [exact Hs | reflexivity] | discriminate].
Qed.

Lemma sendCustomTransaction_shape E transactionData w :
  exists w0 : World,
    commands w0 = commands w
    /\ ((exists what,
           MinimaAPI.sendCustomTransaction E transactionData w
           = (inl (Error ("Transaction failed: " ++ what)), w0))
        \/ (exists command,
              String.prefix "send " command = true
              /\ MinimaAPI.sendCustomTransaction E transactionData w
                 = match MinimaAPI._mdsCommand E command w0 with
                   | (inr result, w') =>
                       if truthy (response result)
                          && truthy (prop (response result) "txpowid")
                       then (inr (prop (response result) "txpowid"), w')
                       else (inl (Error
                               "Transaction failed: Transaction failed - no txpowid returned"),
                             w')
                   | (inl e, w') => (inl (Error ("Transaction failed: " ++ messageOf e)), w')
                   end)).
Proof.
  exists (if minimaAPI_isReady w then w else set_minima true (initDevelopment E) w).
  split; [destruct (minimaAPI_isReady w); reflexivity|].
  unfold MinimaAPI.sendCustomTransaction, try_catch, bind, read, lift, ret, throw.
  assert (Hinit : (if negb (minimaAPI_isReady w) then MinimaAPI.init E else ret tt) w
                  = (inr tt, if minimaAPI_isReady w then w
                             else set_minima true (initDevelopment E) w))
    by (destruct (minimaAPI_isReady w); reflexivity).
  unfold ret in Hinit. rewrite Hinit. clear Hinit.
  set (w0 := if minimaAPI_isReady w then w else set_minima true (initDevelopment E) w).
  destruct (get transactionData "amount") as [e|amount]; [left; eexists; reflexivity|].
  destruct (get transactionData "address") as [e|address]; [left; eexists; reflexivity|].
  destruct (get transactionData "state") as [e|state]; [left; eexists; reflexivity|].
  right. cbv zeta.
  match goal with |- context [MinimaAPI._mdsCommand E ?c w0] => exists c end.
  split.
  - destruct (truthy amount), (truthy address), (truthy state); reflexivity.
  - destruct (MinimaAPI._mdsCommand E _ w0) as [[e|result] w']; [reflexivity|].
    destruct (truthy (response result) && truthy (prop (response result) "txpowid"));
      reflexivity.
Qed.

(** X13.  A transfer gives the node at most one command, a [send].
    Every failure, whatever its cause, reaches the caller as an [Error]
    whose message starts with "Transaction failed: "; a transfer that
    succeeds has given the node its command, was answered with a true
    status, and returns a transaction id that is not empty. *)
Theorem sendCustomTransaction_sends_once (E : Env) (transactionData : value) (w : World) :
  (commands (snd (MinimaAPI.sendCustomTransaction E transactionData w)) = commands w
   \/ exists command,
        String.prefix "send " command = true
        /\ commands (snd (MinimaAPI.sendCustomTransaction E transactionData w))
           = (commands w ++ [command])%list)
  /\ (forall e,
        fst (MinimaAPI.sendCustomTransaction E transactionData w) = inl e ->
        exists what, e = Error ("Transaction failed: " ++ what))
  /\ (forall txId,
        fst (MinimaAPI.sendCustomTransaction E transactionData w) = inr txId ->
        truthy txId = true
        /\ exists command,
             String.prefix "send " command = true
             /\ commands (snd (MinimaAPI.sendCustomTransaction E transactionData w))
                = (commands w ++ [command])%list).
Proof.
  destruct (sendCustomTransaction_shape E transactionData w)
    as [w0 [Hc [[what ->] | [command [Hp ->]]]]]; cbn [fst snd].
  { split; [left; exact Hc|]. split; [intros e [= <-]; eauto | discriminate]. }
  destruct (mdsCommand_commands E command w0) as [Hcmd Hok].
  destruct (MinimaAPI._mdsCommand E command w0) as [[e|result] w'] eqn:Hrun; cbn [fst snd] in *.
  - split.
    + destruct Hcmd as [-> | ->]; [left; exact Hc | right; exists command; rewrite Hc; auto].
    + split; [intros e' [= <-]; eauto | discriminate].
  - destruct (truthy (response result) && truthy (prop (response result) "txpowid")) eqn:Htx;
      cbn [fst snd].
    + destruct (Hok result eq_refl) as [[-> _] | [_ Hsent]].
      { rewrite mock_has_no_txpowid in Htx. discriminate. }
      split; [right; exists command; rewrite Hsent, Hc; auto|].
      split; [discriminate|].
      intros txId [= <-]. apply andb_true_iff in Htx as [_ Ht].
      split; [exact Ht|]. exists command. rewrite Hsent, Hc. auto.
    + split.
      * destruct Hcmd as [-> | ->]; [left; exact Hc | right; exists command; rewrite Hc; auto].
      * split; [intros e' [= <-]; eauto | discriminate].
Qed.

(** ** From a registration to the scan *)

Lemma queryRegisteredDapps_scan E w limit result coins :
  blockchainAPI_isReady w = true ->
  fst (MinimaAPI.cmd E "coins relevant:false" w) = inr result ->
  prop (response result) "coins" = VArr coins ->
  forallb wellFormedRecord coins = true ->
  1 <= default 100 limit ->
  fst (BlockchainAPI.queryRegisteredDapps E limit w)
  = inr (take (Z.to_nat (default 100 limit)) (omap (registration E) coins)).
Proof.
  intros Hready Hcmd Hcoins Hwf Hlimit.
  unfold BlockchainAPI.queryRegisteredDapps, try_catch, bind, read, throw, ret, lift.
  rewrite Hready. simpl.
  destruct (MinimaAPI.cmd E "coins relevant:false" w) as [r w'].
  simpl in Hcmd. subst r.
  assert (Ht : truthy (response result) = true).
  { destruct (response result); simpl in Hcoins; try discriminate; reflexivity. }
  rewrite Ht, Hcoins. simpl.
  rewrite scan_take; [reflexivity | exact Hwf | simpl; lia].
Qed.

Lemma omap_length {A B} (f : A -> option B) (l : list A) :
  (length (omap f l) <= length l)%nat.
Proof.
  induction l as [|x rest IH]; [reflexivity|].
  cbn [omap list_omap]. fold (omap f rest). destruct (f x); simpl; lia.
Qed.

Lemma stringified_object props : exists text, stringified (VObj props) = VStr text /\ text <> "".
Proof.
  unfold stringified. cbn [JSON_stringify]. eexists. split; [reflexivity|]. discriminate.
Qed.

Lemma registration_of_record E coinid state parsed :
  (exists props, state = VObj props) ->
  JSON_parse E (toStr (stringified state)) = Some parsed ->
  strictEqStr (prop parsed "type") BlockchainAPI.registrationTag = true ->
  registration E (recordOf coinid state)
  = Some (BlockchainAPI.registeredDapp (recordOf coinid state) parsed).
Proof.
  intros [props ->] Hparse Htag.
  destruct (stringified_object props) as [text [Ht Hne]].
  unfold registration, metadataSlot, recordOf.
  cbn [prop assoc String.eqb Ascii.eqb Bool.eqb List.find strictEqStr].
  rewrite Ht in *. cbn [truthy toStr] in *.
  apply String.eqb_neq in Hne. rewrite Hne. cbn [negb].
  change (toStr (VStr text)) with text. rewrite Hparse, Htag. reflexivity.
Qed.

(** X14.  What [registerDapp] writes is what [queryRegisteredDapps]
    reads back, less the picture: when the ledger holds a record whose
    port 0 carries the state that [registerDapp] builds for a dapp, and
    that text decodes to the properties it was made from, the scan
    lists the dapp with the uid, name, version, description, category
    and IPFS hash of the dapp, the developer's address and the clock
    reading of the registration; its icon is [null] and its downloads
    and tips are 0, whatever the dapp had. *)
Theorem registered_dapp_is_read_back
  (E : Env) (w : World) (dapp developerAddress : value) (timestamp : Z)
  (coinid : string) (parsed : value) (result : Reply) (coins : list value) :
  blockchainAPI_isReady w = true ->
  fst (MinimaAPI.cmd E "coins relevant:false" w) = inr result ->
  prop (response result) "coins" = VArr coins ->
  forallb wellFormedRecord coins = true ->
  (length coins <= 100)%nat ->
  In (recordOf coinid (registrationState dapp developerAddress timestamp)) coins ->
  JSON_parse E (toStr (stringified (registrationState dapp developerAddress timestamp)))
  = Some parsed ->
  (forall k, prop parsed k = prop (registrationState dapp developerAddress timestamp) k) ->
  exists listed d,
    fst (BlockchainAPI.queryRegisteredDapps E None w) = inr listed
    /\ In d listed
    /\ prop d "uid" = prop dapp "uid"
    /\ prop d "name" = prop dapp "name"
    /\ prop d "version" = prop dapp "version"
    /\ prop d "description" = prop dapp "description"
    /\ prop d "category" = prop dapp "category"
    /\ prop d "ipfs_hash" = prop dapp "ipfs_hash"
    /\ prop d "developer_address" = developerAddress
    /\ prop d "timestamp" = VNum timestamp
    /\ prop d "icon" = VNull
    /\ prop d "downloads" = VNum 0
    /\ prop d "tips" = VNum 0
    /\ prop d "txId" = or (VStr coinid) VUndef.
Proof.
  intros Hready Hcmd Hcoins Hwf Hlen Hin Hparse Hprops.
  set (state := registrationState dapp developerAddress timestamp) in *.
  assert (Hreg : registration E (recordOf coinid state)
                 = Some (BlockchainAPI.registeredDapp (recordOf coinid state) parsed)).
  { apply registration_of_record; [eexists; reflexivity | exact Hparse|].
    rewrite Hprops. reflexivity. }
  exists (omap (registration E) coins),
         (BlockchainAPI.registeredDapp (recordOf coinid state) parsed).
  split.
  { rewrite (queryRegisteredDapps_scan E w None result coins Hready Hcmd Hcoins Hwf)
      by (simpl; lia).
    rewrite take_ge; [reflexivity|].
    pose proof (omap_length (registration E) coins). simpl. lia. }
  split.
  { apply list_elem_of_In, list_elem_of_omap. exists (recordOf coinid state).
    split; [apply list_elem_of_In, Hin | exact Hreg]. }
  unfold BlockchainAPI.registeredDapp.
  cbn [prop assoc String.eqb Ascii.eqb Bool.eqb].
  change (assoc ?k ?l) with (prop (VObj l) k).
  rewrite !Hprops. repeat split.
Qed.

Lemma registered_dapp_is_read_back_witness :
  exists listed d,
    fst (BlockchainAPI.queryRegisteredDapps Sample.registered None Demo.online) = inr listed
    /\ In d listed
    /\ prop d "uid" = prop Demo.draft "uid"
    /\ prop d "name" = prop Demo.draft "name"
    /\ prop d "version" = prop Demo.draft "version"
    /\ prop d "description" = prop Demo.draft "description"
    /\ prop d "category" = prop Demo.draft "category"
    /\ prop d "ipfs_hash" = prop Demo.draft "ipfs_hash"
    /\ prop d "developer_address" = VStr "MxDEV"
    /\ prop d "timestamp" = VNum (Demo.clockMs 0)
    /\ prop d "icon" = VNull
    /\ prop d "downloads" = VNum 0
    /\ prop d "tips" = VNum 0
    /\ prop d "txId" = or (VStr "0xC9") VUndef.
Proof.
  apply (registered_dapp_is_read_back Sample.registered Demo.online Demo.draft (VStr "MxDEV")
           (Demo.clockMs 0) "0xC9" Sample.sent
           (mkReply (VBool true)
              (VObj [("coins", VArr [Demo.coinOne; recordOf "0xC9" Sample.sent])]) VUndef)
           [Demo.coinOne; recordOf "0xC9" Sample.sent]).
  - reflexivity.
  - reflexivity.
  - reflexivity.
  - vm_compute. reflexivity.
  - simpl. lia.
  - right. left. reflexivity.
  - vm_compute. reflexivity.
  - intros k. reflexivity.
Defined.

Lemma transfer_success E state w txId :
  truthy state = true ->
  fst (MinimaAPI.sendCustomTransaction E
         (VObj [("amount", VStr "0.01"); ("address", VStr BlockchainAPI.treasury);
                ("state", state)]) w) = inr txId ->
  commands (snd (MinimaAPI.sendCustomTransaction E
                   (VObj [("amount", VStr "0.01"); ("address", VStr BlockchainAPI.treasury);
                          ("state", state)]) w))
  = (commands w ++ [transferCommand state])%list.
Proof.
  intros Hs. rewrite (sendCustomTransaction_run E state w Hs). cbv zeta.
  set (w0 := if minimaAPI_isReady w then w else set_minima true (initDevelopment E) w).
  assert (Hc : commands w0 = commands w) by (unfold w0; destruct (minimaAPI_isReady w); reflexivity).
  destruct (mdsCommand_commands E (transferCommand state) w0) as [_ Hok].
  destruct (MinimaAPI._mdsCommand E (transferCommand state) w0) as [[e|result] w'];
    cbn [fst snd] in *; [discriminate|].
  destruct (truthy (response result) && truthy (prop (response result) "txpowid")) eqn:Htx;
    cbn [fst snd]; [|discriminate].
  intros _. destruct (Hok result eq_refl) as [[-> _] | [_ Hsent]].
  - rewrite mock_has_no_txpowid in Htx. discriminate.
  - rewrite Hsent, Hc. reflexivity.
Qed.

Lemma registeredProfile_own coin props k :
  k <> "txId" -> k <> "block" ->
  prop (BlockchainAPI.registeredProfile coin (VObj props)) k = prop (VObj props) k.
Proof.
  intros H1 H2. unfold BlockchainAPI.registeredProfile. cbn [prop].
  rewrite !assoc_withProp_ne by assumption. reflexivity.
Qed.

Lemma registeredProfile_block coin profileData :
  prop (BlockchainAPI.registeredProfile coin profileData) "block"
  = or (prop coin "created") (VStr "unknown").
Proof. unfold BlockchainAPI.registeredProfile. cbn [prop]. apply assoc_withProp_eq. Qed.

(** X15.  A profile registration is a transfer that carries the
    profile's name, address and timestamp, with an empty bio and [null]
    links where the profile has none; and the profile scan, asked for
    the profile's address, reads these back from a ledger that holds
    the record, with the record's id as [txId]. *)
Theorem registered_profile_is_read_back
  (E : Env) (w : World) (profile : value) (address coinid : string)
  (parsed : value) (result : Reply) (coins : list value) :
  blockchainAPI_isReady w = true ->
  fst (MinimaAPI.cmd E "coins relevant:false" w) = inr result ->
  prop (response result) "coins" = VArr coins ->
  forallb wellFormedRecord coins = true ->
  In (recordOf coinid (profileState profile)) coins ->
  JSON_parse E (toStr (stringified (profileState profile))) = Some parsed ->
  (forall k, prop parsed k = prop (profileState profile) k) ->
  prop profile "address" = VStr address ->
  address <> "" ->
  (forall w0 txId,
      fst (BlockchainAPI.registerProfile E profile w0) = inr txId ->
      commands (snd (BlockchainAPI.registerProfile E profile w0))
      = (commands w0 ++ [transferCommand (profileState profile)])%list)
  /\ exists profiles p,
       fst (BlockchainAPI.queryProfiles E (Some address) w) = inr profiles
       /\ In p profiles
       /\ prop p "username" = prop profile "username"
       /\ prop p "bio" = or (prop profile "bio") (VStr "")
       /\ prop p "gitUrl" = or (prop profile "gitUrl") VNull
       /\ prop p "twitterUrl" = or (prop profile "twitterUrl") VNull
       /\ prop p "address" = VStr address
       /\ prop p "timestamp" = prop profile "timestamp"
       /\ prop p "txId" = or (VStr coinid) VUndef
       /\ prop p "block" = VStr "unknown".
Proof.
  intros Hready Hcmd Hcoins Hwf Hin Hparse Hprops Haddr Hne.
  split.
  { intros w0 txId.
    unfold BlockchainAPI.registerProfile, try_catch, bind, read, throw, ret, lift.
    destruct (blockchainAPI_isReady w0); cbn [negb]; [|discriminate].
    destruct (get profile "username") as [e|name]; [discriminate|]. cbv zeta.
    fold (profileState profile).
    pose proof (transfer_success E (profileState profile) w0) as Hsent.
    destruct (MinimaAPI.sendCustomTransaction E _ w0) as [[e|r] w'];
      cbn [fst snd] in *; [discriminate|].
    intros _. apply (Hsent r); reflexivity. }
  assert (Hobj : exists props, parsed = VObj props).
  { pose proof (Hprops "type") as Ht. destruct parsed; try discriminate Ht. eauto. }
  destruct Hobj as [props ->].
  set (coin := recordOf coinid (profileState profile)) in *.
  assert (Hrec : profileRecord E (Some address) coin
                 = Some (BlockchainAPI.registeredProfile coin (VObj props))).
  { unfold profileRecord, profileSlot, coin, recordOf.
    cbn [prop assoc String.eqb Ascii.eqb Bool.eqb List.find strictEqStr].
    rewrite Hparse. unfold askedFor. rewrite Hprops.
    cbn [profileState prop assoc String.eqb Ascii.eqb Bool.eqb].
    rewrite Haddr. cbn [strictEqStr]. rewrite String.eqb_refl, orb_true_r. reflexivity. }
  exists (omap (profileRecord E (Some address)) coins),
         (BlockchainAPI.registeredProfile coin (VObj props)).
  split; [apply (queryProfiles_scans_every_record_aux E w _ result coins); assumption|].
  split.
  { apply list_elem_of_In, list_elem_of_omap. exists coin.
    split; [apply list_elem_of_In, Hin | exact Hrec]. }
  rewrite !registeredProfile_own by discriminate.
  rewrite registeredProfile_txId, registeredProfile_block, !Hprops.
  cbn [profileState prop assoc String.eqb Ascii.eqb Bool.eqb coin recordOf].
  rewrite Haddr. repeat split.
Qed.

Lemma registered_profile_is_read_back_witness :
  commands (snd (BlockchainAPI.registerProfile Sample.published Sample.me Demo.online))
  = [transferCommand (profileState Sample.me)]
  /\ exists profiles p,
       fst (BlockchainAPI.queryProfiles Sample.published (Some "MxALICE") Demo.online)
       = inr profiles
       /\ In p profiles
       /\ prop p "username" = VStr "alice"
       /\ prop p "bio" = VStr ""
       /\ prop p "gitUrl" = VNull
       /\ prop p "twitterUrl" = VNull
       /\ prop p "address" = VStr "MxALICE"
       /\ prop p "timestamp" = VNum 1700000000000
       /\ prop p "txId" = VStr "0xP9"
       /\ prop p "block" = VStr "unknown".
Proof.
  destruct (registered_profile_is_read_back Sample.published Demo.online Sample.me
              "MxALICE" "0xP9" (profileState Sample.me)
              (mkReply (VBool true)
                 (VObj [("coins",
                         VArr [Demo.coinOne; recordOf "0xP9" (profileState Sample.me)])])
                 VUndef)
              [Demo.coinOne; recordOf "0xP9" (profileState Sample.me)]
              eq_refl eq_refl eq_refl) as [Hsent Hread].
  - vm_compute. reflexivity.
  - right. left. reflexivity.
  - vm_compute. reflexivity.
  - intros k. reflexivity.
  - reflexivity.
  - discriminate.
  - split; [|exact Hread].
    apply (Hsent Demo.online (VStr "0xTX1")). vm_compute. reflexivity.
Defined.

(** ** The identifier of the user *)

Lemma anonymous_run E w :
  MiniMartApp.anonymous E w
  = (inr (VStr ("anonymous_" ++ numToStr (clock E (ticks w)))),
     set_localStorage
       (<["minidev_persistent_id" := ("anonymous_" ++ numToStr (clock E (ticks w)))%string]>
          (localStorage w))
       (set_ticks (S (ticks w)) w)).
Proof. reflexivity. Qed.

Lemma getUserMinimaAddress_run E w :
  MiniMartApp.getUserMinimaAddress E w
  = let stored := match persistentId w with
                  | Some s => VStr s
                  | None => VNull
                  end in
    if truthy stored then (inr stored, w)
    else if truthy (currentAddress w) then (inr (currentAddress w), w)
    else match MinimaAPI.cmd E "getaddress" w with
         | (inr reply, w1) =>
             if truthy (response reply) && truthy (prop (response reply) "address")
             then (inr (prop (response reply) "address"),
                   set_localStorage
                     (<["minidev_persistent_id" := toStr (prop (response reply) "address")]>
                        (localStorage w1)) w1)
             else MiniMartApp.anonymous E w1
         | (inl e, w1) => MiniMartApp.anonymous E w1
         end.
Proof.
  unfold MiniMartApp.getUserMinimaAddress, MinimaAPI.getPersistentUserId, MinimaAPI.getItem,
    MinimaAPI.setItem, persistentId, try_catch, bind, read, write, ret.
  cbv zeta.
  set (stored := match localStorage w !! "minidev_persistent_id" with
                 | Some s => VStr s
                 | None => VNull
                 end).
  destruct (truthy stored) eqn:Hs; cbv beta iota; rewrite ?Hs; [reflexivity|].
  destruct (truthy (currentAddress w)) eqn:Hc; cbv beta iota; rewrite ?Hc; [reflexivity|].
  destruct (MinimaAPI.cmd E "getaddress" w) as [[e|reply] w1]; [reflexivity|].
  destruct (truthy (response reply) && truthy (prop (response reply) "address"));
    [reflexivity|].
  rewrite anonymous_run. reflexivity.
Qed.

Lemma getUserMinimaAddress_stored E w id :
  persistentId w = Some id -> id <> "" ->
  MiniMartApp.getUserMinimaAddress E w = (inr (VStr id), w).
Proof.
  intros Hid Hne. rewrite getUserMinimaAddress_run, Hid. cbv zeta. cbn [truthy].
  apply String.eqb_neq in Hne. rewrite Hne. reflexivity.
Qed.

Lemma cmd_commands E command w :
  commands (snd (MinimaAPI.cmd E command w)) = commands w
  \/ commands (snd (MinimaAPI.cmd E command w)) = (commands w ++ [command])%list.
Proof. apply mdsCommand_commands. Qed.

Lemma truthy_string s : truthy (VStr s) = true -> s <> "".
Proof. simpl. intros H ->. discriminate. Qed.

(** X16.  [getUserMinimaAddress] never throws and always returns a
    value that is not empty; it asks the node at most once, for its
    address.  An identifier returned as a string is settled: the next
    call returns the same string and changes nothing, without asking
    the node or reading the clock. *)
Theorem getUserMinimaAddress_settles (E : Env) (w : World) :
  exists id w',
    MiniMartApp.getUserMinimaAddress E w = (inr id, w')
    /\ truthy id = true
    /\ (commands w' = commands w \/ commands w' = (commands w ++ ["getaddress"])%list)
    /\ (forall s, id = VStr s ->
          MiniMartApp.getUserMinimaAddress E w' = (inr (VStr s), w')).
Proof.
  rewrite getUserMinimaAddress_run. cbv zeta.
  destruct (truthy match persistentId w with
                   | Some s => VStr s
                   | None => VNull
                   end) eqn:Hs.
  { destruct (persistentId w) as [s0|] eqn:Hid; [|discriminate Hs].
    eexists _, _. split; [reflexivity|]. split; [exact Hs|]. split; [left; reflexivity|].
    intros s [= <-]. apply getUserMinimaAddress_stored; [exact Hid | apply truthy_string, Hs]. }
  destruct (truthy (currentAddress w)) eqn:Hc.
  { eexists _, _. split; [reflexivity|]. split; [exact Hc|]. split; [left; reflexivity|].
    intros s Heq. rewrite getUserMinimaAddress_run. cbv zeta. rewrite Hs, Hc, Heq.
    reflexivity. }
  pose proof (cmd_commands E "getaddress" w) as Hcmd.
  assert (Hanon : forall w1,
             commands w1 = commands w \/ commands w1 = (commands w ++ ["getaddress"])%list ->
             exists id w',
               MiniMartApp.anonymous E w1 = (inr id, w')
               /\ truthy id = true
               /\ (commands w' = commands w
                   \/ commands w' = (commands w ++ ["getaddress"])%list)
               /\ (forall s, id = VStr s ->
                     MiniMartApp.getUserMinimaAddress E w' = (inr (VStr s), w'))).
  { intros w1 Hc1. rewrite anonymous_run. eexists _, _. split; [reflexivity|].
    split; [reflexivity|]. split; [exact Hc1|].
    intros s [= <-]. apply getUserMinimaAddress_stored; [|discriminate].
    unfold persistentId. cbn [localStorage set_localStorage]. apply lookup_insert_eq. }
  destruct (MinimaAPI.cmd E "getaddress" w) as [[e|reply] w1]; cbn [snd] in Hcmd;
    [apply Hanon, Hcmd|].
  destruct (truthy (response reply) && truthy (prop (response reply) "address")) eqn:Hr;
    [|apply Hanon, Hcmd].
  apply andb_true_iff in Hr as [_ Ha].
  eexists _, _. split; [reflexivity|]. split; [exact Ha|]. split; [exact Hcmd|].
  intros s Heq. apply getUserMinimaAddress_stored.
  - unfold persistentId. cbn [localStorage set_localStorage]. rewrite Heq.
    apply lookup_insert_eq.
  - rewrite Heq in Ha. apply truthy_string, Ha.
Qed.

Lemma preserves_ret {A} P (a : A) : preserves P (ret a).
Proof. intros w H. exact H. Qed.

Lemma preserves_throw {A} P (e : exn) : preserves P (@throw A e).
Proof. intros w H. exact H. Qed.

Lemma preserves_bind {A B} P (m : M A) (k : A -> M B) :
  preserves P m -> (forall a, preserves P (k a)) -> preserves P (bind m k).
Proof.
  intros Hm Hk w H. unfold bind. specialize (Hm w H).
  destruct (m w) as [[e|a] w']; simpl in *; [exact Hm | apply Hk, Hm].
Qed.

Lemma preserves_try_catch {A} P (m : M A) (h : exn -> M A) :
  preserves P m -> (forall e, preserves P (h e)) -> preserves P (try_catch m h).
Proof.
  intros Hm Hh w H. unfold try_catch. specialize (Hm w H).
  destruct (m w) as [[e|a] w']; simpl in *; [apply Hh, Hm | exact Hm].
Qed.

Lemma keeps_preserves {A X} (f : World -> X) (P : World -> Prop) (m : M A) :
  keeps f m -> (forall w w', f w' = f w -> P w -> P w') -> preserves P m.
Proof. intros Hk HP w H. apply (HP w); [apply Hk | exact H]. Qed.

Lemma preserves_read {A} P (g : World -> A) : preserves P (read g).
Proof. intros w H. exact H. Qed.

Lemma preserves_write P (g : World -> World) :
  (forall w, P w -> P (g w)) -> preserves P (write g).
Proof. intros Hg w H. apply Hg, H. Qed.

Lemma preserves_getItem_id {B} id (k : value -> M B) :
  preserves (fun w => persistentId w = Some id) (k (VStr id)) ->
  preserves (fun w => persistentId w = Some id)
            (bind (MinimaAPI.getItem "minidev_persistent_id") k).
Proof.
  intros Hk w H. unfold bind, MinimaAPI.getItem, read.
  unfold persistentId in H. rewrite H. apply Hk. exact H.
Qed.

Lemma preserves_other_key id key v :
  key <> "minidev_persistent_id" ->
  preserves (fun w => persistentId w = Some id) (MinimaAPI.setItem key v).
Proof.
  intros Hk. apply preserves_write. intros w H. unfold persistentId.
  cbn [localStorage set_localStorage]. rewrite lookup_insert_ne by exact Hk. exact H.
Qed.

Lemma getCurrentAddress_persistentId E id :
  id <> "" -> preserves (fun w => persistentId w = Some id) (MinimaAPI.getCurrentAddress E).
Proof.
  intros Hne. unfold MinimaAPI.getCurrentAddress.
  apply preserves_try_catch; [|intros e; apply preserves_throw].
  apply preserves_bind; [apply preserves_read | intros ready].
  apply preserves_bind.
  { destruct ready; cbn [negb]; [apply preserves_ret|].
    apply preserves_write. intros w H. exact H. }
  intros _. apply preserves_bind; [apply preserves_read | intros dev].
  destruct dev.
  - apply preserves_bind; [apply preserves_read | intros stored].
    destruct (truthy stored).
    + apply preserves_bind; [|intros _; apply preserves_ret].
      apply preserves_write. intros w H. exact H.
    + apply preserves_bind; [apply preserves_write; intros w H; exact H | intros _].
      apply preserves_bind; [|intros _; apply preserves_ret].
      apply preserves_other_key. discriminate.
  - apply preserves_bind.
    { apply (keeps_preserves localStorage).
      + apply (cmd_keeps localStorage E "getaddress"). reflexivity.
      + intros w w' Hl H. unfold persistentId in *. rewrite Hl. exact H. }
    intros result.
    destruct (truthy (response result) && truthy (prop (response result) "address"));
      [|apply preserves_throw].
    cbv zeta.
    apply preserves_bind; [apply preserves_write; intros w H; exact H | intros _].
    apply preserves_getItem_id. cbn [truthy].
    apply String.eqb_neq in Hne. rewrite Hne. cbn [negb].
    apply preserves_bind; [apply preserves_ret | intros _; apply preserves_ret].
Qed.

Lemma downloadDapp_rest_localStorage E dappUid userAddress :
  keeps localStorage
    (found <- (fun w => (MiniMartApp.find (objects w) dappUid (dapps w), w)) ;;
     match found with
     | None => ret tt
     | Some r =>
         file <- read (fun w => prop (MiniMartApp.deref (objects w) r) "file") ;;
         if negb (truthy file) then ret tt
         else
           try_catch
             (installResult <- MinimaAPI.cmd E ("mds action:install file:" ++ toStr file) ;;
              if strictEqTrue (status installResult)
              then
                try_catch (MaximaAPI.broadcastDownload E dappUid userAddress)
                          (fun maximaError => ret tt) ;;;
                MiniMartApp.countDownload r
              else throw (Error (toStr (or (error installResult)
                                           (VStr "MDS install returned false status")))))
             (fun installError => throw (ReferenceError "installResult"))
     end).
Proof.
  apply keeps_bind; [intros w; reflexivity | intros found].
  destruct found as [r|]; [|apply keeps_ret].
  unfold MiniMartApp.countDownload, MaximaAPI.broadcastDownload.
  destruct (maxima E); keeps_auto.
Qed.

(** X17.  The identifier of the user, once stored, is not replaced:
    [getUserMinimaAddress] returns it and changes nothing, and neither
    the look-up of the node's address, a manual address, an install nor
    a registration touches it, whatever the node answers. *)
Theorem persistent_id_is_kept (E : Env) (w : World) (id : string) :
  persistentId w = Some id ->
  id <> "" ->
  MiniMartApp.getUserMinimaAddress E w = (inr (VStr id), w)
  /\ fst (MinimaAPI.getPersistentUserId w) = inr (VStr id)
  /\ persistentId (snd (MinimaAPI.getCurrentAddress E w)) = Some id
  /\ (forall address, persistentId (snd (MinimaAPI.setManualAddress address w)) = Some id)
  /\ (forall dappUid, persistentId (snd (MiniMartApp.downloadDapp E dappUid w)) = Some id)
  /\ (forall dapp developerAddress,
        persistentId (snd (BlockchainAPI.registerDapp E dapp developerAddress w)) = Some id)
  /\ (forall profile,
        persistentId (snd (BlockchainAPI.registerProfile E profile w)) = Some id).
Proof.
  intros Hid Hne.
  split; [apply getUserMinimaAddress_stored; assumption|].
  split.
  { unfold MinimaAPI.getPersistentUserId, MinimaAPI.getItem, bind, read, ret.
    unfold persistentId in Hid. rewrite Hid. cbn [truthy].
    apply String.eqb_neq in Hne. rewrite Hne. reflexivity. }
  split; [apply (getCurrentAddress_persistentId E id Hne w Hid)|].
  split.
  { intros address. unfold MinimaAPI.setManualAddress, MinimaAPI.setItem, bind, write, ret.
    destruct (negb (String.eqb address "") && String.prefix "Mx" address
              && (30 <=? String.length address)%nat); cbn [snd]; [|exact Hid].
    unfold persistentId. cbn [localStorage set_localStorage set_currentAddress].
    rewrite lookup_insert_ne by discriminate. exact Hid. }
  split.
  { intros dappUid. unfold MiniMartApp.downloadDapp, try_catch.
    unfold bind at 1. rewrite (getUserMinimaAddress_stored E w id Hid Hne).
    pose proof (downloadDapp_rest_localStorage E dappUid (VStr id) w) as Hk.
    match goal with |- context [match ?m w with _ => _ end] =>
      change (localStorage (snd (m w)) = localStorage w) in Hk;
      destruct (m w) as [[e|u] w1] end; cbn [snd] in *;
      unfold persistentId, ret; cbn [snd]; rewrite Hk; exact Hid. }
  split.
  { intros dapp developerAddress. unfold persistentId.
    assert (Hk : keeps localStorage (BlockchainAPI.registerDapp E dapp developerAddress)).
    { unfold BlockchainAPI.registerDapp. cbv zeta. keeps_auto. }
    rewrite Hk. exact Hid. }
  intros profile. unfold persistentId.
  assert (Hk : keeps localStorage (BlockchainAPI.registerProfile E profile)).
  { unfold BlockchainAPI.registerProfile. cbv zeta. keeps_auto. }
  rewrite Hk. exact Hid.
Qed.

Lemma persistent_id_is_kept_witness :
  MiniMartApp.getUserMinimaAddress (Demo.chain []) Demo.shop = (inr (VStr "MxME"), Demo.shop)
  /\ persistentId (snd (MinimaAPI.getCurrentAddress (Demo.chain []) Demo.shop)) = Some "MxME"
  /\ persistentId (snd (MiniMartApp.downloadDapp (Demo.chain []) "0x1B264F8D" Demo.shop))
     = Some "MxME".
Proof.
  destruct (persistent_id_is_kept (Demo.chain []) Demo.shop "MxME" eq_refl ltac:(discriminate))
    as [H1 [_ [H2 [_ [H3 _]]]]].
  split; [exact H1|]. split; [exact H2 | exact (H3 "0x1B264F8D")].
Defined.

Lemma getCurrentAddress_development E w s :
  minimaAPI_isReady w = true ->
  developmentMode w = true ->
  localStorage w !! "minidev_address" = Some s ->
  s <> "" ->
  MinimaAPI.getCurrentAddress E w = (inr (VStr s), set_currentAddress (VStr s) w).
Proof.
  intros Hready Hdev Hl Hne. apply String.eqb_neq in Hne.
  unfold MinimaAPI.getCurrentAddress, MinimaAPI.getItem, try_catch, bind, read, write, ret.
  rewrite Hready. cbn [negb]. cbv beta iota. rewrite Hdev. cbv beta iota.
  rewrite Hl. cbn [truthy]. rewrite Hne. reflexivity.
Qed.

(** X18.  A manual address is accepted when it starts with Mx and has
    thirty characters or more, and then it is the address of the user
    in development mode: [getCurrentAddress] returns it, from the
    store, without a command to the node. *)
Theorem manual_address_is_used_in_development
  (E : Env) (w : World) (address : string) :
  minimaAPI_isReady w = true ->
  developmentMode w = true ->
  String.prefix "Mx" address = true ->
  (30 <= String.length address)%nat ->
  fst (MinimaAPI.setManualAddress address w) = inr true
  /\ fst (MinimaAPI.getCurrentAddress E (snd (MinimaAPI.setManualAddress address w)))
     = inr (VStr address)
  /\ currentAddress (snd (MinimaAPI.getCurrentAddress E
                            (snd (MinimaAPI.setManualAddress address w)))) = VStr address
  /\ commands (snd (MinimaAPI.getCurrentAddress E
                      (snd (MinimaAPI.setManualAddress address w)))) = commands w.
Proof.
  intros Hready Hdev Hp Hl.
  assert (Hne : String.eqb address "" = false).
  { destruct address; [simpl in Hl; lia | reflexivity]. }
  apply Nat.leb_le in Hl.
  unfold MinimaAPI.setManualAddress, MinimaAPI.setItem, bind, write, ret.
  rewrite Hne, Hp, Hl. cbn [negb andb fst snd]. split; [reflexivity|].
  rewrite (getCurrentAddress_development E _ address);
    [repeat split | exact Hready | exact Hdev | apply lookup_insert_eq
    | apply String.eqb_neq, Hne].
Qed.

Lemma manual_address_is_used_in_development_witness :
  fst (MinimaAPI.setManualAddress Sample.manual Sample.known) = inr true
  /\ fst (MinimaAPI.getCurrentAddress Demo.quiet
            (snd (MinimaAPI.setManualAddress Sample.manual Sample.known)))
     = inr (VStr Sample.manual)
  /\ currentAddress (snd (MinimaAPI.getCurrentAddress Demo.quiet
                            (snd (MinimaAPI.setManualAddress Sample.manual Sample.known))))
     = VStr Sample.manual
  /\ commands (snd (MinimaAPI.getCurrentAddress Demo.quiet
                      (snd (MinimaAPI.setManualAddress Sample.manual Sample.known))))
     = commands Sample.known.
Proof.
  apply (manual_address_is_used_in_development Demo.quiet Sample.known Sample.manual).
  - reflexivity.
  - reflexivity.
  - reflexivity.
  - vm_compute. lia.
Defined.

(** ** Announcements *)

Lemma find_head objects dappUid r refs :
  strictEqStr (prop (MiniMartApp.deref objects r) "uid") dappUid = true ->
  MiniMartApp.find objects dappUid (r :: refs) = inr (Some r).
Proof.
  intros H. cbn [MiniMartApp.find].
  destruct (MiniMartApp.deref objects r); try discriminate H.
  cbn [get prop] in *. rewrite H. reflexivity.
Qed.

Lemma deref_new objects dapp :
  MiniMartApp.deref (objects ++ [dapp]) (length objects) = dapp.
Proof. unfold MiniMartApp.deref. rewrite list_lookup_middle; reflexivity. Qed.

Lemma deref_old objects dapp r :
  (r < length objects)%nat ->
  MiniMartApp.deref (objects ++ [dapp]) r = MiniMartApp.deref objects r.
Proof. intros H. unfold MiniMartApp.deref. rewrite lookup_app_l by exact H. reflexivity. Qed.

(** X19.  A dapp announced over the live channel is put first in the
    list, in front of the listings that are there, which stay as they
    are; so a look-up of its uid finds the announced dapp, also when an
    older listing has the same uid. *)
Theorem announced_dapp_is_found_first (w : World) (message dapp : value) (uid : string) :
  prop message "type" = VStr "minidev_new_dapp" ->
  prop message "dapp" = dapp ->
  prop dapp "uid" = VStr uid ->
  fst (MiniMartApp.handleMaximaMessage message w) = inr tt
  /\ dapps (snd (MiniMartApp.handleMaximaMessage message w))
     = length (objects w) :: dapps w
  /\ MiniMartApp.find (objects (snd (MiniMartApp.handleMaximaMessage message w))) uid
                      (dapps (snd (MiniMartApp.handleMaximaMessage message w)))
     = inr (Some (length (objects w)))
  /\ MiniMartApp.deref (objects (snd (MiniMartApp.handleMaximaMessage message w)))
                       (length (objects w)) = dapp
  /\ (forall r, (r < length (objects w))%nat ->
        MiniMartApp.deref (objects (snd (MiniMartApp.handleMaximaMessage message w))) r
        = MiniMartApp.deref (objects w) r).
Proof.
  intros Ht Hd Hu.
  assert (Hm : nullish message = false) by (destruct message; try discriminate Ht; reflexivity).
  unfold MiniMartApp.handleMaximaMessage, MiniMartApp.handleNewDapp, bind, lift, write.
  rewrite (get_prop _ _ Hm), Ht, Hd. cbn [strictEqStr String.eqb Ascii.eqb Bool.eqb fst snd].
  cbn [set_view dapps objects].
  split; [reflexivity|]. split; [reflexivity|]. split.
  { apply find_head. rewrite deref_new, Hu. cbn [strictEqStr]. apply String.eqb_refl. }
  split; [apply deref_new | intros r Hr; apply deref_old, Hr].
Qed.

Lemma announced_dapp_is_found_first_witness :
  MiniMartApp.find (objects Demo.shop) "0x1B264F8D" (dapps Demo.shop) = inr (Some 0%nat)
  /\ MiniMartApp.find
       (objects (snd (MiniMartApp.handleMaximaMessage Sample.announcement Demo.shop)))
       "0x1B264F8D"
       (dapps (snd (MiniMartApp.handleMaximaMessage Sample.announcement Demo.shop)))
     = inr (Some 1%nat)
  /\ MiniMartApp.deref
       (objects (snd (MiniMartApp.handleMaximaMessage Sample.announcement Demo.shop))) 1
     = Sample.announced.
Proof.
  destruct (announced_dapp_is_found_first Demo.shop Sample.announcement Sample.announced
              "0x1B264F8D" eq_refl eq_refl eq_refl) as [_ [_ [H1 [H2 _]]]].
  split; [reflexivity|]. split; [exact H1 | exact H2].
Defined.

(** X20.  The handler takes an announcement as it comes.  One that
    carries no dapp puts [undefined] first in the list, and from then
    on every look-up by uid throws: an install of any listing stops
    after the user's address has been found, installs nothing and
    counts nothing. *)
Theorem empty_announcement_blocks_installs
  (E : Env) (w : World) (message : value) (dappUid : string) :
  prop message "type" = VStr "minidev_new_dapp" ->
  nullish (prop message "dapp") = true ->
  fst (MiniMartApp.handleMaximaMessage message w) = inr tt
  /\ MiniMartApp.find (objects (snd (MiniMartApp.handleMaximaMessage message w))) dappUid
                      (dapps (snd (MiniMartApp.handleMaximaMessage message w)))
     = inl (TypeError "uid")
  /\ MiniMartApp.downloadDapp E dappUid (snd (MiniMartApp.handleMaximaMessage message w))
     = (inr tt,
        snd (MiniMartApp.getUserMinimaAddress E
               (snd (MiniMartApp.handleMaximaMessage message w)))).
Proof.
  intros Ht Hd.
  assert (Hm : nullish message = false) by (destruct message; try discriminate Ht; reflexivity).
  unfold MiniMartApp.handleMaximaMessage, MiniMartApp.handleNewDapp, bind, lift, write.
  rewrite (get_prop _ _ Hm), Ht. cbn [strictEqStr String.eqb Ascii.eqb Bool.eqb fst snd].
  set (w1 := set_view (objects w ++ [prop message "dapp"]) (length (objects w) :: dapps w) w).
  assert (Hfind : forall w2, view w2 = view w1 ->
            MiniMartApp.find (objects w2) dappUid (dapps w2) = inl (TypeError "uid")).
  { intros w2 Hv. injection Hv as -> ->. unfold w1. cbn [set_view dapps objects].
    cbn [MiniMartApp.find]. rewrite deref_new, (get_nullish _ _ Hd). reflexivity. }
  split; [reflexivity|]. split; [apply Hfind; reflexivity|].
  unfold MiniMartApp.downloadDapp, try_catch, bind, ret.
  pose proof (getUserMinimaAddress_view E w1) as Hv.
  destruct (MiniMartApp.getUserMinimaAddress E w1) as [[e|a] w2]; cbn [snd] in *;
    [reflexivity|].
  rewrite (Hfind w2 Hv). reflexivity.
Qed.

Lemma empty_announcement_blocks_installs_witness :
  MiniMartApp.find (objects (snd (MiniMartApp.handleMaximaMessage Sample.emptyAnnouncement
                                    Demo.shop)))
                   "0x1B264F8D"
                   (dapps (snd (MiniMartApp.handleMaximaMessage Sample.emptyAnnouncement
                                  Demo.shop)))
  = inl (TypeError "uid")
  /\ commands (snd (MiniMartApp.downloadDapp (Demo.chain []) "0x1B264F8D"
                      (snd (MiniMartApp.handleMaximaMessage Sample.emptyAnnouncement
                              Demo.shop)))) = [].
Proof.
  destruct (empty_announcement_blocks_installs (Demo.chain []) Demo.shop
              Sample.emptyAnnouncement "0x1B264F8D" eq_refl eq_refl) as [_ [H1 H2]].
  split; [exact H1|]. rewrite H2. reflexivity.
Defined.

(** ** Ownership *)

(** X21.  The look-up of a registration is not implemented, so
    ownership is never verified: [getDappRegistration] returns [null]
    and [verifyDappOwnership] returns [false] for every dapp and every
    claimed owner, ready or not, also right after that owner has
    registered the dapp; neither touches the world. *)
Theorem ownership_is_never_verified
  (E : Env) (w : World) (dapp developerAddress : value) (dappUid claimedOwner : string) :
  BlockchainAPI.getDappRegistration dappUid w = (inr VNull, w)
  /\ BlockchainAPI.verifyDappOwnership dappUid claimedOwner w = (inr false, w)
  /\ fst (BlockchainAPI.verifyDappOwnership dappUid claimedOwner
            (snd (BlockchainAPI.registerDapp E dapp developerAddress w))) = inr false.
Proof.
  assert (H : forall w0, BlockchainAPI.verifyDappOwnership dappUid claimedOwner w0
                         = (inr false, w0)).
  { intros w0.
    unfold BlockchainAPI.verifyDappOwnership, BlockchainAPI.getDappRegistration,
      try_catch, bind, read, ret, throw.
    destruct (blockchainAPI_isReady w0); reflexivity. }
  split.
  { unfold BlockchainAPI.getDappRegistration, try_catch, bind, read, ret, throw.
    destruct (blockchainAPI_isReady w); reflexivity. }
  split; [apply H | rewrite H; reflexivity].
Qed.

(** X22.  In production mode the first address the node gives becomes
    the identifier of the user: with none stored, [getCurrentAddress]
    returns the node's address and stores it, and from then on the
    identifier stays, whatever address the node gives later. *)
Theorem first_address_becomes_the_identifier
  (E : Env) (w : World) (reply : Reply) (address : string) :
  minimaAPI_isReady w = true ->
  developmentMode w = false ->
  persistentId w = None ->
  fst (MinimaAPI.cmd E "getaddress" w) = inr reply ->
  prop (response reply) "address" = VStr address ->
  address <> "" ->
  fst (MinimaAPI.getCurrentAddress E w) = inr (VStr address)
  /\ currentAddress (snd (MinimaAPI.getCurrentAddress E w)) = VStr address
  /\ persistentId (snd (MinimaAPI.getCurrentAddress E w)) = Some address
  /\ (forall later : Env,
        persistentId (snd (MinimaAPI.getCurrentAddress later
                             (snd (MinimaAPI.getCurrentAddress E w)))) = Some address
        /\ fst (MiniMartApp.getUserMinimaAddress later
                  (snd (MinimaAPI.getCurrentAddress E w))) = inr (VStr address)).
Proof.
  intros Hready Hdev Hid Hcmd Haddr Hne.
  assert (Hrun : exists w1,
            MinimaAPI.getCurrentAddress E w
            = (inr (VStr address),
               set_localStorage (<["minidev_persistent_id" := address]> (localStorage w1))
                 (set_currentAddress (VStr address) w1))).
  { pose proof (cmd_keeps localStorage E "getaddress" ltac:(reflexivity) w) as Hk.
    unfold MinimaAPI.cmd in Hcmd, Hk.
    unfold MinimaAPI.getCurrentAddress, MinimaAPI.getItem, MinimaAPI.setItem,
      try_catch, bind, read, write, ret.
    rewrite Hready. cbn [negb]. cbv beta iota. rewrite Hdev. cbv beta iota.
    destruct (MinimaAPI._mdsCommand E "getaddress" w) as [r w1]. cbn [fst snd] in *.
    subst r. cbv zeta.
    assert (Hresp : truthy (response reply) = true).
    { destruct (response reply); try discriminate Haddr; reflexivity. }
    rewrite Hresp, Haddr. cbn [truthy andb].
    apply String.eqb_neq in Hne. rewrite Hne. cbn [negb]. cbv beta iota.
    cbn [localStorage set_currentAddress].
    unfold persistentId in Hid. rewrite Hk, Hid. cbn [truthy negb].
    exists w1. reflexivity. }
  destruct Hrun as [w1 ->]. cbn [fst snd].
  split; [reflexivity|]. split; [reflexivity|].
  assert (Hstored : persistentId
                      (set_localStorage
                         (<["minidev_persistent_id" := address]> (localStorage w1))
                         (set_currentAddress (VStr address) w1)) = Some address).
  { unfold persistentId. cbn [localStorage set_localStorage]. apply lookup_insert_eq. }
  split; [exact Hstored|]. intros later. split.
  - apply (getCurrentAddress_persistentId later address Hne _ Hstored).
  - rewrite (getUserMinimaAddress_stored later _ address Hstored Hne). reflexivity.
Qed.

Lemma first_address_becomes_the_identifier_witness :
  fst (MinimaAPI.getCurrentAddress (Sample.addressing "MxFIRST") Demo.online)
  = inr (VStr "MxFIRST")
  /\ fst (MinimaAPI.getCurrentAddress (Sample.addressing "MxSECOND")
            (snd (MinimaAPI.getCurrentAddress (Sample.addressing "MxFIRST") Demo.online)))
     = inr (VStr "MxSECOND")
  /\ persistentId (snd (MinimaAPI.getCurrentAddress (Sample.addressing "MxSECOND")
                          (snd (MinimaAPI.getCurrentAddress (Sample.addressing "MxFIRST")
                                  Demo.online)))) = Some "MxFIRST".
Proof.
  destruct (first_address_becomes_the_identifier (Sample.addressing "MxFIRST") Demo.online
              (mkReply (VBool true) (VObj [("address", VStr "MxFIRST")]) VUndef) "MxFIRST"
              eq_refl eq_refl eq_refl eq_refl eq_refl ltac:(discriminate))
    as [H1 [_ [_ H2]]].
  split; [exact H1|]. split; [vm_compute; reflexivity|].
  exact (proj1 (H2 (Sample.addressing "MxSECOND"))).
Defined.

(** ** A record that cannot be visited *)

Lemma scan_stops_at_null E bad after before : forall limit dapps,
  nullish bad = true ->
  forallb wellFormedRecord before = true ->
  (length (dapps ++ omap (registration E) before) < Z.to_nat limit)%nat ->
  BlockchainAPI.scan E (before ++ bad :: after) limit dapps = inl (TypeError "state").
Proof.
  induction before as [|coin rest IH]; intros limit dapps Hbad Hwf Hlen.
  - cbn [app BlockchainAPI.scan]. unfold BlockchainAPI.visit.
    rewrite (get_nullish _ _ Hbad). reflexivity.
  - cbn [forallb] in Hwf. apply andb_true_iff in Hwf as [Hc Hrest].
    cbn [app BlockchainAPI.scan]. rewrite (visit_registration _ _ _ Hc).
    cbn [omap list_omap] in Hlen. fold (omap (registration E) rest) in Hlen.
    assert (Hl : (length ((dapps ++ option_list (registration E coin))
                          ++ omap (registration E) rest) < Z.to_nat limit)%nat).
    { rewrite <- app_assoc.
      destruct (registration E coin); cbn [option_list app]; exact Hlen. }
    assert (Hge : (Z.of_nat (length (dapps ++ option_list (registration E coin))) >=? limit)
                  = false).
    { rewrite length_app in Hl. rewrite Z.geb_leb. apply Z.leb_gt. lia. }
    rewrite Hge. apply IH; assumption.
Qed.

Lemma scanProfiles_stops_at_null E address bad after before : forall profiles,
  nullish bad = true ->
  forallb wellFormedRecord before = true ->
  BlockchainAPI.scanProfiles E address (before ++ bad :: after) profiles
  = inl (TypeError "state").
Proof.
  induction before as [|coin rest IH]; intros profiles Hbad Hwf.
  - cbn [app BlockchainAPI.scanProfiles]. unfold BlockchainAPI.visitProfile.
    rewrite (get_nullish _ _ Hbad). reflexivity.
  - cbn [forallb] in Hwf. apply andb_true_iff in Hwf as [Hc Hrest].
    cbn [app BlockchainAPI.scanProfiles]. rewrite (visitProfile_record _ _ _ _ Hc).
    apply IH; assumption.
Qed.

(** X23.  One record that is [null] costs the whole result: when the
    scan comes to it, before the limit is reached, what was collected
    so far is dropped and the caller gets the empty list, from the scan
    of the registrations as from the scan of the profiles. *)
Theorem null_record_empties_the_scan
  (E : Env) (w : World) (limit : option Z) (address : option string)
  (result : Reply) (before after : list value) (bad : value) :
  blockchainAPI_isReady w = true ->
  fst (MinimaAPI.cmd E "coins relevant:false" w) = inr result ->
  prop (response result) "coins" = VArr (before ++ bad :: after) ->
  forallb wellFormedRecord before = true ->
  nullish bad = true ->
  (length (omap (registration E) before) < Z.to_nat (default 100%Z limit))%nat ->
  fst (BlockchainAPI.queryRegisteredDapps E limit w) = inr []
  /\ fst (BlockchainAPI.queryProfiles E address w) = inr [].
Proof.
  intros Hready Hcmd Hcoins Hwf Hbad Hlen. split.
  - unfold BlockchainAPI.queryRegisteredDapps, try_catch, bind, read, throw, ret, lift.
    rewrite Hready. simpl.
    destruct (MinimaAPI.cmd E "coins relevant:false" w) as [r w'].
    simpl in Hcmd. subst r.
    assert (Ht : truthy (response result) = true).
    { destruct (response result); simpl in Hcoins; try discriminate; reflexivity. }
    rewrite Ht, Hcoins. simpl.
    rewrite scan_stops_at_null; [reflexivity | exact Hbad | exact Hwf | exact Hlen].
  - rewrite (queryProfiles_run E address w result _ Hready Hcmd Hcoins).
    rewrite scanProfiles_stops_at_null; [reflexivity | exact Hbad | exact Hwf].
Qed.

Lemma null_record_empties_the_scan_witness :
  fst (BlockchainAPI.queryRegisteredDapps (Demo.chain (Demo.ledger ++ [VNull])) None Demo.online)
  = inr []
  /\ fst (BlockchainAPI.queryProfiles (Demo.chain (Demo.ledger ++ [VNull])) None Demo.online)
     = inr [].
Proof.
  apply (null_record_empties_the_scan (Demo.chain (Demo.ledger ++ [VNull])) Demo.online
           None None
           (mkReply (VBool true) (VObj [("coins", VArr (Demo.ledger ++ [VNull]))]) VUndef)
           Demo.ledger [] VNull).
  - reflexivity.
  - reflexivity.
  - reflexivity.
  - reflexivity.
  - reflexivity.
  - vm_compute. lia.
Defined.

(** ** Stored profiles *)

Lemma prefix_append s t : String.prefix s (s ++ t) = true.
Proof.
  induction s as [|c r IH]; [destruct t; reflexivity|].
  simpl. destruct (ascii_dec c c); [exact IH | congruence].
Qed.

Lemma takenBy_iff E username currentAddress text :
  Profiles.takenBy E username currentAddress text = true
  <-> exists profileData,
        JSON_parse E text = Some profileData
        /\ prop profileData "username" = VStr username
        /\ Profiles.strictEq (prop profileData "address") currentAddress = false.
Proof.
  unfold Profiles.takenBy. destruct (JSON_parse E text) as [pd|].
  - destruct (nullish pd) eqn:Hn.
    + rewrite (get_nullish _ _ Hn). split; [discriminate|].
      intros [pd' [[= <-] [Hu _]]]. destruct pd; discriminate.
    + rewrite (get_prop _ _ Hn). rewrite andb_true_iff, negb_true_iff. split.
      * intros [Hu Ha]. exists pd. split; [reflexivity|]. split; [|exact Ha].
        destruct (prop pd "username"); try discriminate Hu.
        apply String.eqb_eq in Hu. congruence.
      * intros [pd' [[= <-] [Hu Ha]]]. rewrite Hu. cbn [strictEqStr].
        rewrite String.eqb_refl. auto.
  - split; [discriminate|]. intros [pd [H _]]. discriminate.
Qed.

Lemma checkUsernameUnique_run E username currentAddress w :
  exists available,
    Profiles.checkUsernameUnique E username currentAddress w = (inr available, w)
    /\ (available = false <-> heldByAnother E w username currentAddress).
Proof.
  unfold Profiles.checkUsernameUnique, try_catch, bind, read, ret. cbv zeta.
  eexists. split; [reflexivity|].
  rewrite negb_false_iff, existsb_exists. unfold heldByAnother. split.
  - intros [[key text] [Hin Ht]]. apply filter_In in Hin as [Hin Hp].
    apply list_elem_of_In, elem_of_map_to_list in Hin.
    apply takenBy_iff in Ht as [pd [H1 [H2 H3]]].
    exists key, text, pd. auto.
  - intros [key [text [pd [Hl [Hp [H1 [H2 H3]]]]]]].
    exists (key, text). split.
    + apply filter_In. split; [|exact Hp].
      apply list_elem_of_In, elem_of_map_to_list. exact Hl.
    + apply takenBy_iff. exists pd. auto.
Qed.

(** X24.  The check of a user name reads the store and changes
    nothing; it never throws.  The name is refused exactly when some
    text stored under a profile key decodes to a profile with that
    username and an address that is not the asking user's; stored text
    that does not decode is passed over. *)
Theorem checkUsernameUnique_refuses_a_name_held_by_another
  (E : Env) (w : World) (username : string) (currentAddress : value) :
  exists available,
    Profiles.checkUsernameUnique E username currentAddress w = (inr available, w)
    /\ (available = false <-> heldByAnother E w username currentAddress).
Proof. apply checkUsernameUnique_run. Qed.

Lemma strictEq_same a b : Profiles.strictEq a b = true -> a = b.
Proof.
  destruct a, b; simpl; try discriminate; intros H; try reflexivity.
  - apply Bool.eqb_prop in H. congruence.
  - apply Z.eqb_eq in H. congruence.
  - apply String.eqb_eq in H. congruence.
Qed.

Lemma storedProfile_prop props t k :
  k <> "lastUpdated" -> k <> "storedLocally" ->
  prop (storedProfile (VObj props) t) k = prop (VObj props) k.
Proof.
  intros H1 H2. unfold storedProfile. cbn [prop].
  rewrite !assoc_withProp_ne by assumption. reflexivity.
Qed.

Lemma saveProfile_run E profileData w id :
  truthy profileData = true ->
  persistentId w = Some id -> id <> "" ->
  exists w',
    Profiles.saveProfile E profileData w = (inr true, w')
    /\ localStorage w'
       = <[("minidev_profile_" ++ id)%string
           := toStr (stringified (storedProfile profileData (clock E (ticks w))))]>
           (localStorage w).
Proof.
  intros Hp Hid Hne. apply String.eqb_neq in Hne. unfold persistentId in Hid.
  unfold Profiles.saveProfile, Profiles.broadcastProfileUpdate, MinimaAPI.getPersistentUserId,
    MinimaAPI.getItem, MinimaAPI.setItem, try_catch, bind, read, write, ret, throw, Date_now.
  rewrite Hp. cbn [negb]. cbv beta iota. rewrite Hid. cbn [truthy]. rewrite Hne.
  cbn [negb]. cbv beta iota zeta. cbn [truthy]. rewrite Hne. cbn [negb]. cbv beta iota.
  destruct (maxima E); eexists; split; reflexivity.
Qed.

(** X25.  A profile that is saved takes its name: [saveProfile] stores
    the profile, stamped with the clock, under the key of the user's
    identifier; from then on the check refuses the profile's username
    to every other address, and still grants it to the profile's own
    address when it did so before. *)
Theorem saved_profile_takes_the_name
  (E : Env) (w : World) (profileData parsed : value) (id username : string) :
  persistentId w = Some id ->
  id <> "" ->
  prop profileData "username" = VStr username ->
  JSON_parse E (toStr (stringified (storedProfile profileData (clock E (ticks w)))))
  = Some parsed ->
  (forall k, prop parsed k = prop (storedProfile profileData (clock E (ticks w))) k) ->
  fst (Profiles.saveProfile E profileData w) = inr true
  /\ localStorage (snd (Profiles.saveProfile E profileData w))
       !! ("minidev_profile_" ++ id)%string
     = Some (toStr (stringified (storedProfile profileData (clock E (ticks w)))))
  /\ (forall other,
        Profiles.strictEq (prop profileData "address") other = false ->
        fst (Profiles.checkUsernameUnique E username other
               (snd (Profiles.saveProfile E profileData w))) = inr false)
  /\ (forall own,
        Profiles.strictEq (prop profileData "address") own = true ->
        fst (Profiles.checkUsernameUnique E username own w) = inr true ->
        fst (Profiles.checkUsernameUnique E username own
               (snd (Profiles.saveProfile E profileData w))) = inr true).
Proof.
  intros Hid Hne Hu Hparse Hprops.
  assert (Hobj : exists props, profileData = VObj props).
  { destruct profileData; try discriminate Hu. eauto. }
  destruct Hobj as [props ->].
  destruct (saveProfile_run E (VObj props) w id eq_refl Hid Hne) as [w' [Hrun Hl]].
  rewrite Hrun. cbn [fst snd]. split; [reflexivity|].
  split; [rewrite Hl; apply lookup_insert_eq|].
  assert (Hname : prop parsed "username" = VStr username).
  { rewrite Hprops, storedProfile_prop by discriminate. exact Hu. }
  assert (Haddr : prop parsed "address" = prop (VObj props) "address").
  { rewrite Hprops, storedProfile_prop by discriminate. reflexivity. }
  split.
  - intros other Ho.
    destruct (checkUsernameUnique_run E username other w') as [b [-> Hb]]. cbn [fst].
    f_equal. apply Hb.
    exists ("minidev_profile_" ++ id)%string,
           (toStr (stringified (storedProfile (VObj props) (clock E (ticks w))))), parsed.
    split; [rewrite Hl; apply lookup_insert_eq|].
    split; [apply prefix_append|]. split; [exact Hparse|]. split; [exact Hname|].
    rewrite Haddr. exact Ho.
  - intros own Ho.
    destruct (checkUsernameUnique_run E username own w) as [b0 [-> Hb0]].
    destruct (checkUsernameUnique_run E username own w') as [b [-> Hb]]. cbn [fst].
    intros [= ->]. f_equal. destruct b; [reflexivity|].
    destruct (proj1 Hb eq_refl) as [key [text [pd [Hk [Hp [H1 [H2 H3]]]]]]].
    rewrite Hl in Hk. apply lookup_insert_Some in Hk as [[<- <-] | [Hkne Hk]].
    + rewrite Hparse in H1. injection H1 as <-. rewrite Haddr, Ho in H3. discriminate.
    + symmetry. apply Hb0. exists key, text, pd. auto.
Qed.

Lemma saved_profile_takes_the_name_witness :
  fst (Profiles.saveProfile Sample.browser Sample.form Demo.shop) = inr true
  /\ fst (Profiles.checkUsernameUnique Sample.browser "alice" (VStr "MxBOB") Demo.shop)
     = inr true
  /\ fst (Profiles.checkUsernameUnique Sample.browser "alice" (VStr "MxBOB")
            (snd (Profiles.saveProfile Sample.browser Sample.form Demo.shop))) = inr false
  /\ fst (Profiles.checkUsernameUnique Sample.browser "alice" (VStr "MxME")
            (snd (Profiles.saveProfile Sample.browser Sample.form Demo.shop))) = inr true.
Proof.
  destruct (saved_profile_takes_the_name Sample.browser Demo.shop Sample.form
              (storedProfile Sample.form (Demo.clockMs 0)) "MxME" "alice"
              eq_refl ltac:(discriminate) eq_refl) as [H1 [_ [H2 H3]]].
  - vm_compute. reflexivity.
  - intros k. reflexivity.
  - split; [exact H1|]. split; [vm_compute; reflexivity|].
    split; [apply (H2 (VStr "MxBOB")); reflexivity|].
    apply (H3 (VStr "MxME")); [reflexivity | vm_compute; reflexivity].
Defined.

(** ** Installs *)

(** X26.  An install never throws and never adds, removes or reorders
    a listing.  It changes a listing in one case only: the dapp was
    found, it has a file, and the node answered the install command
    with a status that is [true]; then the downloads counter of that
    listing, and nothing else, goes up by one.  A node that refuses, an
    unknown dapp or a dapp without a file leave every listing as it
    was. *)
Theorem downloadDapp_counts_only_installs (E : Env) (dappUid : string) (w : World) :
  fst (MiniMartApp.downloadDapp E dappUid w) = inr tt
  /\ dapps (snd (MiniMartApp.downloadDapp E dappUid w)) = dapps w
  /\ (objects (snd (MiniMartApp.downloadDapp E dappUid w)) = objects w
      \/ exists r installResult,
           MiniMartApp.find (objects w) dappUid (dapps w) = inr (Some r)
           /\ truthy (prop (MiniMartApp.deref (objects w) r) "file") = true
           /\ fst (MinimaAPI.cmd E
                     ("mds action:install file:"
                      ++ toStr (prop (MiniMartApp.deref (objects w) r) "file"))
                     (snd (MiniMartApp.getUserMinimaAddress E w))) = inr installResult
           /\ status installResult = VBool true
           /\ objects (snd (MiniMartApp.downloadDapp E dappUid w))
              = <[r := MiniMartApp.setProp (MiniMartApp.deref (objects w) r) "downloads"
                         (plus1 (or (prop (MiniMartApp.deref (objects w) r) "downloads")
                                    (VNum 0)))]> (objects w)).
Proof.
  unfold MiniMartApp.downloadDapp, try_catch, bind, read, ret, throw.
  pose proof (getUserMinimaAddress_view E w) as Hv.
  destruct (MiniMartApp.getUserMinimaAddress E w) as [[e|a] w1]; cbn [fst snd] in *;
    injection Hv as Hd Ho; [auto|].
  rewrite Ho, Hd.
  destruct (MiniMartApp.find (objects w) dappUid (dapps w)) as [e|[r|]] eqn:Hfind;
    cbn [fst snd]; [auto| |auto].
  cbv beta iota. rewrite Ho.
  destruct (truthy (prop (MiniMartApp.deref (objects w) r) "file")) eqn:Hfile;
    cbn [negb fst snd]; [|auto].
  cbv beta iota.
  pose proof (cmd_keeps view E
                ("mds action:install file:"
                 ++ toStr (prop (MiniMartApp.deref (objects w) r) "file"))
                (fun _ _ => eq_refl) w1) as Hv2.
  destruct (MinimaAPI.cmd E _ w1) as [[e|installResult] w2] eqn:Hcmd; cbn [fst snd] in *;
    injection Hv2 as Hd2 Ho2; [rewrite Hd2, Ho2, Hd, Ho; auto|].
  destruct (strictEqTrue (status installResult)) eqn:Hs.
  - assert (Hst : status installResult = VBool true).
    { destruct (status installResult) as [| |[|]| | | |]; try discriminate Hs; reflexivity. }
    unfold MaximaAPI.broadcastDownload, MiniMartApp.countDownload, write, ret, throw.
    destruct (maxima E); cbn [fst snd set_view dapps objects];
      (split; [reflexivity|]; split; [congruence|]; right; exists r, installResult;
       rewrite Ho2, Ho; repeat split; try assumption; try reflexivity;
       rewrite Hcmd; reflexivity).
  - cbn [fst snd]. rewrite Hd2, Ho2, Hd, Ho. auto.
Qed.
